(** * JamfUploadSharepointUpdater: a shallow embedding and its properties

    The processor [JamfUploadSharepointUpdater] (file
    [Shared_Processors/JamfUploadSharepointUpdater.py]) reconciles three
    SharePoint lists after a packaging run.  The Python code talks to the
    SharePoint site only through four calls of the [shareplum] library
    ([Site], [site.List], [GetListItems], [UpdateListItems]); here every such
    call is an event of a small free monad, and the site is an explicit
    state on which the events are interpreted.

    Strings are byte strings (the UTF-8 encoding of the Python [str]). *)

From Stdlib Require Import String Ascii List Bool Arith Lia.
From stdpp Require Import base option list sorting gmap strings fin_maps fin_sets.

Local Open Scope string_scope.
Local Open Scope list_scope.
Set Warnings "-register-all,-clear-no-such-hyp".

(** ** Python values written to list fields *)

(** [self.env.get(...)] yields a string or [None]; both can be handed to
    [update_record] as the value of a field. *)
Inductive pyval : Type :=
  | PyNone : pyval
  | PyStr (s : string) : pyval.

Global Instance pyval_eq_dec : EqDecision pyval.
Proof. solve_decision. Defined.

Definition of_opt (o : option string) : pyval :=
  match o with
  | Some s => PyStr s
  | None => PyNone
  end.

(** Python truthiness of an optional string: [None] and [""] are false. *)
Definition truthy (o : option string) : bool :=
  match o with
  | Some EmptyString => false
  | Some _ => true
  | None => false
  end.

(** [sub in s] on Python strings. *)
Fixpoint contains (sub s : string) : bool :=
  String.prefix sub s ||
  match s with
  | EmptyString => false
  | String _ s' => contains sub s'
  end.

(** ** The SharePoint site *)

(** The three lists the processor addresses by title. *)
Inductive splist : Type :=
  | JamfContentList
  | JamfTestCoordination
  | JamfTestReview.

Global Instance splist_eq_dec : EqDecision splist.
Proof. solve_decision. Defined.

Definition list_title (l : splist) : string :=
  match l with
  | JamfContentList => "Jamf Content List"
  | JamfTestCoordination => "Jamf Test Coordination"
  | JamfTestReview => "Jamf Test Review"
  end.

(** A list item: a dictionary from column title to value.  The item
    identifier (column [ID]) is the key under which the item is stored. *)
Abbreviation row := (gmap string pyval).
Abbreviation items := (gmap positive row).

(** The state of the site: the items of the three lists, and for each list
    the column values SharePoint gives to a new item before the fields of
    the creating call are applied (the list schema; no call of the
    processor changes it). *)
Record site : Type := Site {
  content_list : items;
  test_coordination : items;
  test_review : items;
  column_defaults : splist -> row
}.

Definition get_items (l : splist) (s : site) : items :=
  match l with
  | JamfContentList => content_list s
  | JamfTestCoordination => test_coordination s
  | JamfTestReview => test_review s
  end.

Definition set_items (l : splist) (m : items) (s : site) : site :=
  match l with
  | JamfContentList =>
      Site m (test_coordination s) (test_review s) (column_defaults s)
  | JamfTestCoordination =>
      Site (content_list s) m (test_review s) (column_defaults s)
  | JamfTestReview =>
      Site (content_list s) (test_coordination s) m (column_defaults s)
  end.

(** ** Queries *)

Inductive operand : Type :=
  | OpEq    (* "Eq" *)
  | OpNeq.  (* "Neq" *)

Global Instance operand_eq_dec : EqDecision operand.
Proof. solve_decision. Defined.

(** A criteria dictionary [{key: [operand, value]}], in insertion order. *)
Definition criteria : Type := list (string * (operand * string)).

(** An element of the list [query["Where"]]: the string ["And"] or a tuple
    [(operand, key, value)]. *)
Inductive where_item : Type :=
  | WAnd : where_item
  | WCmp (o : operand) (key value : string) : where_item.

Global Instance where_item_eq_dec : EqDecision where_item.
Proof. solve_decision. Defined.

(** One round of the loop of [build_query]; the state is
    [(query["Where"], fields, first)]. *)
Definition build_query_step
    (st : list where_item * list string * bool)
    (kv : string * (operand * string))
  : list where_item * list string * bool :=
  let '(w, fields, first) := st in
  let '(key, (o, value)) := kv in
  let w := w ++ [WCmp o key value] in
  let fields := fields ++ [key] in
  let w := if negb first then w ++ [WAnd] else w in
  (w, fields, false).

(** [build_query(criteria)] returns [(fields, query)]; the query dictionary
    has the single key ["Where"], so it is represented by that list. *)
Definition build_query (c : criteria) : list string * list where_item :=
  let '(w, fields, _) := fold_left build_query_step c ([], ["ID"], true) in
  (fields, rev w).

(** *** How the store reads a query

    [shareplum] turns the ["Where"] list into a CAML tree from left to
    right: a tuple becomes a comparison under the current parent, and
    ["And"] opens an [<And>] element under the current parent that becomes
    the parent of everything that follows (the format of the docstring of
    [build_query]: [['And', ('Eq', ..), ('Eq', ..)]]).  SharePoint accepts
    a [<Where>] with exactly one child and an [<And>] with exactly two. *)
Inductive caml : Type :=
  | CCmp (o : operand) (key value : string) : caml
  | CAnd (children : list caml) : caml.

Fixpoint where_children (w : list where_item) : list caml :=
  match w with
  | [] => []
  | WCmp o k v :: rest => CCmp o k v :: where_children rest
  | WAnd :: rest => [CAnd (where_children rest)]
  end.

(** A comparison on an item: [Eq] holds when the column has exactly that
    text; [Neq] is its negation (an item without the column differs). *)
Definition compare (o : operand) (key value : string) (r : row) : bool :=
  match o with
  | OpEq => bool_decide (r !! key = Some (PyStr value))
  | OpNeq => negb (bool_decide (r !! key = Some (PyStr value)))
  end.

Fixpoint eval_caml (t : caml) (r : row) : option bool :=
  match t with
  | CCmp o k v => Some (compare o k v r)
  | CAnd [a; b] =>
      match eval_caml a r, eval_caml b r with
      | Some x, Some y => Some (x && y)
      | _, _ => None
      end
  | CAnd _ => None
  end.

(** The value of a query on an item; [None] when the tree is malformed. *)
Definition eval_where (w : list where_item) (r : row) : option bool :=
  match where_children w with
  | [t] => eval_caml t r
  | _ => None
  end.

(** An item meets a criteria dictionary when it meets every entry. *)
Definition satisfies (r : row) (kv : string * (operand * string)) : bool :=
  compare (fst (snd kv)) (fst kv) (snd (snd kv)) r.

Definition matches (c : criteria) (r : row) : bool := forallb (satisfies r) c.

(** ** Calls to the site *)

(** The calls the processor makes to [shareplum].  Each is one blocking
    remote call. *)
Inductive op : Type :=
  | OpSite (url user password : string)
      (* [Site(url, auth=HttpNtlmAuth(user, password))] *)
  | OpList (l : splist)
      (* [site.List(listname)] *)
  | OpGetListItems (l : splist) (fields : list string) (w : list where_item)
      (* [sp_list.GetListItems(fields=fields, query=query)] *)
  | OpNew (l : splist) (key : string) (value : pyval)
      (* [sp_list.UpdateListItems([{key: value}], "New")] *)
  | OpUpdate (l : splist) (id : positive) (key : string) (value : pyval)
      (* [sp_list.UpdateListItems(data=[{"ID": id, key: value}], kind="Update")] *)
  | OpDelete (l : splist) (ids : list positive)
      (* [sp_list.UpdateListItems(data=ids, kind="Delete")] *).

(** The rows a query returns: the items on which the query holds, by
    increasing identifier, each with its identifier and the requested
    columns. *)
Definition id_le (a b : positive * row) : Prop := (a.1 <= b.1)%positive.

Global Instance id_le_dec : RelDecision id_le.
Proof. intros a b. unfold id_le. apply _. Defined.

Definition project (fields : list string) (r : row) : row :=
  filter (fun kv => bool_decide (kv.1 ∈ fields)) r.

Definition select (fields : list string) (w : list where_item) (m : items)
  : list (positive * row) :=
  merge_sort id_le
    (omap (fun ir : positive * row =>
             match eval_where w ir.2 with
             | Some true => Some (ir.1, project fields ir.2)
             | _ => None
             end)
          (map_to_list m)).

(** The effect of a call on the site, and the rows it returns (only
    [GetListItems] returns any).  A new item gets an identifier that no
    item of the list has (the processor stores no identifier, it reads
    them from each query) and the default column values overridden by the
    given field; an update writes one field of the item with that
    identifier; a delete removes the items with the given identifiers,
    those that exist. *)
Definition perform (o : op) (s : site) : site * list (positive * row) :=
  match o with
  | OpSite _ _ _ => (s, [])
  | OpList _ => (s, [])
  | OpGetListItems l fields w => (s, select fields w (get_items l s))
  | OpNew l k v =>
      let m := get_items l s in
      (set_items l (<[fresh (dom m) := <[k := v]> (column_defaults s l)]> m) s, [])
  | OpUpdate l id k v =>
      (set_items l (alter (insert k v) id (get_items l s)) s, [])
  | OpDelete l ids =>
      (set_items l (foldr delete (get_items l s) ids) s, [])
  end.

(** The site after a sequence of calls. *)
Definition replay (ops : list op) (s : site) : site :=
  fold_left (fun s o => (perform o s).1) ops s.

(** ** Programs *)

Inductive exn : Type :=
  | ProcessorError (msg : string)
      (* raised by the processor or by [autopkglib] *)
  | RemoteOperationError
      (* raised inside a failing call to [shareplum] *).

Inductive result (A : Type) : Type :=
  | Ok (a : A)
  | Raised (e : exn).
Arguments Ok {A} a.
Arguments Raised {A} e.

(** A program is a tree of calls: it returns, raises, or makes a call and
    continues with the rows returned.  No [try] occurs in the processor. *)
Inductive prog (A : Type) : Type :=
  | Ret (a : A)
  | Raise (e : exn)
  | Call (o : op) (k : list (positive * row) -> prog A).
Arguments Ret {A} a.
Arguments Raise {A} e.
Arguments Call {A} o k.

Fixpoint bind {A B : Type} (p : prog A) (f : A -> prog B) : prog B :=
  match p with
  | Ret a => f a
  | Raise e => Raise e
  | Call o k => Call o (fun rows => bind (k rows) f)
  end.

Declare Scope prog_scope.
Delimit Scope prog_scope with prog.
Notation "x <- p ;; q" := (bind p (fun x => q))
  (at level 100, p at next level, right associativity) : prog_scope.
Notation "p ;; q" := (bind p (fun _ => q))
  (at level 100, right associativity) : prog_scope.
Local Open Scope prog_scope.

Definition call (o : op) : prog (list (positive * row)) := Call o Ret.

(** [for x in xs: body(x)] *)
Fixpoint for_each {X : Type} (xs : list X) (body : X -> prog unit) : prog unit :=
  match xs with
  | [] => Ret tt
  | x :: xs' => body x ;; for_each xs' body
  end.

(** Running a program on a site.  [budget] is the number of calls the site
    answers before one fails ([None]: every call succeeds); a failing call
    raises in the middle of the program and leaves the site as it is.  The
    run yields the outcome, the site, and the calls that were answered. *)
Fixpoint run {A : Type} (p : prog A) (budget : option nat) (s : site)
  : result A * site * list op :=
  match p with
  | Ret a => (Ok a, s, [])
  | Raise e => (Raised e, s, [])
  | Call o k =>
      match budget with
      | Some O => (Raised RemoteOperationError, s, [])
      | _ =>
          let '(s1, rows) := perform o s in
          let '(r, s2, tr) := run (k rows) (pred <$> budget) s1 in
          (r, s2, o :: tr)
      end
  end.

(** A run in which every call succeeds. *)
Definition exec {A : Type} (p : prog A) (s : site) : result A * site * list op :=
  run p None s.

(** ** The methods of the processor *)

(** [connect_sharepoint]: the user is passed as [f"d\\{user}"] (byte 92 is
    the backslash).  The test [if not site] never fires on a [Site] object;
    a connection that cannot be made fails inside the call. *)
Definition connect_sharepoint (url user password : string) : prog unit :=
  call (OpSite url ("d" +:+ String (ascii_of_nat 92) user) password) ;;
  Ret tt.

(** [check_list]: true when the query returns at least one row. *)
Definition check_list (l : splist) (c : criteria) : prog bool :=
  call (OpList l) ;;
  let '(fields, query) := build_query c in
  rows <- call (OpGetListItems l fields query) ;;
  Ret (match rows with [] => false | _ :: _ => true end).

(** [update_record]: one update call for each row the query returns. *)
Definition update_record (l : splist) (list_key : string) (list_value : pyval)
    (c : criteria) : prog unit :=
  call (OpList l) ;;
  let '(fields, query) := build_query c in
  rows <- call (OpGetListItems l fields query) ;;
  for_each rows (fun r => call (OpUpdate l r.1 list_key list_value) ;; Ret tt).

(** [add_record] *)
Definition add_record (l : splist) (list_key : string) (list_value : string)
  : prog unit :=
  call (OpList l) ;;
  call (OpNew l list_key (PyStr list_value)) ;;
  Ret tt.

(** The loop of [delete_record]: [delete_data] grows by one identifier in
    each round and the whole of it is sent in each round. *)
Fixpoint delete_loop (l : splist) (delete_data : list positive)
    (rows : list (positive * row)) : prog unit :=
  match rows with
  | [] => Ret tt
  | r :: rows' =>
      let delete_data := delete_data ++ [r.1] in
      call (OpDelete l delete_data) ;;
      delete_loop l delete_data rows'
  end.

Definition delete_record (l : splist) (c : criteria) : prog unit :=
  call (OpList l) ;;
  let '(fields, query) := build_query c in
  rows <- call (OpGetListItems l fields query) ;;
  delete_loop l [] rows.

(** *** [test_report_url] *)

Definition hex_digit (n : nat) : ascii :=
  nth n (list_ascii_of_string "0123456789ABCDEF") "0"%char.

(** The bytes [urllib.parse.quote] never escapes: letters, digits and
    [_.-~]. *)
Definition always_safe (c : ascii) : bool :=
  let n := nat_of_ascii c in
  (((65 <=? n) && (n <=? 90)) || ((97 <=? n) && (n <=? 122)) ||
   ((48 <=? n) && (n <=? 57)) ||
   (n =? 95) || (n =? 46) || (n =? 45) || (n =? 126))%nat.

(** [urllib.parse.quote_plus]: a safe byte stays, a space becomes [+],
    any other byte becomes [%XX]. *)
Fixpoint quote_plus (s : string) : string :=
  match s with
  | EmptyString => EmptyString
  | String c s' =>
      let n := nat_of_ascii c in
      (if always_safe c then String c EmptyString
       else if (n =? 32)%nat then "+"
       else String "%" (String (hex_digit (n / 16))
                          (String (hex_digit (n mod 16)) EmptyString)))
      +:+ quote_plus s'
  end.

(** [urllib.parse.urlencode(params)] *)
Definition urlencode (params : list (string * string)) : string :=
  String.concat "&" (map (fun kv => quote_plus kv.1 +:+ "=" +:+ quote_plus kv.2) params).

Definition test_report_url (sp_url policy_name : string) : string :=
  let params := [("Title", policy_name)] in
  let url_encoded := urlencode params in
  let list_name_url := "Jamf_Item_Test" in
  sp_url +:+ "/Lists/" +:+ list_name_url +:+ "/DispForm.aspx?" +:+ url_encoded.

(** ** The inputs of [main] *)

(** The environment variables [main] reads.  The required ones are strings
    when [main] is entered (see [process]); the others may be absent. *)
Record inputs : Type := Inputs {
  policy_category : string;               (* POLICY_CATEGORY *)
  category : string;                      (* PKG_CATEGORY *)
  version : string;                       (* version *)
  name : string;                          (* NAME *)
  final_policy_name : option string;      (* SELFSERVICE_POLICY_NAME *)
  policy_language : option string;        (* LANGUAGE *)
  policy_license : option string;         (* LICENSE *)
  major_version : option string;          (* MAJOR_VERSION *)
  platform : option string;               (* PLATFORM *)
  executable_command : option string;     (* SP_EXECUTABLE_COMMAND *)
  process_name : option string;           (* SP_PROCESS_NAME *)
  jss_url : string;                       (* JSS_URL *)
  sp_url : string;                        (* SP_URL *)
  sp_user : string;                       (* SP_USER *)
  sp_pass : string                        (* SP_PASS *)
}.

(** [if x: final_policy_name = final_policy_name + " " + x] *)
Definition append_if (x : option string) (final_policy_name : string) : string :=
  match x with
  | Some s => if truthy x then final_policy_name +:+ " " +:+ s else final_policy_name
  | None => final_policy_name
  end.

(** The final policy name of the untested flow. *)
Definition untested_final_policy_name (i : inputs) : string :=
  let final_policy_name := name i in
  let final_policy_name := append_if (major_version i) final_policy_name in
  let final_policy_name := append_if (policy_language i) final_policy_name in
  let final_policy_name := append_if (policy_license i) final_policy_name in
  let final_policy_name := append_if (platform i) final_policy_name in
  final_policy_name.

(** [f"{final_policy_name} (Testing) v{version}"], the same expression in
    both flows. *)
Definition self_service_policy_name_of (final_policy_name version : string) : string :=
  final_policy_name +:+ " (Testing) v" +:+ version.

(** ** [main] *)

(** The check of the [Autostage] column of the content list (lines 297-301
    and 702-708). *)
Definition check_autostage (final_policy_name : string) : prog bool :=
  let criteria :=
    [("Self Service Content", (OpEq, final_policy_name));
     ("Autostage", (OpEq, "Yes"))] in
  check_list JamfContentList criteria.

(** *** Untested recipes (lines 211-640) *)

(** "Now write to the Jamf Content List" (lines 241-293). *)
Definition untested_content_list (i : inputs) (final_policy_name : string)
  : prog unit :=
  let criteria := [("Self Service Content", (OpEq, final_policy_name))] in
  app_in_content_list <- check_list JamfContentList criteria ;;
  (if negb app_in_content_list
   then add_record JamfContentList "Self Service Content" final_policy_name
   else Ret tt) ;;
  update_record JamfContentList "Untested Version" (PyStr (version i)) criteria ;;
  update_record JamfContentList "Category" (PyStr (category i)) criteria ;;
  update_record JamfContentList "Content Type" (PyStr "Application") criteria.

Definition check_criteria : list string :=
  ["In progress"; "Done"; "Deferred"; "Waiting for other test manager"].

(** "Now write to Jamf Test Coordination list" (lines 295-470). *)
Definition untested_test_coordination
    (final_policy_name self_service_policy_name : string) : prog unit :=
  is_app_autostage <- check_autostage final_policy_name ;;
  let criteria :=
    [("Self Service Content Name", (OpEq, self_service_policy_name));
     ("Release Completed", (OpEq, "Yes"))] in
  exact_policy_in_test_coordination_and_released <-
    check_list JamfTestCoordination criteria ;;
  (if exact_policy_in_test_coordination_and_released
   then update_record JamfTestCoordination "Release Completed" (PyStr "No") criteria
   else Ret tt) ;;
  let criteria :=
    [("Self Service Content Name", (OpEq, self_service_policy_name))] in
  exact_policy_in_test_coordination <- check_list JamfTestCoordination criteria ;;
  if exact_policy_in_test_coordination then
    if is_app_autostage then
      let criteria :=
        [("Self Service Content Name", (OpEq, self_service_policy_name));
         ("Status", (OpNeq, "Autostage"))] in
      update_record JamfTestCoordination "Status" (PyStr "Autostage") criteria
    else
      for_each check_criteria (fun check =>
        let criteria :=
          [("Self Service Content Name", (OpEq, self_service_policy_name));
           ("Release Completed", (OpEq, "No"));
           ("Status", (OpEq, check))] in
        app_in_test_coordination_tested_but_not_released <-
          check_list JamfTestCoordination criteria ;;
        if app_in_test_coordination_tested_but_not_released
        then update_record JamfTestCoordination "Status" (PyStr "Needs review") criteria
        else Ret tt)
  else
    let criteria :=
      [("Final Content Name", (OpEq, final_policy_name));
       ("Release Completed", (OpEq, "No"));
       ("Status", (OpNeq, "Obsolete"))] in
    app_in_test_coordination_not_released <-
      check_list JamfTestCoordination criteria ;;
    (if app_in_test_coordination_not_released
     then update_record JamfTestCoordination "Status" (PyStr "Obsolete") criteria
     else Ret tt) ;;
    add_record JamfTestCoordination "Self Service Content Name"
      self_service_policy_name ;;
    let criteria :=
      [("Self Service Content Name", (OpEq, self_service_policy_name))] in
    update_record JamfTestCoordination "Final Content Name"
      (PyStr final_policy_name) criteria ;;
    if is_app_autostage
    then update_record JamfTestCoordination "Status" (PyStr "Autostage") criteria
    else Ret tt.

(** "Now write to Jamf Test Review list" (lines 472-640). *)
Definition untested_test_review (i : inputs)
    (final_policy_name self_service_policy_name : string) : prog unit :=
  let criteria :=
    [("Self Service Content Name", (OpEq, self_service_policy_name))] in
  exact_policy_in_test_review <- check_list JamfTestReview criteria ;;
  if exact_policy_in_test_review then
    update_record JamfTestReview "Release Completed TST" (PyStr "No") criteria ;;
    update_record JamfTestReview "Release Completed PRD" (PyStr "No") criteria ;;
    update_record JamfTestReview "Ready for Production" (PyStr "No") criteria ;;
    update_record JamfTestReview "Executable_Command"
      (of_opt (executable_command i)) criteria ;;
    update_record JamfTestReview "Process_Name" (of_opt (process_name i)) criteria
  else
    let criteria :=
      [("Final Content Name", (OpEq, final_policy_name));
       ("Release Completed TST", (OpEq, "No"))] in
    app_in_test_review_not_released <- check_list JamfTestReview criteria ;;
    (if app_in_test_review_not_released then
       delete_record JamfTestReview criteria
     else
       let criteria :=
         [("Final Content Name", (OpEq, final_policy_name));
          ("Release Completed PRD", (OpEq, "No"))] in
       app_in_test_review_not_released_to_prd <-
         check_list JamfTestReview criteria ;;
       if app_in_test_review_not_released_to_prd
       then update_record JamfTestReview "Release Completed PRD" (PyStr "Skipped") criteria
       else Ret tt) ;;
    add_record JamfTestReview "Self Service Content Name" self_service_policy_name ;;
    let criteria :=
      [("Self Service Content Name", (OpEq, self_service_policy_name))] in
    update_record JamfTestReview "Final Content Name" (PyStr final_policy_name) criteria ;;
    update_record JamfTestReview "Executable_Command"
      (of_opt (executable_command i)) criteria ;;
    update_record JamfTestReview "Process_Name" (of_opt (process_name i)) criteria.

Definition untested (i : inputs) : prog unit :=
  let final_policy_name := untested_final_policy_name i in
  let self_service_policy_name :=
    self_service_policy_name_of final_policy_name (version i) in
  connect_sharepoint (sp_url i) (sp_user i) (sp_pass i) ;;
  untested_content_list i final_policy_name ;;
  untested_test_coordination final_policy_name self_service_policy_name ;;
  untested_test_review i final_policy_name self_service_policy_name.

(** *** Prod recipes (lines 643-890) *)

(** "Now write to Jamf Test Coordination list" (lines 657-752). *)
Definition prod_test_coordination (i : inputs)
    (final_policy_name self_service_policy_name : string) : prog unit :=
  let criteria :=
    [("Self Service Content Name", (OpEq, self_service_policy_name))] in
  exact_policy_in_test_coordination <- check_list JamfTestCoordination criteria ;;
  (if exact_policy_in_test_coordination then Ret tt
   else
     add_record JamfTestCoordination "Self Service Content Name"
       self_service_policy_name ;;
     update_record JamfTestCoordination "Final Content Name"
       (PyStr final_policy_name) criteria) ;;
  if contains "prd" (jss_url i) then
    is_app_autostage <- check_autostage final_policy_name ;;
    update_record JamfTestCoordination "Release Completed" (PyStr "Yes") criteria ;;
    if is_app_autostage
    then update_record JamfTestCoordination "Status" (PyStr "Autostage") criteria
    else update_record JamfTestCoordination "Status" (PyStr "Done") criteria
  else Ret tt.

(** "Now write to Jamf Test Review list" (lines 754-829). *)
Definition prod_test_review (i : inputs)
    (final_policy_name self_service_policy_name : string) : prog unit :=
  let criteria :=
    [("Self Service Content Name", (OpEq, self_service_policy_name))] in
  exact_policy_in_test_review <- check_list JamfTestReview criteria ;;
  (if exact_policy_in_test_review then Ret tt
   else
     add_record JamfTestReview "Self Service Content Name"
       self_service_policy_name ;;
     update_record JamfTestReview "Final Content Name"
       (PyStr final_policy_name) criteria) ;;
  if contains "tst" (jss_url i) then
    update_record JamfTestReview "Release Completed TST" (PyStr "Yes") criteria ;;
    update_record JamfTestReview "Ready for Production" (PyStr "Yes") criteria
  else if contains "prd" (jss_url i) then
    update_record JamfTestReview "Release Completed PRD" (PyStr "Yes") criteria
  else Ret tt.

(** "Now write to the Jamf Content List (PRD only)" (lines 831-890). *)
Definition prod_content_list (i : inputs)
    (final_policy_name self_service_policy_name : string) : prog unit :=
  if contains "prd" (jss_url i) then
    let criteria := [("Self Service Content", (OpEq, final_policy_name))] in
    app_in_content_list <- check_list JamfContentList criteria ;;
    (if negb app_in_content_list
     then add_record JamfContentList "Self Service Content" final_policy_name
     else Ret tt) ;;
    update_record JamfContentList "Untested Version" (PyStr "") criteria ;;
    update_record JamfContentList "Prod. Version" (PyStr (version i)) criteria ;;
    update_record JamfContentList "Test Report"
      (PyStr (test_report_url (sp_url i) self_service_policy_name
              +:+ ", Test Report"))
      criteria
  else Ret tt.

Definition prod (i : inputs) (final_policy_name : string) : prog unit :=
  let self_service_policy_name :=
    self_service_policy_name_of final_policy_name (version i) in
  connect_sharepoint (sp_url i) (sp_user i) (sp_pass i) ;;
  prod_test_coordination i final_policy_name self_service_policy_name ;;
  prod_test_review i final_policy_name self_service_policy_name ;;
  prod_content_list i final_policy_name self_service_policy_name.

(** [main] (lines 190-890); the calls of [self.output] only log. *)
Definition main (i : inputs) : prog unit :=
  if negb (truthy (final_policy_name i)) then
    if contains "prd" (jss_url i) then untested i else Ret tt
  else
    prod i (default "" (final_policy_name i)).

(** ** The entry point *)

(** [input_variables]: for each variable, whether it is required and its
    default value (lines 32-82). *)
Definition input_variables : list (string * (bool * option string)) :=
  [("JSS_URL", (true, None));
   ("SP_URL", (true, None));
   ("SP_USER", (true, None));
   ("SP_PASS", (true, None));
   ("POLICY_CATEGORY", (false, Some "Untested"));
   ("PKG_CATEGORY", (true, None));
   ("LANGUAGE", (false, None));
   ("LICENSE", (false, None));
   ("MAJOR_VERSION", (false, None));
   ("PLATFORM", (false, None));
   ("NAME", (true, None));
   ("SELFSERVICE_POLICY_NAME", (false, None));
   ("version", (true, None))].

(** Modelled from the spec: the check of the configuration that precedes
    [main].  It is done by [Processor.process] of [autopkglib], the base
    class of the processor, which is not part of the source; the spec (its
    section 7) says that a missing required input raises before any remote
    call is made.  The variables are visited in the order of
    [input_variables]; a default is applied to an absent variable, and an
    absent required variable is reported. *)
Fixpoint check_inputs (vars : list (string * (bool * option string)))
    (e : gmap string string) : string + gmap string string :=
  match vars with
  | [] => inr e
  | (variable, (required, dflt)) :: vars' =>
      let e :=
        match dflt, e !! variable with
        | Some d, None => <[variable := d]> e
        | _, _ => e
        end in
      if required && negb (bool_decide (is_Some (e !! variable)))
      then inl variable
      else check_inputs vars' e
  end.

(** The reads [self.env.get(...)] at the head of [main] (lines 192-206).
    The eight variables read as strings are required or have a default in
    [input_variables], so they are present in every environment that
    passes the check; for an absent one [self.env.get] gives [None], which
    is written [""] here and is not reached from [process]. *)
Definition read_env (e : gmap string string) : inputs :=
  {| policy_category := default "" (e !! "POLICY_CATEGORY");
     category := default "" (e !! "PKG_CATEGORY");
     version := default "" (e !! "version");
     name := default "" (e !! "NAME");
     final_policy_name := e !! "SELFSERVICE_POLICY_NAME";
     policy_language := e !! "LANGUAGE";
     policy_license := e !! "LICENSE";
     major_version := e !! "MAJOR_VERSION";
     platform := e !! "PLATFORM";
     executable_command := e !! "SP_EXECUTABLE_COMMAND";
     process_name := e !! "SP_PROCESS_NAME";
     jss_url := default "" (e !! "JSS_URL");
     sp_url := default "" (e !! "SP_URL");
     sp_user := default "" (e !! "SP_USER");
     sp_pass := default "" (e !! "SP_PASS") |}.

(** Modelled from the spec: a run of the processor on an environment, the
    configuration check followed by [main] (the part that is not in the
    source is [check_inputs]). *)
Definition process (e : gmap string string) : prog unit :=
  match check_inputs input_variables e with
  | inl variable =>
      Raise (ProcessorError ("JamfUploadSharepointUpdater requires " +:+ variable))
  | inr e' => main (read_env e')
  end.

(** ** The effect of the methods on the site, as functions *)

(** Some item meets the criteria. *)
Definition has_items (c : criteria) (m : items) : bool :=
  bool_decide (map_Exists (fun _ r => matches c r = true) m).

(** Every item that meets the criteria gets the field. *)
Definition upd_items (k : string) (v : pyval) (c : criteria) (m : items) : items :=
  (fun r => if matches c r then <[k := v]> r else r) <$> m.

(** A new item with the field over the default columns [d]. *)
Definition add_items (k : string) (v : string) (d : row) (m : items) : items :=
  <[fresh (dom m) := <[k := PyStr v]> d]> m.

(** Every item that meets the criteria is removed. *)
Definition del_items (c : criteria) (m : items) : items :=
  filter (fun ir => matches c ir.2 = false) m.

Definition has (l : splist) (c : criteria) (s : site) : bool :=
  has_items c (get_items l s).

Definition upd (l : splist) (k : string) (v : pyval) (c : criteria) (s : site)
  : site :=
  set_items l (upd_items k v c (get_items l s)) s.

Definition add (l : splist) (k : string) (v : string) (s : site) : site :=
  set_items l (add_items k v (column_defaults s l) (get_items l s)) s.

Definition del (l : splist) (c : criteria) (s : site) : site :=
  set_items l (del_items c (get_items l s)) s.

(** The outcome and the site of a run in which every call succeeds. *)
Definition outcome {A : Type} (p : prog A) (s : site) : result A * site :=
  (exec p s).1.

Definition final {A : Type} (p : prog A) (s : site) : site :=
  (exec p s).1.2.

Definition trace {A : Type} (p : prog A) (budget : option nat) (s : site)
  : list op :=
  (run p budget s).2.

(** The budget left after a part of the program made the calls [tr]. *)
Definition after (budget : option nat) (tr : list op) : option nat :=
  (fun n => n - length tr) <$> budget.

(** ** Definitions used to state the properties *)

(** The final policy name as the contract words it: the name, then a space
    and the segment for each segment that is supplied and not empty. *)
Fixpoint join_segments (segments : list (option string)) : string :=
  match segments with
  | [] => ""
  | None :: rest => join_segments rest
  | Some EmptyString :: rest => join_segments rest
  | Some s :: rest => " " +:+ s +:+ join_segments rest
  end.

Definition final_policy_name_spec (i : inputs) : string :=
  name i +:+
  join_segments [major_version i; policy_language i; policy_license i; platform i].

(** The final policy name a run works with: the one supplied, or the one
    computed in the untested flow. *)
Definition effective_final_policy_name (i : inputs) : string :=
  if truthy (final_policy_name i) then default "" (final_policy_name i)
  else untested_final_policy_name i.

(** ** Auxiliary definitions of the proofs *)

(** What the rounds of [build_query] after the first append for an entry. *)
Definition where_pair (kv : string * (operand * string)) : list where_item :=
  [WCmp kv.2.1 kv.1 kv.2.2; WAnd].

(** The items after the update calls of [update_record] for the rows with
    the identifiers [ids]. *)
Definition alter_all (k : string) (v : pyval) (ids : list positive) (m : items)
  : items :=
  foldl (fun m id => alter (insert k v) id m) m ids.

(** ** Concrete inputs and sites of the examples *)

(** A site with empty lists and no column defaults. *)
Definition empty_site : site := Site ∅ ∅ ∅ (fun _ => ∅).

(** An untested run: product [Foo], version [1.0], on a production server. *)
Definition foo_untested : inputs :=
  {| policy_category := "Untested"; category := "Apps"; version := "1.0";
     name := "Foo"; final_policy_name := None; policy_language := None;
     policy_license := None; major_version := None; platform := None;
     executable_command := None; process_name := None;
     jss_url := "https://jss-prd.example.com:8443";
     sp_url := "https://sp.example.com/sites/jamf";
     sp_user := "user"; sp_pass := "pass" |}.

(** The same untested run on a server that is not the production one. *)
Definition foo_untested_elsewhere : inputs :=
  {| policy_category := "Untested"; category := "Apps"; version := "1.0";
     name := "Foo"; final_policy_name := None; policy_language := None;
     policy_license := None; major_version := None; platform := None;
     executable_command := None; process_name := None;
     jss_url := "https://jss-dev.example.com:8443";
     sp_url := "https://sp.example.com/sites/jamf";
     sp_user := "user"; sp_pass := "pass" |}.

(** A release of [Foo] [1.0] to the test server and to the production
    server. *)
Definition foo_release_tst : inputs :=
  {| policy_category := "Untested"; category := "Apps"; version := "1.0";
     name := "Foo"; final_policy_name := Some "Foo"; policy_language := None;
     policy_license := None; major_version := None; platform := None;
     executable_command := None; process_name := None;
     jss_url := "https://jss-tst.example.com:8443";
     sp_url := "https://sp.example.com/sites/jamf";
     sp_user := "user"; sp_pass := "pass" |}.

Definition foo_release_prd : inputs :=
  {| policy_category := "Untested"; category := "Apps"; version := "1.0";
     name := "Foo"; final_policy_name := Some "Foo"; policy_language := None;
     policy_license := None; major_version := None; platform := None;
     executable_command := None; process_name := None;
     jss_url := "https://jss-prd.example.com:8443";
     sp_url := "https://sp.example.com/sites/jamf";
     sp_user := "user"; sp_pass := "pass" |}.

(** An environment in which [PKG_CATEGORY] is missing. *)
Definition env_without_category : gmap string string :=
  list_to_map
    [("JSS_URL", "https://jss-prd.example.com:8443");
     ("SP_URL", "https://sp.example.com/sites/jamf");
     ("SP_USER", "user"); ("SP_PASS", "pass");
     ("NAME", "Foo"); ("version", "1.0")].

(** ** The sections of [main] as functions on the items of a list

    Each section of [main] reads and writes one list (the test coordination
    sections also read the [Autostage] column of the content list, passed
    here as [is_app_autostage]).  On a site whose calls all succeed the
    sections compute these functions, see the lemmas [outcome_untested_*]
    and [outcome_prod_*]; [d] is the default columns of the list. *)

Definition autostage_criteria (final_policy_name : string) : criteria :=
  [("Self Service Content", (OpEq, final_policy_name));
   ("Autostage", (OpEq, "Yes"))].

Definition content_untested (i : inputs) (final_policy_name : string)
    (d : row) (m : items) : items :=
  let criteria := [("Self Service Content", (OpEq, final_policy_name))] in
  let m :=
    if negb (has_items criteria m)
    then add_items "Self Service Content" final_policy_name d m else m in
  let m := upd_items "Untested Version" (PyStr (version i)) criteria m in
  let m := upd_items "Category" (PyStr (category i)) criteria m in
  upd_items "Content Type" (PyStr "Application") criteria m.

Definition needs_review (self_service_policy_name : string) (m : items)
    (check : string) : items :=
  upd_items "Status" (PyStr "Needs review")
    [("Self Service Content Name", (OpEq, self_service_policy_name));
     ("Release Completed", (OpEq, "No"));
     ("Status", (OpEq, check))] m.

Definition coordination_untested
    (final_policy_name self_service_policy_name : string)
    (is_app_autostage : bool) (d : row) (m : items) : items :=
  let m :=
    upd_items "Release Completed" (PyStr "No")
      [("Self Service Content Name", (OpEq, self_service_policy_name));
       ("Release Completed", (OpEq, "Yes"))] m in
  let criteria :=
    [("Self Service Content Name", (OpEq, self_service_policy_name))] in
  if has_items criteria m then
    if is_app_autostage then
      upd_items "Status" (PyStr "Autostage")
        [("Self Service Content Name", (OpEq, self_service_policy_name));
         ("Status", (OpNeq, "Autostage"))] m
    else
      foldl (needs_review self_service_policy_name) m check_criteria
  else
    let m :=
      upd_items "Status" (PyStr "Obsolete")
        [("Final Content Name", (OpEq, final_policy_name));
         ("Release Completed", (OpEq, "No"));
         ("Status", (OpNeq, "Obsolete"))] m in
    let m := add_items "Self Service Content Name" self_service_policy_name d m in
    let m := upd_items "Final Content Name" (PyStr final_policy_name) criteria m in
    if is_app_autostage
    then upd_items "Status" (PyStr "Autostage") criteria m else m.

Definition review_untested (i : inputs)
    (final_policy_name self_service_policy_name : string)
    (d : row) (m : items) : items :=
  let criteria :=
    [("Self Service Content Name", (OpEq, self_service_policy_name))] in
  if has_items criteria m then
    let m := upd_items "Release Completed TST" (PyStr "No") criteria m in
    let m := upd_items "Release Completed PRD" (PyStr "No") criteria m in
    let m := upd_items "Ready for Production" (PyStr "No") criteria m in
    let m := upd_items "Executable_Command" (of_opt (executable_command i)) criteria m in
    upd_items "Process_Name" (of_opt (process_name i)) criteria m
  else
    let not_released :=
      [("Final Content Name", (OpEq, final_policy_name));
       ("Release Completed TST", (OpEq, "No"))] in
    let m :=
      if has_items not_released m then del_items not_released m
      else
        upd_items "Release Completed PRD" (PyStr "Skipped")
          [("Final Content Name", (OpEq, final_policy_name));
           ("Release Completed PRD", (OpEq, "No"))] m in
    let m := add_items "Self Service Content Name" self_service_policy_name d m in
    let m := upd_items "Final Content Name" (PyStr final_policy_name) criteria m in
    let m := upd_items "Executable_Command" (of_opt (executable_command i)) criteria m in
    upd_items "Process_Name" (of_opt (process_name i)) criteria m.

(** "if there is no entry, create one" of the prod sections. *)
Definition ensure_entry (final_policy_name self_service_policy_name : string)
    (d : row) (m : items) : items :=
  let criteria :=
    [("Self Service Content Name", (OpEq, self_service_policy_name))] in
  if has_items criteria m then m
  else
    upd_items "Final Content Name" (PyStr final_policy_name) criteria
      (add_items "Self Service Content Name" self_service_policy_name d m).

Definition coordination_prod (i : inputs)
    (final_policy_name self_service_policy_name : string)
    (is_app_autostage : bool) (d : row) (m : items) : items :=
  let criteria :=
    [("Self Service Content Name", (OpEq, self_service_policy_name))] in
  let m := ensure_entry final_policy_name self_service_policy_name d m in
  if contains "prd" (jss_url i) then
    let m := upd_items "Release Completed" (PyStr "Yes") criteria m in
    if is_app_autostage
    then upd_items "Status" (PyStr "Autostage") criteria m
    else upd_items "Status" (PyStr "Done") criteria m
  else m.

Definition review_prod (i : inputs)
    (final_policy_name self_service_policy_name : string)
    (d : row) (m : items) : items :=
  let criteria :=
    [("Self Service Content Name", (OpEq, self_service_policy_name))] in
  let m := ensure_entry final_policy_name self_service_policy_name d m in
  if contains "tst" (jss_url i) then
    upd_items "Ready for Production" (PyStr "Yes") criteria
      (upd_items "Release Completed TST" (PyStr "Yes") criteria m)
  else if contains "prd" (jss_url i) then
    upd_items "Release Completed PRD" (PyStr "Yes") criteria m
  else m.

Definition content_prod (i : inputs)
    (final_policy_name self_service_policy_name : string)
    (d : row) (m : items) : items :=
  if contains "prd" (jss_url i) then
    let criteria := [("Self Service Content", (OpEq, final_policy_name))] in
    let m :=
      if negb (has_items criteria m)
      then add_items "Self Service Content" final_policy_name d m else m in
    let m := upd_items "Untested Version" (PyStr "") criteria m in
    let m := upd_items "Prod. Version" (PyStr (version i)) criteria m in
    upd_items "Test Report"
      (PyStr (test_report_url (sp_url i) self_service_policy_name
              +:+ ", Test Report")) criteria m
  else m.

(** The site after the untested flow and after the prod flow. *)
Definition untested_site (i : inputs) (s : site) : site :=
  let fpn := untested_final_policy_name i in
  let sspn := self_service_policy_name_of fpn (version i) in
  let content :=
    content_untested i fpn (column_defaults s JamfContentList) (content_list s) in
  Site content
    (coordination_untested fpn sspn (has_items (autostage_criteria fpn) content)
       (column_defaults s JamfTestCoordination) (test_coordination s))
    (review_untested i fpn sspn (column_defaults s JamfTestReview) (test_review s))
    (column_defaults s).

Definition prod_site (i : inputs) (fpn : string) (s : site) : site :=
  let sspn := self_service_policy_name_of fpn (version i) in
  Site
    (content_prod i fpn sspn (column_defaults s JamfContentList) (content_list s))
    (coordination_prod i fpn sspn
       (has_items (autostage_criteria fpn) (content_list s))
       (column_defaults s JamfTestCoordination) (test_coordination s))
    (review_prod i fpn sspn (column_defaults s JamfTestReview) (test_review s))
    (column_defaults s).

(** A call on the test coordination or test review list is keyed by
    [sspn] when a new item is created with [Self Service Content Name] =
    [sspn], and when a query that compares that column compares it with
    [sspn]. *)
Definition keyed_by (sspn : string) (o : op) : Prop :=
  match o with
  | OpNew l k v =>
      l <> JamfContentList ->
      k = "Self Service Content Name" /\ v = PyStr sspn
  | OpGetListItems l _ w =>
      l <> JamfContentList ->
      forall o' v, In (WCmp o' "Self Service Content Name" v) w -> v = sspn
  | _ => True
  end.

(** The criteria compare [Self Service Content Name] with [sspn] only, or
    belong to a query on the content list. *)
Definition keyed_criteria (sspn : string) (l : splist) (c : criteria) : Prop :=
  l <> JamfContentList ->
  forall o v, In ("Self Service Content Name", (o, v)) c -> v = sspn.

(** Every call of every run of [p] has the property [P]. *)
Definition traces {A : Type} (P : op -> Prop) (p : prog A) : Prop :=
  forall budget s, Forall P (trace p budget s).

(** A content list with one entry, for [Foo], marked for autostaging. *)
Definition autostage_site : site :=
  Site
    {[ 1%positive :=
         list_to_map [("Self Service Content", PyStr "Foo");
                      ("Autostage", PyStr "Yes")] ]}
    ∅ ∅ (fun _ => ∅).

(** The default columns under which a second untested run finds nothing
    to change on the entries the first one created: a new test
    coordination item is not released and is not in one of the states the
    run resets, and a new test review item has the three flags at [No]. *)
Definition settled_coordination_defaults (d : row) : Prop :=
  d !! "Release Completed" <> Some (PyStr "Yes") /\
  forall check, In check check_criteria ->
    ~ (d !! "Release Completed" = Some (PyStr "No") /\
       d !! "Status" = Some (PyStr check)).

Definition settled_review_defaults (d : row) : Prop :=
  d !! "Release Completed TST" = Some (PyStr "No") /\
  d !! "Release Completed PRD" = Some (PyStr "No") /\
  d !! "Ready for Production" = Some (PyStr "No").

Definition settled_defaults (s : site) : Prop :=
  settled_coordination_defaults (column_defaults s JamfTestCoordination) /\
  settled_review_defaults (column_defaults s JamfTestReview).

(** ** Entries in a non-terminal state *)

(** A test coordination entry of the final policy name that is unreleased
    and not obsolete (the criteria of lines 401-404). *)
Definition coordination_open (final_policy_name : string) (r : row) : bool :=
  matches [("Final Content Name", (OpEq, final_policy_name));
           ("Release Completed", (OpEq, "No"));
           ("Status", (OpNeq, "Obsolete"))] r.

(** A test review entry of the final policy name that is unreleased on
    the test server or on the production server (the criteria of lines
    546-548 and 569-571). *)
Definition review_open (final_policy_name : string) (r : row) : bool :=
  matches [("Final Content Name", (OpEq, final_policy_name));
           ("Release Completed TST", (OpEq, "No"))] r ||
  matches [("Final Content Name", (OpEq, final_policy_name));
           ("Release Completed PRD", (OpEq, "No"))] r.

(** The number of items of a list with the property [p]. *)
Definition open_count (p : row -> bool) (m : items) : nat :=
  size (filter (fun ir : positive * row => p ir.2 = true) m).

(** Version [1.0] of [Foo] is released and version [1.1] is in test: one
    test coordination entry and one test review entry of [Foo] are in a
    non-terminal state, those of version [1.1]. *)
Definition foo_released_site : site :=
  Site
    {[ 1%positive :=
         list_to_map [("Self Service Content", PyStr "Foo");
                      ("Untested Version", PyStr "1.1");
                      ("Prod. Version", PyStr "1.0")] ]}
    (<[ 1%positive :=
          list_to_map [("Self Service Content Name", PyStr "Foo (Testing) v1.0");
                       ("Final Content Name", PyStr "Foo");
                       ("Release Completed", PyStr "Yes");
                       ("Status", PyStr "Done")] ]>
       {[ 2%positive :=
            list_to_map [("Self Service Content Name", PyStr "Foo (Testing) v1.1");
                         ("Final Content Name", PyStr "Foo");
                         ("Release Completed", PyStr "No");
                         ("Status", PyStr "In progress")] ]})
    (<[ 1%positive :=
          list_to_map [("Self Service Content Name", PyStr "Foo (Testing) v1.0");
                       ("Final Content Name", PyStr "Foo");
                       ("Release Completed TST", PyStr "Yes");
                       ("Release Completed PRD", PyStr "Yes");
                       ("Ready for Production", PyStr "Yes")] ]>
       {[ 2%positive :=
            list_to_map [("Self Service Content Name", PyStr "Foo (Testing) v1.1");
                         ("Final Content Name", PyStr "Foo");
                         ("Release Completed TST", PyStr "No");
                         ("Release Completed PRD", PyStr "No");
                         ("Ready for Production", PyStr "No")] ]})
    (fun _ => ∅).

(** Version [0.9] of [Foo] is in test and version [1.0] is new. *)
Definition foo_in_test_site : site :=
  Site
    {[ 1%positive :=
         list_to_map [("Self Service Content", PyStr "Foo");
                      ("Untested Version", PyStr "0.9")] ]}
    {[ 1%positive :=
         list_to_map [("Self Service Content Name", PyStr "Foo (Testing) v0.9");
                      ("Final Content Name", PyStr "Foo");
                      ("Release Completed", PyStr "No");
                      ("Status", PyStr "In progress")] ]}
    {[ 1%positive :=
         list_to_map [("Self Service Content Name", PyStr "Foo (Testing) v0.9");
                      ("Final Content Name", PyStr "Foo");
                      ("Release Completed TST", PyStr "No");
                      ("Release Completed PRD", PyStr "No");
                      ("Ready for Production", PyStr "No")] ]}
    (fun _ => ∅).

(** A site with empty lists whose columns have defaults. *)
Definition site_with_defaults : site :=
  Site ∅ ∅ ∅
    (fun l =>
       match l with
       | JamfContentList => ∅
       | JamfTestCoordination =>
           list_to_map [("Release Completed", PyStr "No");
                        ("Status", PyStr "Not started")]
       | JamfTestReview =>
           list_to_map [("Release Completed TST", PyStr "No");
                        ("Release Completed PRD", PyStr "No");
                        ("Ready for Production", PyStr "No")]
       end).

(** A complete environment of an untested run. *)
Definition env_untested : gmap string string :=
  list_to_map
    [("JSS_URL", "https://jss-prd.example.com:8443");
     ("SP_URL", "https://sp.example.com/sites/jamf");
     ("SP_USER", "user"); ("SP_PASS", "pass");
     ("PKG_CATEGORY", "Apps");
     ("NAME", "Foo"); ("version", "1.0")].

(** ** Auxiliary definitions for the query format and the URL encoding *)

(** The tuple of a criteria entry, and the tuple preceded by ["And"]. *)
Definition where_tuple (kv : string * (operand * string)) : where_item :=
  WCmp kv.2.1 kv.1 kv.2.2.

Definition and_tuple (kv : string * (operand * string)) : list where_item :=
  [WAnd; where_tuple kv].

(** What [quote_plus] writes for one byte. *)
Definition quote_byte (c : ascii) : string :=
  let n := nat_of_ascii c in
  if always_safe c then String c EmptyString
  else if (n =? 32)%nat then "+"
  else String "%" (String (hex_digit (n / 16))
                     (String (hex_digit (n mod 16)) EmptyString)).

(** The bytes [quote_plus] can write: the safe ones, [+] and [%]. *)
Definition url_byte (c : ascii) : bool :=
  always_safe c || (nat_of_ascii c =? 43)%nat || (nat_of_ascii c =? 37)%nat.

(** The value of a hexadecimal digit, and the byte at the head of an
    encoded string (used to show that the encoding loses nothing). *)
Definition hex_value (c : ascii) : nat :=
  let n := nat_of_ascii c in
  if (n <=? 57)%nat then n - 48 else n - 55.

Definition unquote_head (s : string) : option (ascii * string) :=
  match s with
  | EmptyString => None
  | String c r =>
      if (nat_of_ascii c =? 37)%nat then
        match r with
        | String a (String b r') =>
            Some (ascii_of_nat (16 * hex_value a + hex_value b), r')
        | _ => None
        end
      else if (nat_of_ascii c =? 43)%nat then Some (ascii_of_nat 32, r)
      else Some (c, r)
  end.

(** ** Properties of calls *)

Definition no_delete (o : op) : Prop :=
  match o with
  | OpDelete _ _ => False
  | _ => True
  end.

Definition deletes_review_only (o : op) : Prop :=
  match o with
  | OpDelete l _ => l = JamfTestReview
  | _ => True
  end.

(** A property that holds of every call that is not a delete call. *)
Definition about_deletes (P : op -> Prop) : Prop :=
  forall o, no_delete o -> P o.

(** * Properties *)

(** ** Programs and runs *)

Lemma run_bind {A B : Type} (p : prog A) (f : A -> prog B) budget s :
  run (bind p f) budget s =
    match run p budget s with
    | (Ok a, s1, t1) =>
        let '(r, s2, t2) := run (f a) (after budget t1) s1 in (r, s2, t1 ++ t2)
    | (Raised e, s1, t1) => (Raised e, s1, t1)
    end.
Proof.
  revert budget s. induction p as [a | e | o k IH]; intros budget s; simpl.
  - replace (after budget []) with budget.
    + by destruct (run (f a) budget s) as [[r s2] t2].
    + unfold after. destruct budget as [n|]; simpl; [f_equal; lia | done].
  - done.
  - destruct budget as [[|n]|]; simpl; [done | |].
    + destruct (perform o s) as [s1 rows]. rewrite IH.
      destruct (run (k rows) (Some n) s1) as [[[a|e] s2] t1]; [|done].
      unfold after; simpl. replace (n - length t1) with (S n - S (length t1)) by lia.
      by destruct (run (f a) _ s2) as [[r s3] t2].
    + destruct (perform o s) as [s1 rows]. rewrite IH.
      destruct (run (k rows) None s1) as [[[a|e] s2] t1]; [|done].
      unfold after; simpl.
      by destruct (run (f a) _ s2) as [[r s3] t2].
Qed.

(** A run with a budget of [n] calls follows the run without failures for
    [n] calls. *)
Lemma run_budget {A : Type} (p : prog A) n s :
  run p (Some n) s =
    if decide (length (exec p s).2 <= n) then exec p s
    else (Raised RemoteOperationError,
          replay (take n (exec p s).2) s, take n (exec p s).2).
Proof.
  unfold exec. revert n s. induction p as [a | e | o k IH]; intros n s.
  - cbn [run snd length]. rewrite decide_True by lia. done.
  - cbn [run snd length]. rewrite decide_True by lia. done.
  - cbn [run fmap option_fmap option_map]. destruct (perform o s) as [s1 rows] eqn:Hp.
    destruct n as [|n].
    + destruct (run (k rows) None s1) as [[r s2] tr]. cbn [snd length].
      rewrite decide_False by lia. done.
    + cbn [pred]. rewrite IH.
      destruct (run (k rows) None s1) as [[r s2] tr]. cbn [snd length].
      destruct (decide (length tr <= n)).
      * rewrite decide_True by lia. done.
      * rewrite decide_False by lia. unfold replay. simpl. by rewrite Hp.
Qed.

(** The site after a run is the site after its calls. *)
Lemma run_replay {A : Type} (p : prog A) budget s :
  (run p budget s).1.2 = replay (run p budget s).2 s.
Proof.
  revert budget s. induction p as [a | e | o k IH]; intros budget s; simpl; [done..|].
  destruct budget as [[|n]|]; simpl; [done | |].
  - destruct (perform o s) as [s1 rows] eqn:Hp. specialize (IH rows (Some n) s1).
    destruct (run (k rows) (Some n) s1) as [[r s2] tr]. unfold replay in *. simpl in *.
    by rewrite Hp.
  - destruct (perform o s) as [s1 rows] eqn:Hp. specialize (IH rows None s1).
    destruct (run (k rows) None s1) as [[r s2] tr]. unfold replay in *. simpl in *.
    by rewrite Hp.
Qed.

Lemma outcome_bind {A B : Type} (p : prog A) (f : A -> prog B) s :
  outcome (bind p f) s =
    match outcome p s with
    | (Ok a, s1) => outcome (f a) s1
    | (Raised e, s1) => (Raised e, s1)
    end.
Proof.
  unfold outcome, exec. rewrite run_bind.
  destruct (run p None s) as [[[a|e] s1] t1]; [|done].
  unfold after. simpl. by destruct (run (f a) None s1) as [[r s2] t2].
Qed.

Lemma outcome_ret {A : Type} (a : A) s : outcome (Ret a) s = (Ok a, s).
Proof. done. Qed.

Lemma outcome_call o s : outcome (call o) s = (Ok (perform o s).2, (perform o s).1).
Proof. unfold outcome, exec, call. simpl. by destruct (perform o s). Qed.

(** ** The lists of the site *)

Lemma get_set_eq l m s : get_items l (set_items l m s) = m.
Proof. by destruct l. Qed.

Lemma get_set_ne l l' m s : l <> l' -> get_items l' (set_items l m s) = get_items l' s.
Proof. by destruct l, l'. Qed.

Lemma set_set l m m' s : set_items l m (set_items l m' s) = set_items l m s.
Proof. by destruct l. Qed.

Lemma set_get l s : set_items l (get_items l s) s = s.
Proof. by destruct l, s. Qed.

Lemma defaults_set l m s : column_defaults (set_items l m s) = column_defaults s.
Proof. by destruct l. Qed.

(** ** The query builder *)

Lemma build_query_loop_rest rest w fields :
  fold_left build_query_step rest (w, fields, false) =
    (w ++ flat_map where_pair rest, fields ++ map fst rest, false).
Proof.
  revert w fields. induction rest as [|[k [o v]] rest IH]; intros w fields; simpl.
  - by rewrite !app_nil_r.
  - rewrite IH. by rewrite <- !app_assoc.
Qed.

Lemma build_query_cons k o v rest :
  build_query ((k, (o, v)) :: rest) =
    ("ID" :: k :: map fst rest, rev (flat_map where_pair rest) ++ [WCmp o k v]).
Proof.
  unfold build_query. simpl. by rewrite build_query_loop_rest.
Qed.

Lemma build_query_fields c : (build_query c).1 = "ID" :: map fst c.
Proof. destruct c as [|[k [o v]] rest]; [done|]. by rewrite build_query_cons. Qed.

Lemma where_children_build k o v rest r :
  exists t,
    where_children (rev (flat_map where_pair rest) ++ [WCmp o k v]) = [t] /\
    eval_caml t r = Some (matches ((k, (o, v)) :: rest) r).
Proof.
  induction rest as [|[k' [o' v']] rest [t [Ht He]]] using rev_ind.
  - exists (CCmp o k v). simpl. unfold satisfies. simpl. by rewrite andb_true_r.
  - rewrite flat_map_app, rev_app_distr. simpl. rewrite Ht.
    eexists. split; [done|]. simpl. rewrite He. f_equal.
    unfold matches. change ((k, (o, v)) :: rest ++ [(k', (o', v'))])
      with (((k, (o, v)) :: rest) ++ [(k', (o', v'))]).
    rewrite forallb_app. cbn [forallb]. rewrite andb_true_r.
    change (satisfies r (k', (o', v'))) with (compare o' k' v' r).
    by destruct (compare o' k' v' r), (satisfies r (k, (o, v))),
      (forallb (satisfies r) rest).
Qed.

(** The query built from a non-empty dictionary holds on an item exactly
    when the item meets every entry. *)
Lemma eval_build_query c r :
  c <> [] -> eval_where (build_query c).2 r = Some (matches c r).
Proof.
  destruct c as [|[k [o v]] rest]; [done|]. intros _.
  rewrite build_query_cons. unfold eval_where. simpl.
  destruct (where_children_build k o v rest r) as [t [Ht He]]. by rewrite Ht.
Qed.

(** ** The rows of a query *)

Lemma elem_of_select fields w (m : items) id r' :
  (id, r') ∈ select fields w m <->
  exists r, m !! id = Some r /\ eval_where w r = Some true /\ r' = project fields r.
Proof.
  unfold select. rewrite merge_sort_Permutation, list_elem_of_omap. split.
  - intros [[j r] [Hin Hsome]]. apply elem_of_map_to_list in Hin. simpl in Hsome.
    destruct (eval_where w r) as [[|]|] eqn:He; simplify_eq. eauto.
  - intros [r (Hm & He & ->)]. exists (id, r). split.
    + by apply elem_of_map_to_list.
    + simpl. by rewrite He.
Qed.

Lemma elem_of_select_ids c (m : items) id :
  c <> [] ->
  id ∈ (select (build_query c).1 (build_query c).2 m).*1 <->
  exists r, m !! id = Some r /\ matches c r = true.
Proof.
  intros Hc. rewrite list_elem_of_fmap. split.
  - intros [[j r'] [-> Hin]]. apply elem_of_select in Hin as [r (Hm & He & _)].
    rewrite eval_build_query in He by done. exists r. split; [done | congruence].
  - intros [r [Hm Hr]]. exists (id, project (build_query c).1 r). split; [done|].
    apply elem_of_select. exists r. rewrite eval_build_query by done.
    split_and!; [done | congruence | done].
Qed.

Lemma select_nonempty l c s :
  c <> [] ->
  match select (build_query c).1 (build_query c).2 (get_items l s) with
  | [] => false
  | _ :: _ => true
  end = has l c s.
Proof.
  intros Hc. unfold has, has_items.
  destruct (select _ _ _) as [|[id r'] rows] eqn:Hs; symmetry.
  - apply bool_decide_eq_false. intros (id & r & Hm & Hr).
    assert (id ∈ (select (build_query c).1 (build_query c).2 (get_items l s)).*1) as Hin
      by (apply elem_of_select_ids; eauto).
    rewrite Hs in Hin. by apply elem_of_nil in Hin.
  - apply bool_decide_eq_true.
    assert (id ∈ (select (build_query c).1 (build_query c).2 (get_items l s)).*1) as Hin
      by (rewrite Hs; simpl; left).
    apply elem_of_select_ids in Hin as (r & Hm & Hr); [|done].
    by exists id, r.
Qed.

(** ** The methods on a site whose calls all succeed *)

Lemma outcome_connect url user password s :
  outcome (connect_sharepoint url user password) s = (Ok tt, s).
Proof. done. Qed.

Lemma outcome_check_list l c s :
  c <> [] -> outcome (check_list l c) s = (Ok (has l c s), s).
Proof.
  intros Hc. unfold check_list. rewrite outcome_bind, outcome_call.
  cbn [perform fst snd]. rewrite <- (select_nonempty l c s Hc).
  destruct (build_query c) as [fields query]. cbn [fst snd].
  rewrite outcome_bind, outcome_call. done.
Qed.

Lemma outcome_add_record l k v s :
  outcome (add_record l k v) s = (Ok tt, add l k v s).
Proof. done. Qed.

Lemma lookup_alter_all k v ids (m : items) j :
  alter_all k v ids m !! j =
    if decide (j ∈ ids) then insert k v <$> m !! j else m !! j.
Proof.
  unfold alter_all. revert m. induction ids as [|id ids IH]; intros m; cbn [foldl].
  - rewrite decide_False; [done | apply not_elem_of_nil].
  - rewrite IH. destruct (decide (id = j)) as [->|Hne].
    + rewrite lookup_alter_eq. rewrite (decide_True (P := j ∈ j :: ids)) by left.
      destruct (m !! j) as [r|]; simpl; [|by case_decide].
      rewrite insert_insert_eq. by case_decide.
    + rewrite lookup_alter_ne by done.
      destruct (decide (j ∈ ids)) as [Hin|Hin].
      * rewrite decide_True by (by right). done.
      * rewrite decide_False; [done|]. intros [?|?]%elem_of_cons; congruence.
Qed.

Lemma alter_all_upd k v c ids (m : items) :
  (forall j, j ∈ ids <-> exists r, m !! j = Some r /\ matches c r = true) ->
  alter_all k v ids m = upd_items k v c m.
Proof.
  intros Hids. apply map_eq. intros j.
  rewrite lookup_alter_all. unfold upd_items. rewrite lookup_fmap.
  destruct (m !! j) as [r|] eqn:Hm; simpl; [|by case_decide].
  destruct (matches c r) eqn:Hr.
  - rewrite decide_True; [done|]. apply Hids. eauto.
  - rewrite decide_False; [done|]. intros (r' & Hm' & Hr')%Hids. congruence.
Qed.

Lemma outcome_update_loop l k v (rows : list (positive * row)) s :
  outcome (for_each rows (fun r => call (OpUpdate l r.1 k v) ;; Ret tt)) s =
    (Ok tt, set_items l (alter_all k v rows.*1 (get_items l s)) s).
Proof.
  revert s. induction rows as [|r rows IH]; intros s.
  - simpl. rewrite outcome_ret. unfold alter_all. simpl. by rewrite set_get.
  - cbn [for_each]. rewrite !outcome_bind, outcome_call. cbn [perform fst snd].
    rewrite outcome_ret, IH. rewrite get_set_eq, set_set. done.
Qed.

Lemma outcome_update_record l k v c s :
  c <> [] -> outcome (update_record l k v c) s = (Ok tt, upd l k v c s).
Proof.
  intros Hc. unfold update_record. rewrite outcome_bind, outcome_call.
  cbn [perform fst snd].
  pose proof (fun j => elem_of_select_ids c (get_items l s) j Hc) as Hids.
  destruct (build_query c) as [fields query]. cbn [fst snd] in Hids.
  rewrite outcome_bind, outcome_call. cbn [perform fst snd].
  rewrite outcome_update_loop. unfold upd.
  by rewrite (alter_all_upd k v c).
Qed.

Lemma lookup_foldr_delete (ids : list positive) (m : items) j :
  foldr delete m ids !! j = if decide (j ∈ ids) then None else m !! j.
Proof.
  induction ids as [|id ids IH]; cbn [foldr].
  - rewrite decide_False; [done | apply not_elem_of_nil].
  - destruct (decide (id = j)) as [->|Hne].
    + rewrite lookup_delete_eq. rewrite decide_True by left. done.
    + rewrite lookup_delete_ne by done. rewrite IH.
      destruct (decide (j ∈ ids)) as [Hin|Hin].
      * rewrite decide_True by (by right). done.
      * rewrite decide_False; [done|]. intros [?|?]%elem_of_cons; congruence.
Qed.

Lemma outcome_delete_loop l (rows : list (positive * row)) acc s :
  exists m' : items,
    outcome (delete_loop l acc rows) s = (Ok tt, set_items l m' s) /\
    forall j, m' !! j =
      if decide (j ∈ rows.*1 \/ (rows <> [] /\ j ∈ acc)) then None
      else get_items l s !! j.
Proof.
  revert acc s. induction rows as [|r rows IH]; intros acc s.
  - exists (get_items l s). split.
    + simpl. by rewrite outcome_ret, set_get.
    + intros j. rewrite decide_False; [done|].
      intros [Hin | [? _]]; [by apply elem_of_nil in Hin | done].
  - cbn [delete_loop]. rewrite outcome_bind, outcome_call. cbn [perform fst snd].
    destruct (IH (acc ++ [r.1])
                (set_items l (foldr delete (get_items l s) (acc ++ [r.1])) s))
      as (m' & Hout & Hm').
    exists m'. split.
    + rewrite Hout. by rewrite set_set.
    + intros j. rewrite Hm', get_set_eq, lookup_foldr_delete.
      assert (j ∈ acc ++ [r.1] <-> j ∈ acc \/ j = r.1) as Hacc
        by (rewrite elem_of_app, list_elem_of_singleton; done).
      assert (j ∈ (r :: rows).*1 <-> j = r.1 \/ j ∈ rows.*1) as Hrows
        by (rewrite fmap_cons, elem_of_cons; done).
      repeat case_decide; try done; exfalso; naive_solver.
Qed.

Lemma outcome_delete_record l c s :
  c <> [] -> outcome (delete_record l c) s = (Ok tt, del l c s).
Proof.
  intros Hc. unfold delete_record. rewrite outcome_bind, outcome_call.
  cbn [perform fst snd].
  pose proof (fun j => elem_of_select_ids c (get_items l s) j Hc) as Hids.
  destruct (build_query c) as [fields query]. cbn [fst snd] in Hids.
  rewrite outcome_bind, outcome_call. cbn [perform fst snd].
  destruct (outcome_delete_loop l (select fields query (get_items l s)) [] s)
    as (m' & -> & Hm').
  unfold del, del_items. do 2 f_equal. apply map_eq. intros j.
  rewrite Hm', map_lookup_filter.
  destruct (get_items l s !! j) as [r|] eqn:Hm; simpl.
  - destruct (matches c r) eqn:Hr.
    + rewrite decide_True; [by rewrite option_guard_False|].
      left. apply Hids; eauto.
    + rewrite decide_False; [by rewrite option_guard_True|].
      intros [(r' & Hm2 & Hr')%Hids | [_ Hin]]; [congruence|].
      by apply elem_of_nil in Hin.
  - by case_decide.
Qed.

(** ** The query builder and the store *)

(** C7: for a non-empty criteria dictionary, the query that [build_query]
    returns, read by the store as a tree, is true on an item that meets
    every entry and false on an item that fails one of them; and the list
    of fields to fetch contains [ID]. *)
Theorem build_query_strict_and (c : criteria) (r : row) :
  c <> [] ->
  ((forall kv, In kv c -> satisfies r kv = true) ->
   eval_where (build_query c).2 r = Some true) /\
  (forall kv, In kv c -> satisfies r kv = false ->
   eval_where (build_query c).2 r = Some false) /\
  In "ID" (build_query c).1.
Proof.
  intros Hc. rewrite eval_build_query by done. split_and!.
  - intros Hall. f_equal. apply forallb_forall. exact Hall.
  - intros kv Hin Hkv. f_equal. apply not_true_is_false. intros Hall.
    rewrite (proj1 (forallb_forall _ _) Hall kv Hin) in Hkv. discriminate.
  - rewrite build_query_fields. by left.
Qed.

Lemma build_query_strict_and_witness :
  let c := [("Final Content Name", (OpEq, "Foo"));
            ("Release Completed", (OpEq, "No"));
            ("Status", (OpNeq, "Obsolete"))] in
  let r : row := list_to_map [("Final Content Name", PyStr "Foo");
                              ("Release Completed", PyStr "No")] in
  ((forall kv, In kv c -> satisfies r kv = true) ->
   eval_where (build_query c).2 r = Some true) /\
  (forall kv, In kv c -> satisfies r kv = false ->
   eval_where (build_query c).2 r = Some false) /\
  In "ID" (build_query c).1.
Proof. intros c r. apply (build_query_strict_and c r). discriminate. Defined.

(** ** The names *)

Lemma append_cons x (a b : string) : String x a +:+ b = String x (a +:+ b).
Proof. reflexivity. Qed.

Lemma append_nil_r (a : string) : a +:+ "" = a.
Proof. induction a as [|x a IH]; [done|]. by rewrite append_cons, IH. Qed.

Lemma append_assoc (a b c : string) : (a +:+ b) +:+ c = a +:+ (b +:+ c).
Proof. induction a as [|x a IH]; [done|]. by rewrite !append_cons, IH. Qed.

Lemma append_if_join x (a : string) rest :
  append_if x a +:+ join_segments rest = a +:+ join_segments (x :: rest).
Proof.
  destruct x as [[|ch x]|]; cbn [append_if truthy join_segments]; [done | | done].
  by rewrite !append_assoc.
Qed.

(** C5: the final policy name computed in the untested flow is the name
    followed, in the order major version, language, license, platform, by
    a space and the segment for exactly the segments that are supplied and
    not empty; the computation is a total function of the inputs. *)
Theorem untested_final_policy_name_segments (i : inputs) :
  untested_final_policy_name i = final_policy_name_spec i.
Proof.
  unfold untested_final_policy_name, final_policy_name_spec.
  rewrite <- !append_if_join. cbn [join_segments].
  by rewrite append_nil_r.
Qed.

(** ** Failures *)

Lemma check_inputs_missing vars (e : gmap string string) x :
  In (x, (true, None)) vars ->
  (forall y, In y vars -> y.1 = x -> y.2.2 = None) ->
  e !! x = None ->
  exists variable, check_inputs vars e = inl variable.
Proof.
  revert e. induction vars as [|[y [required dflt]] vars IH]; intros e Hin Hnd He;
    [done|].
  cbn [check_inputs]. cbv zeta.
  destruct (decide (y = x)) as [->|Hne].
  - assert (dflt = None) as -> by (apply (Hnd (x, (required, dflt))); by left || done).
    destruct required.
    + rewrite He. simpl. eauto.
    + simpl. apply IH; [|intros; apply Hnd; by right || done | done].
      destruct Hin as [[=]|Hin]; done.
  - set (e' := match dflt with
               | Some d => match e !! y with None => <[y := d]> e | Some _ => e end
               | None => e
               end).
    assert (e' !! x = None) as He'.
    { unfold e'. destruct dflt; [|done]. destruct (e !! y); [done|].
      by rewrite lookup_insert_ne. }
    clearbody e'.
    destruct (required && negb (bool_decide (is_Some (e' !! y)))); [eauto|].
    apply IH; [|intros; apply Hnd; by right || done | done].
    destruct Hin as [[=]|Hin]; [congruence | done].
Qed.

(** C8: when a variable that [input_variables] declares as required is
    missing from the environment, the run raises a [ProcessorError]
    without any call to the site, which is left as it was. *)
Theorem missing_required_input_raises_first
    (e : gmap string string) (x : string) budget s :
  In (x, (true, None)) input_variables ->
  e !! x = None ->
  exists msg, run (process e) budget s = (Raised (ProcessorError msg), s, []).
Proof.
  intros Hin He. unfold process.
  destruct (check_inputs_missing input_variables e x Hin) as [variable ->]; [|done|].
  - intros y Hy <-. simpl in Hy.
    repeat (destruct Hy as [<-|Hy]; [simpl in Hin; naive_solver|]). done.
  - eauto.
Qed.

Lemma missing_required_input_raises_first_witness :
  exists msg,
    run (process env_without_category) None empty_site =
      (Raised (ProcessorError msg), empty_site, []).
Proof.
  apply (missing_required_input_raises_first env_without_category "PKG_CATEGORY").
  - simpl. tauto.
  - vm_compute. reflexivity.
Defined.

(** C9: when a call to the site fails, the run ends there with an error:
    the calls made are the first calls of the run without failure and no
    other, and the site is the one those calls produce (nothing is undone). *)
Theorem failed_call_leaves_prefix (i : inputs) (n : nat) (s : site) :
  n < length (trace (main i) None s) ->
  run (main i) (Some n) s =
    (Raised RemoteOperationError,
     replay (take n (trace (main i) None s)) s,
     take n (trace (main i) None s)).
Proof.
  intros Hn. rewrite run_budget. unfold trace, exec in *.
  rewrite decide_False by lia. done.
Qed.

Lemma failed_call_leaves_prefix_witness :
  run (main foo_untested) (Some 7) empty_site =
    (Raised RemoteOperationError,
     replay (take 7 (trace (main foo_untested) None empty_site)) empty_site,
     take 7 (trace (main foo_untested) None empty_site)).
Proof. apply failed_call_leaves_prefix. vm_compute. lia. Defined.

(** C10: without a final policy name and with a server address that does
    not contain [prd], the run makes no call to the site at all, leaves it
    as it was and ends without error. *)
Theorem untested_elsewhere_does_nothing (i : inputs) budget (s : site) :
  truthy (final_policy_name i) = false ->
  contains "prd" (jss_url i) = false ->
  run (main i) budget s = (Ok tt, s, []).
Proof. intros Hf Hp. unfold main. by rewrite Hf, Hp. Qed.

Lemma untested_elsewhere_does_nothing_witness :
  run (main foo_untested_elsewhere) (Some 0) empty_site = (Ok tt, empty_site, []).
Proof. apply untested_elsewhere_does_nothing; reflexivity. Defined.

(** ** The items of a list under the pure operations *)

Lemma has_items_true c (m : items) :
  has_items c m = true <-> exists j r, m !! j = Some r /\ matches c r = true.
Proof. unfold has_items. by rewrite bool_decide_eq_true. Qed.

Lemma has_items_false c (m : items) :
  has_items c m = false <-> forall j r, m !! j = Some r -> matches c r = false.
Proof.
  unfold has_items. rewrite bool_decide_eq_false. split.
  - intros Hno j r Hm. apply not_true_is_false. intros Hr. apply Hno. by exists j, r.
  - intros Hall (j & r & Hm & Hr). rewrite (Hall j r Hm) in Hr. discriminate.
Qed.

Lemma lookup_upd_items k v c (m : items) j :
  upd_items k v c m !! j = (fun r => if matches c r then <[k := v]> r else r) <$> m !! j.
Proof. unfold upd_items. by rewrite lookup_fmap. Qed.

Lemma upd_items_id k v c (m : items) :
  (forall j r, m !! j = Some r -> matches c r = true -> r !! k = Some v) ->
  upd_items k v c m = m.
Proof.
  intros Hall. apply map_eq. intros j. rewrite lookup_upd_items.
  destruct (m !! j) as [r|] eqn:Hm; [|done]. simpl.
  destruct (matches c r) eqn:Hr; [|done]. f_equal. apply insert_id. eauto.
Qed.

Lemma upd_items_none k v c (m : items) :
  has_items c m = false -> upd_items k v c m = m.
Proof.
  intros Hno. apply upd_items_id. intros j r Hm Hr.
  rewrite (proj1 (has_items_false c m) Hno j r Hm) in Hr. discriminate.
Qed.

Lemma upd_items_guard k v c (m : items) :
  (if has_items c m then upd_items k v c m else m) = upd_items k v c m.
Proof. destruct (has_items c m) eqn:Hh; [done|]. by rewrite upd_items_none. Qed.

Lemma lookup_fresh (m : items) : m !! fresh (dom m) = None.
Proof. apply not_elem_of_dom, is_fresh. Qed.

Lemma lookup_add_items k v d (m : items) j :
  add_items k v d m !! j =
    if decide (j = fresh (dom m)) then Some (<[k := PyStr v]> d) else m !! j.
Proof.
  unfold add_items. case_decide as Hj.
  - subst j. by rewrite lookup_insert_eq.
  - by rewrite lookup_insert_ne.
Qed.

Lemma lookup_del_items c (m : items) j :
  del_items c m !! j =
    match m !! j with
    | Some r => if matches c r then None else Some r
    | None => None
    end.
Proof.
  unfold del_items. rewrite map_lookup_filter.
  destruct (m !! j) as [r|]; simpl; [|done].
  destruct (matches c r) eqn:Hr.
  - by rewrite option_guard_False.
  - by rewrite option_guard_True.
Qed.

(** ** The sections of [main] on a site whose calls all succeed *)

Lemma outcome_bind_check {B : Type} l c (f : bool -> prog B) s :
  c <> [] -> outcome (b <- check_list l c ;; f b) s = outcome (f (has l c s)) s.
Proof. intros Hc. by rewrite outcome_bind, outcome_check_list. Qed.

Lemma outcome_bind_update {B : Type} l k v c (f : unit -> prog B) s :
  c <> [] ->
  outcome (u <- update_record l k v c ;; f u) s = outcome (f tt) (upd l k v c s).
Proof. intros Hc. by rewrite outcome_bind, outcome_update_record. Qed.

Lemma outcome_bind_add {B : Type} l k v (f : unit -> prog B) s :
  outcome (u <- add_record l k v ;; f u) s = outcome (f tt) (add l k v s).
Proof. by rewrite outcome_bind, outcome_add_record. Qed.

Lemma outcome_bind_bind {A B C : Type} (p : prog A) (f : A -> prog B)
    (g : B -> prog C) s :
  outcome (b <- (a <- p ;; f a) ;; g b) s = outcome (a <- p ;; b <- f a ;; g b) s.
Proof.
  rewrite !outcome_bind. destruct (outcome p s) as [[a|e] s1]; [|done].
  by rewrite outcome_bind.
Qed.

(** "check, and if found update the rows found": the update alone. *)
Lemma outcome_check_update l k v c s :
  c <> [] ->
  outcome (b <- check_list l c ;; if b then update_record l k v c else Ret tt) s =
    (Ok tt, upd l k v c s).
Proof.
  intros Hc. rewrite outcome_bind_check by done. unfold upd.
  rewrite <- (upd_items_guard k v c). fold (has l c s).
  destruct (has l c s).
  - by rewrite outcome_update_record.
  - by rewrite outcome_ret, set_get.
Qed.

Lemma outcome_bind_check_update {B : Type} l k v c (f : unit -> prog B) s :
  c <> [] ->
  outcome (u <- (b <- check_list l c ;;
                 if b then update_record l k v c else Ret tt) ;; f u) s =
    outcome (f tt) (upd l k v c s).
Proof. intros Hc. by rewrite outcome_bind, outcome_check_update. Qed.

Lemma outcome_check_update_then {B : Type} l k v c (f : unit -> prog B) s :
  c <> [] ->
  outcome (b <- check_list l c ;;
           u <- (if b then update_record l k v c else Ret tt) ;; f u) s =
    outcome (f tt) (upd l k v c s).
Proof.
  intros Hc. rewrite <- (outcome_bind_check_update l k v c f s Hc).
  by rewrite outcome_bind_bind.
Qed.

Ltac site_norm :=
  unfold upd, add, del, has in *;
  repeat first
    [ rewrite get_set_eq | rewrite set_set | rewrite defaults_set
    | rewrite get_set_ne by done ].

Lemma outcome_untested_content_list i fpn s :
  outcome (untested_content_list i fpn) s =
    (Ok tt, set_items JamfContentList
              (content_untested i fpn (column_defaults s JamfContentList)
                 (content_list s)) s).
Proof.
  unfold untested_content_list, content_untested.
  rewrite outcome_bind_check by done. rewrite outcome_bind.
  unfold has. cbn [get_items].
  destruct (has_items _ (content_list s)); cbn [negb].
  - rewrite outcome_ret. rewrite !outcome_bind_update by done.
    rewrite outcome_update_record by done. by site_norm.
  - rewrite outcome_add_record. rewrite !outcome_bind_update by done.
    rewrite outcome_update_record by done. by site_norm.
Qed.

Lemma outcome_check_autostage fpn s :
  outcome (check_autostage fpn) s =
    (Ok (has_items (autostage_criteria fpn) (content_list s)), s).
Proof. unfold check_autostage. by rewrite outcome_check_list. Qed.

Lemma outcome_untested_test_coordination fpn sspn s :
  outcome (untested_test_coordination fpn sspn) s =
    (Ok tt, set_items JamfTestCoordination
              (coordination_untested fpn sspn
                 (has_items (autostage_criteria fpn) (content_list s))
                 (column_defaults s JamfTestCoordination)
                 (test_coordination s)) s).
Proof.
  unfold untested_test_coordination, coordination_untested.
  rewrite outcome_bind, outcome_check_autostage. cbv beta iota.
  rewrite outcome_check_update_then by done.
  rewrite outcome_bind_check by done.
  site_norm. cbn [get_items].
  destruct (has_items [_] _).
  - destruct (has_items (autostage_criteria fpn) (content_list s)).
    + rewrite outcome_update_record by done. by site_norm.
    + cbn [for_each check_criteria foldl]. unfold needs_review.
      rewrite !outcome_bind_check_update by done. rewrite outcome_ret.
      by site_norm.
  - rewrite outcome_check_update_then by done.
    rewrite outcome_bind_add, outcome_bind_update by done.
    destruct (has_items (autostage_criteria fpn) (content_list s)).
    + rewrite outcome_update_record by done. by site_norm.
    + rewrite outcome_ret. by site_norm.
Qed.

Lemma outcome_bind_delete {B : Type} l c (f : unit -> prog B) s :
  c <> [] ->
  outcome (u <- delete_record l c ;; f u) s = outcome (f tt) (del l c s).
Proof. intros Hc. by rewrite outcome_bind, outcome_delete_record. Qed.

Lemma outcome_untested_test_review i fpn sspn s :
  outcome (untested_test_review i fpn sspn) s =
    (Ok tt, set_items JamfTestReview
              (review_untested i fpn sspn (column_defaults s JamfTestReview)
                 (test_review s)) s).
Proof.
  unfold untested_test_review, review_untested.
  rewrite outcome_bind_check by done. unfold has. cbn [get_items].
  destruct (has_items [_] _).
  - rewrite !outcome_bind_update by done.
    rewrite outcome_update_record by done. by site_norm.
  - rewrite outcome_bind_check by done. unfold has. cbn [get_items].
    destruct (has_items _ (test_review s)).
    + rewrite outcome_bind_delete by done.
      rewrite outcome_bind_add, !outcome_bind_update by done.
      rewrite outcome_update_record by done. by site_norm.
    + rewrite outcome_bind_check_update by done.
      rewrite outcome_bind_add, !outcome_bind_update by done.
      rewrite outcome_update_record by done. by site_norm.
Qed.

Lemma outcome_ensure_entry {B : Type} l fpn sspn (f : unit -> prog B) s :
  outcome
    (b <- check_list l [("Self Service Content Name", (OpEq, sspn))] ;;
     u <- (if b then Ret tt
           else
             add_record l "Self Service Content Name" sspn ;;
             update_record l "Final Content Name" (PyStr fpn)
               [("Self Service Content Name", (OpEq, sspn))]) ;;
     f u) s =
  outcome (f tt)
    (set_items l (ensure_entry fpn sspn (column_defaults s l) (get_items l s)) s).
Proof.
  rewrite outcome_bind_check by done. unfold has, ensure_entry.
  destruct (has_items [_] _).
  - rewrite outcome_bind, outcome_ret. by rewrite set_get.
  - rewrite outcome_bind_bind, outcome_bind_add, outcome_bind_update by done.
    by site_norm.
Qed.

Lemma outcome_prod_test_coordination i fpn sspn s :
  outcome (prod_test_coordination i fpn sspn) s =
    (Ok tt, set_items JamfTestCoordination
              (coordination_prod i fpn sspn
                 (has_items (autostage_criteria fpn) (content_list s))
                 (column_defaults s JamfTestCoordination)
                 (test_coordination s)) s).
Proof.
  unfold prod_test_coordination, coordination_prod.
  rewrite outcome_ensure_entry. cbn [get_items].
  destruct (contains "prd" (jss_url i)).
  - rewrite outcome_bind, outcome_check_autostage. cbv beta iota.
    rewrite outcome_bind_update by done. cbn [content_list set_items].
    destruct (has_items (autostage_criteria fpn) (content_list s));
      rewrite outcome_update_record by done; by site_norm.
  - by rewrite outcome_ret.
Qed.

Lemma outcome_prod_test_review i fpn sspn s :
  outcome (prod_test_review i fpn sspn) s =
    (Ok tt, set_items JamfTestReview
              (review_prod i fpn sspn (column_defaults s JamfTestReview)
                 (test_review s)) s).
Proof.
  unfold prod_test_review, review_prod.
  rewrite outcome_ensure_entry. cbn [get_items].
  destruct (contains "tst" (jss_url i)); [|destruct (contains "prd" (jss_url i))].
  - rewrite outcome_bind_update, outcome_update_record by done. by site_norm.
  - rewrite outcome_update_record by done. by site_norm.
  - by rewrite outcome_ret.
Qed.

Lemma outcome_prod_content_list i fpn sspn s :
  outcome (prod_content_list i fpn sspn) s =
    (Ok tt, set_items JamfContentList
              (content_prod i fpn sspn (column_defaults s JamfContentList)
                 (content_list s)) s).
Proof.
  unfold prod_content_list, content_prod.
  destruct (contains "prd" (jss_url i)).
  - rewrite outcome_bind_check by done. rewrite outcome_bind.
    unfold has. cbn [get_items].
    destruct (has_items _ (content_list s)); cbn [negb].
    + rewrite outcome_ret. rewrite !outcome_bind_update by done.
      rewrite outcome_update_record by done. by site_norm.
    + rewrite outcome_add_record. rewrite !outcome_bind_update by done.
      rewrite outcome_update_record by done. by site_norm.
  - rewrite outcome_ret. by rewrite (set_get JamfContentList).
Qed.

(** The whole flows. *)
Lemma outcome_untested i s : outcome (untested i) s = (Ok tt, untested_site i s).
Proof.
  unfold untested, untested_site.
  rewrite outcome_bind, outcome_connect. cbv beta iota.
  rewrite outcome_bind, outcome_untested_content_list. cbv beta iota.
  rewrite outcome_bind, outcome_untested_test_coordination. cbv beta iota.
  rewrite outcome_untested_test_review. by destruct s.
Qed.

Lemma outcome_prod i fpn s : outcome (prod i fpn) s = (Ok tt, prod_site i fpn s).
Proof.
  unfold prod, prod_site.
  rewrite outcome_bind, outcome_connect. cbv beta iota.
  rewrite outcome_bind, outcome_prod_test_coordination. cbv beta iota.
  rewrite outcome_bind, outcome_prod_test_review. cbv beta iota.
  rewrite outcome_prod_content_list. by destruct s.
Qed.

(** [main] returns whenever the calls succeed. *)
Lemma outcome_main i s :
  outcome (main i) s =
    (Ok tt,
     if negb (truthy (final_policy_name i)) then
       if contains "prd" (jss_url i) then untested_site i s else s
     else prod_site i (default "" (final_policy_name i)) s).
Proof.
  unfold main. destruct (negb (truthy (final_policy_name i))).
  - destruct (contains "prd" (jss_url i)); [apply outcome_untested | done].
  - apply outcome_prod.
Qed.

(** ** Rows under updates *)

Lemma compare_insert_ne o key value k v (r : row) :
  k <> key -> compare o key value (<[k := v]> r) = compare o key value r.
Proof. intros Hne. unfold compare. by rewrite lookup_insert_ne. Qed.

(** Writing a column that the criteria do not mention does not change
    whether the item meets them. *)
Lemma matches_insert_ne k v c (r : row) :
  k ∉ c.*1 -> matches c (<[k := v]> r) = matches c r.
Proof.
  unfold matches. induction c as [|[key [o value]] c IH]; [done|].
  intros Hk. apply not_elem_of_cons in Hk as [Hne Hk]. cbn [forallb].
  rewrite IH by done. unfold satisfies at 1 3. cbn [fst snd].
  by rewrite compare_insert_ne.
Qed.

Lemma matches_eq1 k v (r : row) :
  matches [(k, (OpEq, v))] r = bool_decide (r !! k = Some (PyStr v)).
Proof. unfold matches, satisfies. simpl. apply andb_true_r. Qed.

Lemma upd_items_lookup_Some k v c (m : items) j r' :
  upd_items k v c m !! j = Some r' <->
  exists r, m !! j = Some r /\ r' = (if matches c r then <[k := v]> r else r).
Proof.
  rewrite lookup_upd_items. destruct (m !! j) as [r|]; simpl; naive_solver.
Qed.

(** After an update every item that meets the criteria has the value. *)
Lemma upd_items_sets k v c (m : items) j r :
  k ∉ c.*1 ->
  upd_items k v c m !! j = Some r -> matches c r = true -> r !! k = Some v.
Proof.
  intros Hk (r0 & Hm & ->)%upd_items_lookup_Some Hr.
  destruct (matches c r0) eqn:Hr0.
  - by rewrite lookup_insert_eq.
  - congruence.
Qed.

(** An update leaves the other columns, and the items that meet criteria
    on other columns. *)
Lemma upd_items_back k v c (m : items) j r :
  upd_items k v c m !! j = Some r ->
  exists r0, m !! j = Some r0 /\
    (forall k', k' <> k -> r !! k' = r0 !! k') /\
    (forall c', k ∉ c'.*1 -> matches c' r = matches c' r0).
Proof.
  intros (r0 & Hm & ->)%upd_items_lookup_Some. exists r0. split; [done|].
  destruct (matches c r0); [|done]. split.
  - intros k' Hne. by rewrite lookup_insert_ne.
  - intros c' Hk. by apply matches_insert_ne.
Qed.

Lemma upd_items_forth k v c (m : items) j r0 :
  m !! j = Some r0 ->
  exists r, upd_items k v c m !! j = Some r /\
    (forall k', k' <> k -> r !! k' = r0 !! k') /\
    (forall c', k ∉ c'.*1 -> matches c' r = matches c' r0).
Proof.
  intros Hm. rewrite lookup_upd_items, Hm. simpl. eexists. split; [done|].
  destruct (matches c r0); [|done]. split.
  - intros k' Hne. by rewrite lookup_insert_ne.
  - intros c' Hk. by apply matches_insert_ne.
Qed.

Lemma has_items_upd k v c c' (m : items) :
  k ∉ c'.*1 -> has_items c' (upd_items k v c m) = has_items c' m.
Proof.
  intros Hk. apply eq_true_iff_eq. rewrite !has_items_true. split.
  - intros (j & r & Hm & Hr). apply upd_items_back in Hm as (r0 & Hm & _ & Hc).
    exists j, r0. split; [done|]. by rewrite <- Hc.
  - intros (j & r0 & Hm & Hr). destruct (upd_items_forth k v c m j r0 Hm)
      as (r & Hu & _ & Hc). exists j, r. split; [done|]. by rewrite Hc.
Qed.

Ltac keys := apply (bool_decide_unpack _); vm_compute; exact I.

Ltac sets Hm Hc := eapply upd_items_sets; [ | exact Hm | exact Hc ]; keys.

(** ** The entry of a release *)

Lemma ensure_entry_old fpn sspn d (m : items) j r :
  m !! j = Some r -> ensure_entry fpn sspn d m !! j = Some r.
Proof.
  intros Hm. unfold ensure_entry.
  destruct (has_items _ m) eqn:Hh; [done|].
  rewrite lookup_upd_items, lookup_add_items.
  rewrite decide_False.
  - pose proof (proj1 (has_items_false _ m) Hh j r Hm) as Hr.
    rewrite Hm. cbn [fmap option_fmap option_map]. by rewrite Hr.
  - intros ->. rewrite lookup_fresh in Hm. discriminate.
Qed.

Lemma ensure_entry_has fpn sspn d (m : items) :
  has_items [("Self Service Content Name", (OpEq, sspn))]
    (ensure_entry fpn sspn d m) = true.
Proof.
  unfold ensure_entry. destruct (has_items _ m) eqn:Hh; [done|].
  rewrite has_items_upd by keys. apply has_items_true.
  exists (fresh (dom m)), (<["Self Service Content Name" := PyStr sspn]> d). split.
  - unfold add_items. by rewrite lookup_insert_eq.
  - rewrite matches_eq1. apply bool_decide_eq_true. by rewrite lookup_insert_eq.
Qed.

Lemma has_items_add k v d (m : items) :
  has_items [(k, (OpEq, v))] (add_items k v d m) = true.
Proof.
  apply has_items_true. exists (fresh (dom m)), (<[k := PyStr v]> d). split.
  - unfold add_items. by rewrite lookup_insert_eq.
  - rewrite matches_eq1. apply bool_decide_eq_true. by rewrite lookup_insert_eq.
Qed.

Lemma has_items_eq1 k v (m : items) :
  has_items [(k, (OpEq, v))] m = true <->
  exists j r, m !! j = Some r /\ r !! k = Some (PyStr v).
Proof.
  rewrite has_items_true. setoid_rewrite matches_eq1.
  by setoid_rewrite bool_decide_eq_true.
Qed.

Lemma truthy_Some (x : string) : x <> "" -> truthy (Some x) = true.
Proof. by destruct x. Qed.

(** ** The prod flow *)

(** C3: in the prod flow on a production server, when the content list has
    an entry for the final policy name with [Autostage] = [Yes], the run
    ends with the test coordination entry of the self-service policy name
    at [Status] = [Autostage] and [Release Completed] = [Yes], and with the
    content list entry of the final policy name at [Untested Version] =
    empty, [Prod. Version] = the version and [Test Report] = the site
    address, [/Lists/Jamf_Item_Test/DispForm.aspx?], the URL-encoded
    [Title] parameter and [, Test Report]. *)
Theorem prod_release_autostage (i : inputs) (fpn : string) (s : site) :
  final_policy_name i = Some fpn ->
  fpn <> "" ->
  contains "prd" (jss_url i) = true ->
  (exists j r, content_list s !! j = Some r /\
     r !! "Self Service Content" = Some (PyStr fpn) /\
     r !! "Autostage" = Some (PyStr "Yes")) ->
  let sspn := self_service_policy_name_of fpn (version i) in
  let s' := final (main i) s in
  outcome (main i) s = (Ok tt, s') /\
  (exists j r, test_coordination s' !! j = Some r /\
     r !! "Self Service Content Name" = Some (PyStr sspn)) /\
  (forall j r, test_coordination s' !! j = Some r ->
     r !! "Self Service Content Name" = Some (PyStr sspn) ->
     r !! "Status" = Some (PyStr "Autostage") /\
     r !! "Release Completed" = Some (PyStr "Yes")) /\
  (exists j r, content_list s' !! j = Some r /\
     r !! "Self Service Content" = Some (PyStr fpn)) /\
  (forall j r, content_list s' !! j = Some r ->
     r !! "Self Service Content" = Some (PyStr fpn) ->
     r !! "Untested Version" = Some (PyStr "") /\
     r !! "Prod. Version" = Some (PyStr (version i)) /\
     r !! "Test Report" =
       Some (PyStr ((sp_url i +:+ "/Lists/Jamf_Item_Test/DispForm.aspx?" +:+
                     urlencode [("Title", sspn)]) +:+ ", Test Report"))).
Proof.
  intros Hf Hne Hprd (j0 & r0 & Hm0 & Hssc & Hauto) sspn s'.
  assert (has_items (autostage_criteria fpn) (content_list s) = true) as Ha.
  { apply has_items_true. exists j0, r0. split; [done|].
    unfold autostage_criteria, matches, satisfies, compare. cbn [forallb fst snd].
    by rewrite !bool_decide_eq_true_2. }
  assert (outcome (main i) s = (Ok tt, prod_site i fpn s)) as Hout.
  { rewrite outcome_main, Hf. by rewrite truthy_Some. }
  assert (s' = prod_site i fpn s) as ->.
  { unfold s', final. change (exec (main i) s).1 with (outcome (main i) s).
    by rewrite Hout. }
  split; [done|]. unfold prod_site. cbn [test_coordination content_list].
  fold sspn. unfold coordination_prod, content_prod. rewrite Hprd, Ha.
  set (c := [("Self Service Content Name", (OpEq, sspn))]).
  set (cc := [("Self Service Content", (OpEq, fpn))]).
  split_and!.
  - apply has_items_eq1. fold c. rewrite !has_items_upd by keys.
    apply ensure_entry_has.
  - intros j r Hm Hr.
    assert (matches c r = true) as Hc
      by (unfold c; rewrite matches_eq1; by apply bool_decide_eq_true).
    split; [sets Hm Hc|].
    apply upd_items_back in Hm as (r1 & Hm & Hk & Hc1).
    rewrite Hk by done. rewrite Hc1 in Hc by keys.
    sets Hm Hc.
  - apply has_items_eq1. fold cc. rewrite !has_items_upd by keys.
    destruct (has_items cc (content_list s)) eqn:Hh; [done|].
    apply has_items_add.
  - intros j r Hm Hr.
    assert (matches cc r = true) as Hc
      by (unfold cc; rewrite matches_eq1; by apply bool_decide_eq_true).
    split_and!.
    + apply upd_items_back in Hm as (r1 & Hm & Hk & Hc1).
      rewrite Hk by done. rewrite Hc1 in Hc by keys.
      apply upd_items_back in Hm as (r2 & Hm & Hk2 & Hc2).
      rewrite Hk2 by done. rewrite Hc2 in Hc by keys.
      sets Hm Hc.
    + apply upd_items_back in Hm as (r1 & Hm & Hk & Hc1).
      rewrite Hk by done. rewrite Hc1 in Hc by keys.
      sets Hm Hc.
    + sets Hm Hc.
Qed.

(** C4: in the prod flow on a test server the test review entry of the
    self-service policy name is upserted.  The run ends with an entry of
    the name, every such entry has [Release Completed TST] = [Yes] and
    [Ready for Production] = [Yes], and the [Release Completed PRD] column
    of every entry that was in the list is as it was.  When the list had
    an entry of the name it is reused: the list has the same items as
    before, none is created.  When it had none, exactly one item is
    created, with the name and the final policy name, and its [Release
    Completed PRD] column is never written: it is what the list gives a
    new item. *)
Theorem prod_release_tst_review (i : inputs) (fpn : string) (s : site) :
  final_policy_name i = Some fpn ->
  fpn <> "" ->
  contains "tst" (jss_url i) = true ->
  let sspn := self_service_policy_name_of fpn (version i) in
  let s' := final (main i) s in
  outcome (main i) s = (Ok tt, s') /\
  (exists j r, test_review s' !! j = Some r /\
     r !! "Self Service Content Name" = Some (PyStr sspn)) /\
  (forall j r, test_review s' !! j = Some r ->
     r !! "Self Service Content Name" = Some (PyStr sspn) ->
     r !! "Release Completed TST" = Some (PyStr "Yes") /\
     r !! "Ready for Production" = Some (PyStr "Yes")) /\
  (forall j r, test_review s !! j = Some r ->
     exists r', test_review s' !! j = Some r' /\
       r' !! "Release Completed PRD" = r !! "Release Completed PRD") /\
  ((exists j r, test_review s !! j = Some r /\
      r !! "Self Service Content Name" = Some (PyStr sspn)) ->
   dom (test_review s') = dom (test_review s)) /\
  ((forall j r, test_review s !! j = Some r ->
      r !! "Self Service Content Name" <> Some (PyStr sspn)) ->
   exists j r, test_review s !! j = None /\
     test_review s' !! j = Some r /\
     dom (test_review s') = {[j]} ∪ dom (test_review s) /\
     r !! "Self Service Content Name" = Some (PyStr sspn) /\
     r !! "Final Content Name" = Some (PyStr fpn) /\
     r !! "Release Completed PRD" =
       column_defaults s JamfTestReview !! "Release Completed PRD").
Proof.
  intros Hf Hne Htst sspn s'.
  assert (outcome (main i) s = (Ok tt, prod_site i fpn s)) as Hout.
  { rewrite outcome_main, Hf. by rewrite truthy_Some. }
  assert (s' = prod_site i fpn s) as ->.
  { unfold s', final. change (exec (main i) s).1 with (outcome (main i) s).
    by rewrite Hout. }
  split; [done|]. unfold prod_site. cbn [test_review].
  fold sspn. unfold review_prod. rewrite Htst.
  set (c := [("Self Service Content Name", (OpEq, sspn))]).
  split_and!.
  - apply has_items_eq1. fold c. rewrite !has_items_upd by keys.
    apply ensure_entry_has.
  - intros j r Hm Hr.
    assert (matches c r = true) as Hc
      by (unfold c; rewrite matches_eq1; by apply bool_decide_eq_true).
    split; [|sets Hm Hc].
    apply upd_items_back in Hm as (r1 & Hm & Hk & Hc1).
    rewrite Hk by done. rewrite Hc1 in Hc by keys.
    sets Hm Hc.
  - intros j r Hm.
    apply (ensure_entry_old fpn sspn (column_defaults s JamfTestReview)) in Hm.
    destruct (upd_items_forth "Release Completed TST" (PyStr "Yes") c _ j r Hm)
      as (r1 & Hm1 & Hk1 & _).
    destruct (upd_items_forth "Ready for Production" (PyStr "Yes") c _ j r1 Hm1)
      as (r2 & Hm2 & Hk2 & _).
    exists r2. split; [done|]. rewrite Hk2 by done. by rewrite Hk1.
  - intros Hold. apply has_items_eq1 in Hold. fold c in Hold.
    unfold ensure_entry. fold c. rewrite Hold.
    unfold upd_items. by rewrite !dom_fmap_L.
  - intros Hnone.
    assert (has_items c (test_review s) = false) as Hno.
    { apply not_true_is_false. intros (j & r & Hm & Hr)%has_items_eq1.
      by apply (Hnone j r). }
    unfold ensure_entry. fold c. rewrite Hno.
    set (d := column_defaults s JamfTestReview).
    set (r0 := <["Self Service Content Name" := PyStr sspn]> d).
    assert (forall k v (r : row), k <> "Self Service Content Name" ->
              matches c r = true -> matches c (<[k := v]> r) = true) as Hkeep.
    { intros k v r Hk. unfold c. rewrite !matches_eq1, !bool_decide_eq_true.
      by rewrite lookup_insert_ne. }
    assert (matches c r0 = true) as Hr0.
    { unfold c, r0. rewrite matches_eq1. apply bool_decide_eq_true.
      by rewrite lookup_insert_eq. }
    exists (fresh (dom (test_review s))),
      (<["Ready for Production" := PyStr "Yes"]>
         (<["Release Completed TST" := PyStr "Yes"]>
            (<["Final Content Name" := PyStr fpn]> r0))).
    split_and!.
    + apply lookup_fresh.
    + rewrite !lookup_upd_items, lookup_add_items, decide_True by done.
      fold d r0. cbn [fmap option_fmap option_map]. rewrite Hr0.
      assert (matches c (<["Final Content Name" := PyStr fpn]> r0) = true)
        as Hr1 by (by apply Hkeep).
      rewrite Hr1.
      assert (matches c (<["Release Completed TST" := PyStr "Yes"]>
                (<["Final Content Name" := PyStr fpn]> r0)) = true)
        as Hr2 by (by apply Hkeep).
      by rewrite Hr2.
    + unfold upd_items. rewrite !dom_fmap_L. unfold add_items.
      by rewrite dom_insert_L.
    + do 3 (rewrite lookup_insert_ne by done). unfold r0.
      by rewrite lookup_insert_eq.
    + do 2 (rewrite lookup_insert_ne by done). by rewrite lookup_insert_eq.
    + do 3 (rewrite lookup_insert_ne by done). unfold r0.
      by rewrite lookup_insert_ne.
Qed.

Lemma prod_release_autostage_witness :
  (exists j r,
     content_list (final (main foo_release_prd) autostage_site) !! j = Some r /\
     r !! "Self Service Content" = Some (PyStr "Foo")) /\
  (forall j r,
     content_list (final (main foo_release_prd) autostage_site) !! j = Some r ->
     r !! "Self Service Content" = Some (PyStr "Foo") ->
     r !! "Untested Version" = Some (PyStr "") /\
     r !! "Prod. Version" = Some (PyStr "1.0") /\
     r !! "Test Report" =
       Some (PyStr (("https://sp.example.com/sites/jamf" +:+
                     "/Lists/Jamf_Item_Test/DispForm.aspx?" +:+
                     urlencode [("Title", "Foo (Testing) v1.0")]) +:+
                    ", Test Report"))).
Proof.
  refine (proj2 (proj2 (proj2
    (prod_release_autostage foo_release_prd "Foo" autostage_site _ _ _ _)))).
  - reflexivity.
  - discriminate.
  - vm_compute. reflexivity.
  - exists 1%positive,
      (list_to_map [("Self Service Content", PyStr "Foo");
                    ("Autostage", PyStr "Yes")]).
    split_and!; reflexivity.
Defined.

Lemma prod_release_tst_review_witness :
  let t := final (main foo_release_tst) autostage_site in
  let t' := final (main foo_release_tst) foo_released_site in
  (forall j r,
     test_review t !! j = Some r ->
     r !! "Self Service Content Name" = Some (PyStr "Foo (Testing) v1.0") ->
     r !! "Release Completed TST" = Some (PyStr "Yes") /\
     r !! "Ready for Production" = Some (PyStr "Yes")) /\
  (exists j r, test_review autostage_site !! j = None /\
     test_review t !! j = Some r /\
     dom (test_review t) = {[j]} ∪ dom (test_review autostage_site) /\
     r !! "Self Service Content Name" = Some (PyStr "Foo (Testing) v1.0") /\
     r !! "Final Content Name" = Some (PyStr "Foo") /\
     r !! "Release Completed PRD" =
       column_defaults autostage_site JamfTestReview !! "Release Completed PRD") /\
  (forall j r,
     test_review foo_released_site !! j = Some r ->
     exists r', test_review t' !! j = Some r' /\
       r' !! "Release Completed PRD" = r !! "Release Completed PRD") /\
  dom (test_review t') = dom (test_review foo_released_site).
Proof.
  intros t t'.
  unshelve epose proof
    (prod_release_tst_review foo_release_tst "Foo" autostage_site _ _ _)
    as (_ & _ & Hyes & _ & _ & Hnew);
    [reflexivity | discriminate | vm_compute; reflexivity | ].
  unshelve epose proof
    (prod_release_tst_review foo_release_tst "Foo" foo_released_site _ _ _)
    as (_ & _ & _ & Hprd & Hsame & _);
    [reflexivity | discriminate | vm_compute; reflexivity | ].
  split_and!.
  - exact Hyes.
  - apply Hnew. intros j r Hm. unfold autostage_site in Hm.
    cbn [test_review] in Hm. by rewrite lookup_empty in Hm.
  - exact Hprd.
  - apply Hsame.
    exists 1%positive,
      (list_to_map [("Self Service Content Name", PyStr "Foo (Testing) v1.0");
                    ("Final Content Name", PyStr "Foo");
                    ("Release Completed TST", PyStr "Yes");
                    ("Release Completed PRD", PyStr "Yes");
                    ("Ready for Production", PyStr "Yes")]).
    split; reflexivity.
Defined.

(** ** The calls of a run *)

Lemma traces_ret {A : Type} P (a : A) : traces P (Ret a).
Proof. intros budget s. constructor. Qed.

Lemma traces_bind {A B : Type} P (p : prog A) (f : A -> prog B) :
  traces P p -> (forall a, traces P (f a)) -> traces P (bind p f).
Proof.
  intros Hp Hf budget s. unfold trace. rewrite run_bind.
  specialize (Hp budget s). unfold trace in Hp.
  destruct (run p budget s) as [[[a|e] s1] t1]; [|done].
  specialize (Hf a (after budget t1) s1). unfold trace in Hf.
  destruct (run (f a) (after budget t1) s1) as [[r s2] t2].
  apply Forall_app. by split.
Qed.

Lemma traces_call P o : P o -> traces P (call o).
Proof.
  intros Ho budget s. unfold trace, call. simpl.
  destruct budget as [[|n]|]; simpl; [constructor | |];
    destruct (perform o s); simpl; by repeat constructor.
Qed.

Lemma traces_for_each {X : Type} P (xs : list X) (body : X -> prog unit) :
  (forall x, traces P (body x)) -> traces P (for_each xs body).
Proof.
  intros Hb. induction xs as [|x xs IH]; [apply traces_ret|].
  apply traces_bind; [apply Hb | by intros _].
Qed.

Lemma In_build_query o k v c :
  In (WCmp o k v) (build_query c).2 -> In (k, (o, v)) c.
Proof.
  destruct c as [|[k0 [o0 v0]] rest]; [done|].
  rewrite build_query_cons. cbn [snd]. rewrite in_app_iff, <- in_rev, in_flat_map.
  intros [([k1 [o1 v1]] & Hin & Hw) | Hw].
  - right. unfold where_pair in Hw. simpl in Hw.
    destruct Hw as [[= -> -> ->] | [[=] | []]]. done.
  - left. simpl in Hw. destruct Hw as [[= -> -> ->] | []]. done.
Qed.

Lemma keyed_query sspn l c :
  keyed_criteria sspn l c ->
  keyed_by sspn (OpGetListItems l (build_query c).1 (build_query c).2).
Proof.
  intros Hc Hl o v Hin. apply (Hc Hl o). by apply In_build_query.
Qed.

Lemma keyed_check_list sspn l c :
  keyed_criteria sspn l c -> traces (keyed_by sspn) (check_list l c).
Proof.
  intros Hc. unfold check_list.
  apply traces_bind; [by apply traces_call | intros _].
  pose proof (keyed_query sspn l c Hc) as Hq.
  destruct (build_query c) as [fields query].
  apply traces_bind; [by apply traces_call | intros rows; apply traces_ret].
Qed.

Lemma keyed_update_record sspn l k v c :
  keyed_criteria sspn l c -> traces (keyed_by sspn) (update_record l k v c).
Proof.
  intros Hc. unfold update_record.
  apply traces_bind; [by apply traces_call | intros _].
  pose proof (keyed_query sspn l c Hc) as Hq.
  destruct (build_query c) as [fields query].
  apply traces_bind; [by apply traces_call | intros rows].
  apply traces_for_each. intros r.
  apply traces_bind; [by apply traces_call | intros _; apply traces_ret].
Qed.

Lemma keyed_delete_loop sspn l acc rows :
  traces (keyed_by sspn) (delete_loop l acc rows).
Proof.
  revert acc. induction rows as [|r rows IH]; intros acc; [apply traces_ret|].
  cbn [delete_loop]. apply traces_bind; [by apply traces_call | by intros _].
Qed.

Lemma keyed_delete_record sspn l c :
  keyed_criteria sspn l c -> traces (keyed_by sspn) (delete_record l c).
Proof.
  intros Hc. unfold delete_record.
  apply traces_bind; [by apply traces_call | intros _].
  pose proof (keyed_query sspn l c Hc) as Hq.
  destruct (build_query c) as [fields query].
  apply traces_bind; [by apply traces_call | intros rows].
  apply keyed_delete_loop.
Qed.

Lemma keyed_add_record sspn l k v :
  (l <> JamfContentList -> k = "Self Service Content Name" /\ v = sspn) ->
  traces (keyed_by sspn) (add_record l k v).
Proof.
  intros Hk. unfold add_record.
  apply traces_bind; [by apply traces_call | intros _].
  apply traces_bind; [|intros _; apply traces_ret].
  apply traces_call. intros Hl. destruct (Hk Hl) as [-> ->]. done.
Qed.

Lemma keyed_connect sspn url user password :
  traces (keyed_by sspn) (connect_sharepoint url user password).
Proof.
  unfold connect_sharepoint.
  apply traces_bind; [by apply traces_call | intros _; apply traces_ret].
Qed.

Ltac keyed_side :=
  lazymatch goal with
  | |- keyed_criteria _ _ _ =>
      let Hin := fresh "Hin" in
      intros ? ? ? Hin; simpl in Hin;
      repeat (destruct Hin as [Hin|Hin]; [try (by inversion Hin)|]); done
  | |- _ -> _ /\ _ => by intros
  end.

Ltac keyed_step :=
  first
    [ apply traces_ret
    | apply keyed_connect
    | apply keyed_check_list; keyed_side
    | apply keyed_update_record; keyed_side
    | apply keyed_delete_record; keyed_side
    | apply keyed_add_record; keyed_side
    | apply traces_bind; [|intros ?]
    | apply traces_for_each; intros ?
    | lazymatch goal with
      | |- traces _ (if ?b then _ else _) => destruct b
      end ].

Lemma keyed_untested i :
  traces
    (keyed_by (self_service_policy_name_of (untested_final_policy_name i) (version i)))
    (untested i).
Proof.
  unfold untested, untested_content_list, untested_test_coordination,
    untested_test_review, check_autostage.
  repeat keyed_step.
Qed.

Lemma keyed_prod i fpn :
  traces (keyed_by (self_service_policy_name_of fpn (version i))) (prod i fpn).
Proof.
  unfold prod, prod_test_coordination, prod_test_review, prod_content_list,
    check_autostage.
  repeat keyed_step.
Qed.

Lemma keyed_main i :
  traces
    (keyed_by (self_service_policy_name_of (effective_final_policy_name i) (version i)))
    (main i).
Proof.
  unfold main, effective_final_policy_name.
  destruct (truthy (final_policy_name i)); cbn [negb].
  - apply keyed_prod.
  - destruct (contains "prd" (jss_url i)); [apply keyed_untested | apply traces_ret].
Qed.

(** The untested flow leaves an entry of the self-service policy name in
    the test coordination list and in the test review list. *)
Lemma coordination_untested_has fpn sspn a d (m : items) :
  has_items [("Self Service Content Name", (OpEq, sspn))]
    (coordination_untested fpn sspn a d m) = true.
Proof.
  unfold coordination_untested.
  destruct (has_items _ (upd_items _ _ _ m)) eqn:Hh.
  - destruct a.
    + by rewrite has_items_upd by keys.
    + cbn [foldl check_criteria]. unfold needs_review.
      by do 4 rewrite has_items_upd by keys.
  - destruct a; rewrite !has_items_upd by keys; apply has_items_add.
Qed.

Lemma review_untested_has i fpn sspn d (m : items) :
  has_items [("Self Service Content Name", (OpEq, sspn))]
    (review_untested i fpn sspn d m) = true.
Proof.
  unfold review_untested. destruct (has_items _ m) eqn:Hh.
  - by rewrite !has_items_upd by keys.
  - rewrite !has_items_upd by keys. apply has_items_add.
Qed.

(** C6: in the untested flow and in the prod flow alike, the name that
    keys the test coordination and test review entries is the final policy
    name followed by [ (Testing) v] and the version: every item the run
    creates in these lists has it as [Self Service Content Name], every
    query of the run that compares that column compares it with this
    name, and a run that does any work leaves an entry of that name in
    both lists. *)
Theorem self_service_policy_name_keys (i : inputs) budget (s : site) :
  let sspn :=
    effective_final_policy_name i +:+ " (Testing) v" +:+ version i in
  Forall (keyed_by sspn) (trace (main i) budget s) /\
  (truthy (final_policy_name i) || contains "prd" (jss_url i) = true ->
   (exists j r, test_coordination (final (main i) s) !! j = Some r /\
      r !! "Self Service Content Name" = Some (PyStr sspn)) /\
   (exists j r, test_review (final (main i) s) !! j = Some r /\
      r !! "Self Service Content Name" = Some (PyStr sspn))).
Proof.
  intros sspn. split; [apply keyed_main|]. intros Hwork.
  unfold final. change (exec (main i) s).1 with (outcome (main i) s).
  rewrite outcome_main. cbn [snd].
  subst sspn. unfold effective_final_policy_name.
  destruct (truthy (final_policy_name i)); cbn [negb].
  - unfold prod_site. cbn [test_coordination test_review]. split.
    + apply has_items_eq1. unfold coordination_prod.
      destruct (contains "prd" (jss_url i)).
      * destruct (has_items (autostage_criteria _) _);
          rewrite !has_items_upd by keys; apply ensure_entry_has.
      * apply ensure_entry_has.
    + apply has_items_eq1. unfold review_prod.
      destruct (contains "tst" (jss_url i)); [|destruct (contains "prd" (jss_url i))];
        rewrite ?has_items_upd by keys; apply ensure_entry_has.
  - simpl in Hwork. rewrite Hwork.
    unfold untested_site. cbn [test_coordination test_review]. split.
    + apply has_items_eq1. apply coordination_untested_has.
    + apply has_items_eq1. apply review_untested_has.
Qed.

Lemma self_service_policy_name_keys_witness :
  Forall (keyed_by "Foo (Testing) v1.0")
    (trace (main foo_release_prd) None autostage_site) /\
  (exists j r,
     test_coordination (final (main foo_release_prd) autostage_site) !! j = Some r /\
     r !! "Self Service Content Name" = Some (PyStr "Foo (Testing) v1.0")) /\
  (exists j r,
     test_review (final (main foo_release_prd) autostage_site) !! j = Some r /\
     r !! "Self Service Content Name" = Some (PyStr "Foo (Testing) v1.0")).
Proof.
  destruct (self_service_policy_name_keys foo_release_prd None autostage_site)
    as [Htr Hex].
  split; [exact Htr|]. apply Hex. reflexivity.
Defined.

(** ** Updates that change nothing *)

(** An update whose column the criteria do not mention is idempotent. *)
Lemma upd_items_absorb k v c (m : items) :
  k ∉ c.*1 -> upd_items k v c (upd_items k v c m) = upd_items k v c m.
Proof.
  intros Hk. apply upd_items_id. intros j r Hm Hr. by apply (upd_items_sets k v c m j).
Qed.

(** Two updates of different columns, neither mentioned by the criteria of
    the other, commute. *)
Lemma upd_items_comm k v c k' v' c' (m : items) :
  k <> k' -> k ∉ c'.*1 -> k' ∉ c.*1 ->
  upd_items k v c (upd_items k' v' c' m) = upd_items k' v' c' (upd_items k v c m).
Proof.
  intros Hne Hk Hk'. apply map_eq. intros j. rewrite !lookup_upd_items.
  destruct (m !! j) as [r|]; [|done]. cbn [fmap option_fmap option_map].
  f_equal. destruct (matches c r) eqn:Hc, (matches c' r) eqn:Hc';
    rewrite ?matches_insert_ne, ?Hc, ?Hc' by done; try done.
  by apply insert_insert_ne.
Qed.

(** When no updated row can meet the criteria [c'], an update does not
    create an item that meets them. *)
Lemma has_items_upd_false k v c c' (m : items) :
  (forall r, matches c' (<[k := v]> r) = false) ->
  has_items c' m = false -> has_items c' (upd_items k v c m) = false.
Proof.
  intros Hnew Hno. apply has_items_false. intros j r Hm.
  apply upd_items_lookup_Some in Hm as (r0 & Hm & ->).
  destruct (matches c r0); [apply Hnew|].
  by apply (proj1 (has_items_false c' m) Hno j).
Qed.

(** When the updated rows stop meeting the criteria of the update, no item
    meets them afterwards. *)
Lemma has_items_upd_self k v c (m : items) :
  (forall r, matches c (<[k := v]> r) = false) ->
  has_items c (upd_items k v c m) = false.
Proof.
  intros Hnew. apply has_items_false. intros j r Hm.
  apply upd_items_lookup_Some in Hm as (r0 & Hm & ->).
  destruct (matches c r0) eqn:Hr0; [apply Hnew | done].
Qed.

(** The only item of a list with a new entry that meets the key of the
    entry is the new one, when no item met it before. *)
Lemma add_items_matching k x d (m : items) j r :
  has_items [(k, (OpEq, x))] m = false ->
  add_items k x d m !! j = Some r ->
  matches [(k, (OpEq, x))] r = true ->
  j = fresh (dom m) /\ r = <[k := PyStr x]> d.
Proof.
  intros Hno Hm Hr. rewrite lookup_add_items in Hm. case_decide as Hj.
  - by simplify_eq.
  - rewrite (proj1 (has_items_false _ m) Hno j r Hm) in Hr. discriminate.
Qed.

(** ** The untested flow run twice *)

Lemma content_untested_has i fpn d (m : items) :
  has_items [("Self Service Content", (OpEq, fpn))] (content_untested i fpn d m)
  = true.
Proof.
  unfold content_untested. rewrite !has_items_upd by keys.
  destruct (has_items _ m) eqn:Hh; [done | apply has_items_add].
Qed.

Lemma content_untested_twice i fpn d (m : items) :
  content_untested i fpn d (content_untested i fpn d m) =
  content_untested i fpn d m.
Proof.
  unfold content_untested at 1. rewrite content_untested_has. cbn [negb].
  unfold content_untested.
  set (m0 := if negb _ then _ else m). clearbody m0.
  rewrite !(upd_items_comm "Untested Version") by (done || keys).
  rewrite upd_items_absorb by keys.
  rewrite !(upd_items_comm "Category") by (done || keys).
  rewrite upd_items_absorb by keys.
  by rewrite upd_items_absorb by keys.
Qed.

Lemma has_items_del_false c c' (m : items) :
  has_items c m = false -> has_items c (del_items c' m) = false.
Proof.
  intros Hno. apply has_items_false. intros j r Hm.
  rewrite lookup_del_items in Hm. destruct (m !! j) as [r0|] eqn:Hm0; [|done].
  destruct (matches c' r0); [done|]. simplify_eq.
  by apply (proj1 (has_items_false c m) Hno j).
Qed.

(** The columns of the entry created by the untested test review section:
    an item that meets the key afterwards is the new item, and its columns
    other than the four written are the default ones. *)
Lemma review_created_row i fpn sspn d (m1 : items) j r k' :
  let c := [("Self Service Content Name", (OpEq, sspn))] in
  has_items c m1 = false ->
  upd_items "Process_Name" (of_opt (process_name i)) c
    (upd_items "Executable_Command" (of_opt (executable_command i)) c
       (upd_items "Final Content Name" (PyStr fpn) c
          (add_items "Self Service Content Name" sspn d m1))) !! j = Some r ->
  matches c r = true ->
  k' <> "Process_Name" -> k' <> "Executable_Command" ->
  k' <> "Final Content Name" -> k' <> "Self Service Content Name" ->
  j = fresh (dom m1) /\ r !! k' = d !! k'.
Proof.
  intros c Hno Hm Hr H1 H2 H3 H4.
  apply upd_items_back in Hm as (r1 & Hm & Hk1 & Hc1).
  rewrite Hk1 by done. rewrite Hc1 in Hr by keys.
  apply upd_items_back in Hm as (r2 & Hm & Hk2 & Hc2).
  rewrite Hk2 by done. rewrite Hc2 in Hr by keys.
  apply upd_items_back in Hm as (r3 & Hm & Hk3 & Hc3).
  rewrite Hk3 by done. rewrite Hc3 in Hr by keys.
  destruct (add_items_matching _ _ _ _ _ _ Hno Hm Hr) as [-> ->].
  split; [done|]. by rewrite lookup_insert_ne.
Qed.

Lemma review_untested_twice i fpn sspn d (m : items) :
  d !! "Release Completed TST" = Some (PyStr "No") ->
  d !! "Release Completed PRD" = Some (PyStr "No") ->
  d !! "Ready for Production" = Some (PyStr "No") ->
  review_untested i fpn sspn d (review_untested i fpn sspn d m) =
  review_untested i fpn sspn d m.
Proof.
  intros Htst Hprd Hrdy.
  unfold review_untested at 1. rewrite review_untested_has.
  unfold review_untested.
  set (c := [("Self Service Content Name", (OpEq, sspn))]).
  destruct (has_items c m) eqn:Hh.
  - rewrite !(upd_items_comm "Release Completed TST") by (done || keys).
    rewrite upd_items_absorb by keys.
    rewrite !(upd_items_comm "Release Completed PRD") by (done || keys).
    rewrite upd_items_absorb by keys.
    rewrite !(upd_items_comm "Ready for Production") by (done || keys).
    rewrite upd_items_absorb by keys.
    rewrite !(upd_items_comm "Executable_Command") by (done || keys).
    rewrite upd_items_absorb by keys.
    by rewrite upd_items_absorb by keys.
  - set (c1 := [("Final Content Name", (OpEq, fpn));
                 ("Release Completed TST", (OpEq, "No"))]).
    set (m1 := if has_items c1 m then _ else _).
    assert (has_items c m1 = false) as Hno.
    { unfold m1. destruct (has_items c1 m).
      - by apply has_items_del_false.
      - by rewrite has_items_upd by keys. }
    clearbody m1.
    set (M := upd_items "Process_Name" _ c
                (upd_items "Executable_Command" _ c
                   (upd_items "Final Content Name" _ c _))).
    assert (forall k' v, d !! k' = Some v ->
              k' <> "Process_Name" -> k' <> "Executable_Command" ->
              k' <> "Final Content Name" -> k' <> "Self Service Content Name" ->
              upd_items k' v c M = M) as Hid.
    { intros k' v Hd H1 H2 H3 H4. apply upd_items_id. intros j r Hm Hr.
      destruct (review_created_row i fpn sspn d m1 j r k' Hno Hm Hr) as [_ ->]; done. }
    rewrite (Hid "Release Completed TST") by done.
    rewrite (Hid "Release Completed PRD") by done.
    rewrite (Hid "Ready for Production") by done.
    unfold M.
    rewrite !(upd_items_comm "Executable_Command") by (done || keys).
    rewrite upd_items_absorb by keys.
    by rewrite upd_items_absorb by keys.
Qed.

Lemma has_items_false_intro c (m : items) :
  (forall j r, m !! j = Some r -> matches c r = true -> False) ->
  has_items c m = false.
Proof.
  intros Hno. apply has_items_false. intros j r Hm.
  destruct (matches c r) eqn:Hr; [|done]. by destruct (Hno j r).
Qed.

Lemma matches_cons kv c (r : row) :
  matches (kv :: c) r = true <-> satisfies r kv = true /\ matches c r = true.
Proof. unfold matches. cbn [forallb]. apply andb_true_iff. Qed.

Lemma satisfies_eq k v (r : row) :
  satisfies r (k, (OpEq, v)) = true <-> r !! k = Some (PyStr v).
Proof. unfold satisfies, compare. cbn [fst snd]. apply bool_decide_eq_true. Qed.

Lemma satisfies_neq k v (r : row) :
  satisfies r (k, (OpNeq, v)) = true <-> r !! k <> Some (PyStr v).
Proof.
  unfold satisfies, compare. cbn [fst snd].
  rewrite negb_true_iff. apply bool_decide_eq_false.
Qed.

(** The entry created by the untested test coordination section. *)
Lemma coordination_created_row fpn sspn d (m1 : items) j r k' :
  let c := [("Self Service Content Name", (OpEq, sspn))] in
  has_items c m1 = false ->
  upd_items "Final Content Name" (PyStr fpn) c
    (add_items "Self Service Content Name" sspn d m1) !! j = Some r ->
  matches c r = true ->
  k' <> "Final Content Name" -> k' <> "Self Service Content Name" ->
  j = fresh (dom m1) /\ r !! k' = d !! k'.
Proof.
  intros c Hno Hm Hr H1 H2.
  apply upd_items_back in Hm as (r1 & Hm & Hk1 & Hc1).
  rewrite Hk1 by done. rewrite Hc1 in Hr by keys.
  destruct (add_items_matching _ _ _ _ _ _ Hno Hm Hr) as [-> ->].
  split; [done|]. by rewrite lookup_insert_ne.
Qed.

Lemma needs_review_none sspn (m : items) check :
  (forall j r, m !! j = Some r ->
     r !! "Self Service Content Name" = Some (PyStr sspn) ->
     r !! "Release Completed" = Some (PyStr "No") ->
     r !! "Status" = Some (PyStr check) -> False) ->
  needs_review sspn m check = m.
Proof.
  intros Hno. unfold needs_review. apply upd_items_none, has_items_false_intro.
  intros j r Hm (H1%satisfies_eq & (H2%satisfies_eq & (H3%satisfies_eq & _)%matches_cons)%matches_cons)%matches_cons.
  by apply (Hno j r).
Qed.

Lemma needs_review_criteria_insert sspn check (r : row) :
  check <> "Needs review" ->
  matches [("Self Service Content Name", (OpEq, sspn));
           ("Release Completed", (OpEq, "No"));
           ("Status", (OpEq, check))]
    (<["Status" := PyStr "Needs review"]> r) = false.
Proof.
  intros Hne. apply not_true_is_false.
  intros (_ & (_ & (H3%satisfies_eq & _)%matches_cons)%matches_cons)%matches_cons.
  rewrite lookup_insert_eq in H3. congruence.
Qed.

(** After the states are reset, no entry of the name is unreleased in a
    state of [check_criteria]. *)
Lemma needs_review_all_clear sspn (m : items) check j r :
  In check check_criteria ->
  foldl (needs_review sspn) m check_criteria !! j = Some r ->
  r !! "Self Service Content Name" = Some (PyStr sspn) ->
  r !! "Release Completed" = Some (PyStr "No") ->
  r !! "Status" = Some (PyStr check) -> False.
Proof.
  intros Hin Hm Hs Hrc Hst.
  assert (has_items [("Self Service Content Name", (OpEq, sspn));
                     ("Release Completed", (OpEq, "No"));
                     ("Status", (OpEq, check))]
            (foldl (needs_review sspn) m check_criteria) = false) as Hno.
  { cbn [foldl check_criteria]. unfold needs_review.
    simpl in Hin. destruct Hin as [<-|[<-|[<-|[<-|[]]]]];
      repeat first
        [ apply has_items_upd_self; intros; by apply needs_review_criteria_insert
        | apply has_items_upd_false;
          [intros; by apply needs_review_criteria_insert|] ]. }
  assert (matches [("Self Service Content Name", (OpEq, sspn));
                   ("Release Completed", (OpEq, "No"));
                   ("Status", (OpEq, check))] r = true) as Hr
    by (repeat (apply matches_cons; split; [by apply satisfies_eq|]); done).
  by rewrite (proj1 (has_items_false _ _) Hno j r Hm) in Hr.
Qed.

Lemma coordination_untested_twice fpn sspn a d (m : items) :
  settled_coordination_defaults d ->
  coordination_untested fpn sspn a d (coordination_untested fpn sspn a d m) =
  coordination_untested fpn sspn a d m.
Proof.
  intros [Hyes Hchk].
  set (c := [("Self Service Content Name", (OpEq, sspn))]).
  set (crel := [("Self Service Content Name", (OpEq, sspn));
                ("Release Completed", (OpEq, "Yes"))]).
  set (cna := [("Self Service Content Name", (OpEq, sspn));
               ("Status", (OpNeq, "Autostage"))]).
  set (M := coordination_untested fpn sspn a d m).
  (* what the first run leaves of the entries of the name *)
  assert (forall j r, M !! j = Some r ->
            r !! "Self Service Content Name" = Some (PyStr sspn) ->
            r !! "Release Completed" <> Some (PyStr "Yes") /\
            (a = true -> r !! "Status" = Some (PyStr "Autostage")) /\
            (a = false -> forall check, In check check_criteria ->
               r !! "Release Completed" = Some (PyStr "No") ->
               r !! "Status" = Some (PyStr check) -> False)) as Hrows.
  { intros j r Hm Hs. unfold M, coordination_untested in Hm.
    fold c crel cna in Hm.
    assert (matches c r = true) as Hc
      by (apply matches_cons; split; [by apply satisfies_eq | done]).
    assert (has_items crel (upd_items "Release Completed" (PyStr "No") crel m)
            = false) as Hrel.
    { apply has_items_upd_self. intros r0. apply not_true_is_false.
      intros (_ & (H2%satisfies_eq & _)%matches_cons)%matches_cons.
      by rewrite lookup_insert_eq in H2. }
    destruct (has_items c (upd_items "Release Completed" (PyStr "No") crel m))
      eqn:Hh.
    - (* the entry was there *)
      assert (forall m', has_items crel m' = false -> m' !! j = Some r ->
                r !! "Release Completed" <> Some (PyStr "Yes")) as Hny.
      { intros m' Hno Hm' Hy.
        assert (matches crel r = true) as Hr
          by (repeat (apply matches_cons; split; [by apply satisfies_eq|]); done).
        by rewrite (proj1 (has_items_false _ _) Hno j r Hm') in Hr. }
      destruct a.
      + split_and!.
        * eapply Hny; [|exact Hm]. by rewrite has_items_upd by keys.
        * intros _. apply upd_items_lookup_Some in Hm as (r0 & Hm & ->).
          destruct (matches cna r0) eqn:Hr0; [by rewrite lookup_insert_eq|].
          destruct (decide (r0 !! "Status" = Some (PyStr "Autostage"))) as [|Hn];
            [done|].
          apply not_true_iff_false in Hr0. destruct Hr0.
          apply matches_cons; split; [by apply satisfies_eq|].
          apply matches_cons; split; [by apply satisfies_neq | done].
        * done.
      + split_and!.
        * eapply Hny; [|exact Hm].
          cbn [foldl check_criteria]. unfold needs_review.
          by do 4 rewrite has_items_upd by keys.
        * done.
        * intros _ check Hin Hrc Hst.
          by eapply (needs_review_all_clear sspn); [exact Hin | exact Hm | ..].
    - (* the entry was created *)
      set (m1 := upd_items "Status" (PyStr "Obsolete") _ _) in Hm.
      assert (has_items c m1 = false) as Hno
        by (unfold m1; by rewrite has_items_upd by keys).
      clearbody m1.
      destruct a.
      + split_and!.
        * apply upd_items_back in Hm as (r1 & Hm & Hk1 & Hc1).
          rewrite Hk1 by done. rewrite Hc1 in Hc by keys.
          by destruct (coordination_created_row fpn sspn d m1 j r1
                         "Release Completed" Hno Hm Hc) as [_ ->].
        * intros _. sets Hm Hc.
        * done.
      + destruct (coordination_created_row fpn sspn d m1 j r
                    "Release Completed" Hno Hm Hc) as [_ Hrc]; [done..|].
        destruct (coordination_created_row fpn sspn d m1 j r
                    "Status" Hno Hm Hc) as [_ Hst]; [done..|].
        split_and!.
        * by rewrite Hrc.
        * done.
        * intros _ check Hin Hn Hs'. apply (Hchk check Hin).
          by rewrite <- Hrc, <- Hst. }
  (* the second run *)
  unfold coordination_untested at 1. fold c crel cna M.
  assert (upd_items "Release Completed" (PyStr "No") crel M = M) as ->.
  { apply upd_items_none, has_items_false_intro.
    intros j r Hm (H1%satisfies_eq & (H2%satisfies_eq & _)%matches_cons)%matches_cons.
    by destruct (Hrows j r Hm H1) as [Hn _]. }
  replace (has_items c M) with true
    by (symmetry; apply coordination_untested_has).
  destruct a.
  - apply upd_items_none, has_items_false_intro.
    intros j r Hm (H1%satisfies_eq & (H2%satisfies_neq & _)%matches_cons)%matches_cons.
    destruct (Hrows j r Hm H1) as (_ & Ha & _). by rewrite Ha in H2.
  - assert (forall check, In check check_criteria ->
              needs_review sspn M check = M) as Hnr.
    { intros check Hin. apply needs_review_none. intros j r Hm H1 H2 H3.
      destruct (Hrows j r Hm H1) as (_ & _ & Hf). by apply (Hf eq_refl check). }
    cbn [foldl check_criteria].
    rewrite !Hnr; [done | simpl; tauto..].
Qed.

Lemma final_main i s :
  final (main i) s =
    if negb (truthy (final_policy_name i)) then
      if contains "prd" (jss_url i) then untested_site i s else s
    else prod_site i (default "" (final_policy_name i)) s.
Proof.
  unfold final. change (exec (main i) s).1 with (outcome (main i) s).
  by rewrite outcome_main.
Qed.

(** Without column defaults the second untested run writes the three
    flags of the test review entry, which the first run, creating the
    entry, did not write. *)
Lemma untested_twice_differs :
  truthy (final_policy_name foo_untested) = false /\
  contains "prd" (jss_url foo_untested) = true /\
  (test_review (final (main foo_untested) empty_site) !! 1%positive)
    ≫= lookup "Release Completed TST" = None /\
  (test_review (final (main foo_untested) (final (main foo_untested) empty_site))
     !! 1%positive)
    ≫= lookup "Release Completed TST" = Some (PyStr "No") /\
  final (main foo_untested) (final (main foo_untested) empty_site) <>
  final (main foo_untested) empty_site.
Proof.
  split_and!; [reflexivity | reflexivity | by vm_compute | by vm_compute |].
  intros Heq.
  apply (f_equal (fun s => (test_review s !! 1%positive)
                             ≫= lookup "Release Completed TST")) in Heq.
  vm_compute in Heq. discriminate.
Qed.

(** C2 (amended): on a site whose column defaults are settled, the
    untested flow run twice in a row with the same inputs leaves the
    three lists as one run leaves them. *)
Theorem untested_twice (i : inputs) (s : site) :
  truthy (final_policy_name i) = false ->
  settled_defaults s ->
  final (main i) (final (main i) s) = final (main i) s.
Proof.
  intros Hf [Hc (Htst & Hprd & Hrdy)]. rewrite !final_main, Hf. cbn [negb].
  destruct (contains "prd" (jss_url i)); [|done].
  unfold untested_site.
  cbn [content_list test_coordination test_review column_defaults].
  rewrite content_untested_twice.
  rewrite coordination_untested_twice by done.
  by rewrite review_untested_twice.
Qed.

Lemma untested_twice_witness :
  final (main foo_untested) (final (main foo_untested) site_with_defaults) =
  final (main foo_untested) site_with_defaults.
Proof.
  apply untested_twice.
  - reflexivity.
  - split; [split|].
    + intros Hrc. vm_compute in Hrc. discriminate.
    + intros check Hin [Hrc Hst]. vm_compute in Hin, Hst.
      destruct Hin as [<-|[<-|[<-|[<-|[]]]]]; discriminate.
    + split_and!; reflexivity.
Defined.

(** ** Entries superseded by a new version *)

Lemma open_count_le_1 p (m : items) nid :
  (forall j r, m !! j = Some r -> p r = true -> j = nid) ->
  open_count p m <= 1.
Proof.
  intros Hall. unfold open_count.
  rewrite <- (size_dom (D := gset positive)).
  rewrite <- (size_singleton (C := gset positive) nid).
  apply subseteq_size. intros j [r Hr]%elem_of_dom.
  apply map_lookup_filter_Some in Hr as [Hm Hp].
  apply elem_of_singleton. by apply (Hall j r).
Qed.

Lemma open_count_unique p (m : items) j1 r1 j2 r2 :
  open_count p m <= 1 ->
  m !! j1 = Some r1 -> p r1 = true ->
  m !! j2 = Some r2 -> p r2 = true ->
  j1 = j2.
Proof.
  unfold open_count. intros Hle H1 Hp1 H2 Hp2.
  destruct (decide (j1 = j2)) as [|Hne]; [done|]. exfalso.
  rewrite <- (size_dom (D := gset positive)) in Hle.
  assert (({[j1]} ∪ {[j2]} : gset positive) ⊆
          dom (filter (fun ir : positive * row => p ir.2 = true) m)) as Hsub.
  { intros j [->%elem_of_singleton | ->%elem_of_singleton]%elem_of_union;
      apply elem_of_dom; eexists; by apply map_lookup_filter_Some. }
  apply subseteq_size in Hsub. rewrite size_union in Hsub by set_solver.
  rewrite !size_singleton in Hsub. lia.
Qed.

(** An item that does not meet the criteria is left as it is. *)
Lemma upd_items_skip k v c (m : items) j r :
  m !! j = Some r -> matches c r = false -> upd_items k v c m !! j = Some r.
Proof. intros Hm Hr. rewrite lookup_upd_items, Hm. simpl. by rewrite Hr. Qed.

Lemma upd_items_skip_back k v c (m : items) j r :
  has_items c m = false -> upd_items k v c m !! j = Some r -> m !! j = Some r.
Proof. intros Hno. by rewrite upd_items_none. Qed.

Lemma dom_upd_items k v c (m : items) : dom (upd_items k v c m) = dom m.
Proof. unfold upd_items. apply dom_fmap_L. Qed.

(** The untested test coordination section, when the entry of the version
    is not there yet: the unreleased entries of the final policy name are
    made obsolete, and only the new item can be unreleased afterwards. *)
Lemma coordination_untested_supersedes fpn sspn a d (m : items) :
  has_items [("Self Service Content Name", (OpEq, sspn))] m = false ->
  (forall j r, m !! j = Some r -> coordination_open fpn r = true ->
     exists r', coordination_untested fpn sspn a d m !! j = Some r' /\
       r' !! "Status" = Some (PyStr "Obsolete")) /\
  (forall j r', coordination_untested fpn sspn a d m !! j = Some r' ->
     coordination_open fpn r' = true -> j = fresh (dom m)).
Proof.
  intros Hno. unfold coordination_untested.
  set (c := [("Self Service Content Name", (OpEq, sspn))]) in *.
  set (crel := [("Self Service Content Name", (OpEq, sspn));
                ("Release Completed", (OpEq, "Yes"))]).
  assert (has_items crel m = false) as Hnorel.
  { apply has_items_false_intro. intros j r Hm (H1 & _)%matches_cons.
    assert (matches c r = true) as Hr by (apply matches_cons; by split).
    by rewrite (proj1 (has_items_false _ _) Hno j r Hm) in Hr. }
  rewrite (upd_items_none _ _ crel) by done. rewrite Hno.
  set (copen := [("Final Content Name", (OpEq, fpn));
                 ("Release Completed", (OpEq, "No"));
                 ("Status", (OpNeq, "Obsolete"))]).
  set (m1 := upd_items "Status" (PyStr "Obsolete") copen m).
  assert (has_items c m1 = false) as Hno1
    by (unfold m1; by rewrite has_items_upd by keys).
  assert (dom m1 = dom m) as Hdom by apply dom_upd_items.
  set (X := upd_items "Final Content Name" (PyStr fpn) c
              (add_items "Self Service Content Name" sspn d m1)).
  (* the items of [m1] are in [X], and the others of [X] are the new one *)
  assert (forall j r, m1 !! j = Some r ->
            X !! j = Some r /\ matches c r = false) as Hfw.
  { intros j r Hm. pose proof (proj1 (has_items_false _ _) Hno1 j r Hm) as Hr.
    split; [|done]. apply upd_items_skip; [|done].
    rewrite lookup_add_items, decide_False; [done|].
    intros ->. by rewrite lookup_fresh in Hm. }
  assert (forall j r, X !! j = Some r -> j <> fresh (dom m1) ->
            m1 !! j = Some r /\ matches c r = false) as Hbw.
  { intros j r HX Hj. apply upd_items_lookup_Some in HX as (r0 & Hm & ->).
    rewrite lookup_add_items, decide_False in Hm by done.
    pose proof (proj1 (has_items_false _ _) Hno1 j r0 Hm) as Hr.
    by rewrite Hr. }
  split.
  - intros j r Hm Hopen.
    assert (m1 !! j = Some (<["Status" := PyStr "Obsolete"]> r)) as Hm1.
    { unfold m1. rewrite lookup_upd_items, Hm. cbn [fmap option_fmap option_map].
      unfold coordination_open in Hopen. fold copen in Hopen. by rewrite Hopen. }
    destruct (Hfw _ _ Hm1) as [HX Hc].
    exists (<["Status" := PyStr "Obsolete"]> r). split.
    + destruct a; [by apply upd_items_skip | done].
    + by rewrite lookup_insert_eq.
  - intros j r' Hm Hopen. rewrite <- Hdom.
    destruct (decide (j = fresh (dom m1))) as [|Hj]; [done|]. exfalso.
    assert (X !! j = Some r') as HX.
    { destruct a; [|done].
      apply upd_items_lookup_Some in Hm as (r0 & HX & ->).
      destruct (Hbw j r0 HX Hj) as [_ Hr0]. by rewrite Hr0. }
    destruct (Hbw j r' HX Hj) as [Hm1 _].
    unfold m1 in Hm1. apply upd_items_lookup_Some in Hm1 as (r0 & Hm0 & ->).
    unfold coordination_open in Hopen. fold copen in Hopen.
    destruct (matches copen r0) eqn:Hr0; [|congruence].
    apply matches_cons in Hopen as (_ & (_ & (H3%satisfies_neq & _)%matches_cons)%matches_cons).
    by rewrite lookup_insert_eq in H3.
Qed.

(** The untested test review section, when the entry of the version is not
    there yet: the entries of the final policy name unreleased on the test
    server are deleted; when there is none, those unreleased on the
    production server are skipped; and only the new item [nid] can be
    unreleased afterwards, when at most one item was before. *)
Lemma review_untested_supersedes i fpn sspn d (m : items) :
  let c1 := [("Final Content Name", (OpEq, fpn));
             ("Release Completed TST", (OpEq, "No"))] in
  let c2 := [("Final Content Name", (OpEq, fpn));
             ("Release Completed PRD", (OpEq, "No"))] in
  let M := review_untested i fpn sspn d m in
  has_items [("Self Service Content Name", (OpEq, sspn))] m = false ->
  exists nid,
    (forall r', M !! nid = Some r' ->
       r' !! "Self Service Content Name" = Some (PyStr sspn)) /\
    (forall j r', M !! j = Some r' -> matches c1 r' = true -> j = nid) /\
    (has_items c1 m = false ->
     forall j r, m !! j = Some r -> matches c2 r = true ->
       exists r', M !! j = Some r' /\
         r' !! "Release Completed PRD" = Some (PyStr "Skipped")) /\
    (open_count (review_open fpn) m <= 1 ->
     forall j r', M !! j = Some r' -> review_open fpn r' = true -> j = nid).
Proof.
  intros c1 c2 M Hno. unfold M, review_untested. fold c1 c2.
  set (c := [("Self Service Content Name", (OpEq, sspn))]) in *.
  rewrite Hno.
  set (m1 := if has_items c1 m then del_items c1 m
             else upd_items "Release Completed PRD" (PyStr "Skipped") c2 m).
  assert (has_items c m1 = false) as Hno1.
  { unfold m1. destruct (has_items c1 m).
    - by apply has_items_del_false.
    - by rewrite has_items_upd by keys. }
  set (T := upd_items "Process_Name" _ c _).
  assert (forall j r, m1 !! j = Some r -> T !! j = Some r) as Hfw.
  { intros j r Hm. pose proof (proj1 (has_items_false _ _) Hno1 j r Hm) as Hr.
    unfold T. do 3 (apply upd_items_skip; [|done]).
    rewrite lookup_add_items, decide_False; [done|].
    intros ->. by rewrite lookup_fresh in Hm. }
  assert (forall j r, T !! j = Some r -> j <> fresh (dom m1) -> m1 !! j = Some r)
    as Hbw.
  { intros j r HT Hj. unfold T in HT.
    apply upd_items_lookup_Some in HT as (r3 & HT & ->).
    apply upd_items_lookup_Some in HT as (r2 & HT & ->).
    apply upd_items_lookup_Some in HT as (r1 & HT & ->).
    rewrite lookup_add_items, decide_False in HT by done.
    pose proof (proj1 (has_items_false _ _) Hno1 j r1 HT) as Hr.
    by rewrite !Hr. }
  (* no item of [m1] is unreleased on the test server *)
  assert (forall j r, m1 !! j = Some r -> matches c1 r = false) as Hc1.
  { intros j r Hm. unfold m1 in Hm. destruct (has_items c1 m) eqn:Hh.
    - rewrite lookup_del_items in Hm. destruct (m !! j) as [r0|]; [|done].
      destruct (matches c1 r0) eqn:Hr0; [done|]. by simplify_eq.
    - apply upd_items_back in Hm as (r0 & Hm & _ & Hc).
      rewrite Hc by keys. by apply (proj1 (has_items_false _ _) Hh j). }
  exists (fresh (dom m1)). split_and!.
  - intros r' HT. unfold T in HT.
    apply upd_items_back in HT as (r3 & HT & Hk3 & _). rewrite Hk3 by done.
    apply upd_items_back in HT as (r2 & HT & Hk2 & _). rewrite Hk2 by done.
    apply upd_items_back in HT as (r1 & HT & Hk1 & _). rewrite Hk1 by done.
    rewrite lookup_add_items, decide_True in HT by done. simplify_eq.
    by rewrite lookup_insert_eq.
  - intros j r' HT Hr'.
    destruct (decide (j = fresh (dom m1))) as [|Hj]; [done|]. exfalso.
    apply Hbw in HT; [|done]. by rewrite (Hc1 j r' HT) in Hr'.
  - intros Hh j r Hm Hr. exists (<["Release Completed PRD" := PyStr "Skipped"]> r).
    split; [|by rewrite lookup_insert_eq].
    apply Hfw. unfold m1. rewrite Hh, lookup_upd_items, Hm.
    cbn [fmap option_fmap option_map]. by rewrite Hr.
  - intros Hone j r' HT Hopen.
    destruct (decide (j = fresh (dom m1))) as [|Hj]; [done|]. exfalso.
    apply Hbw in HT; [|done].
    unfold review_open in Hopen. fold c1 c2 in Hopen.
    rewrite (Hc1 j r' HT) in Hopen. cbn [orb] in Hopen.
    unfold m1 in HT. destruct (has_items c1 m) eqn:Hh.
    + apply has_items_true in Hh as (j0 & r0 & Hm0 & Hr0).
      rewrite lookup_del_items in HT. destruct (m !! j) as [r|] eqn:Hm; [|done].
      destruct (matches c1 r) eqn:Hr; [done|]. simplify_eq.
      assert (j = j0) as ->.
      { apply (open_count_unique (review_open fpn) m j r' j0 r0); try done.
        - unfold review_open. fold c1 c2. by rewrite Hopen, orb_true_r.
        - unfold review_open. fold c1 c2. by rewrite Hr0. }
      congruence.
    + apply upd_items_lookup_Some in HT as (r0 & Hm & ->).
      destruct (matches c2 r0) eqn:Hr0; [|congruence].
      apply matches_cons in Hopen as (_ & (H2%satisfies_eq & _)%matches_cons).
      by rewrite lookup_insert_eq in H2.
Qed.

(** Run on the version that is already released while a later version is
    in test, the untested flow reopens the entries of the released
    version: before the run one test coordination entry and one test
    review entry of the final policy name are in a non-terminal state,
    after it two of each are. *)
Lemma untested_existing_version_reopens :
  truthy (final_policy_name foo_untested) = false /\
  contains "prd" (jss_url foo_untested) = true /\
  open_count (coordination_open "Foo") (test_coordination foo_released_site) = 1 /\
  open_count (review_open "Foo") (test_review foo_released_site) = 1 /\
  outcome (main foo_untested) foo_released_site =
    (Ok tt, final (main foo_untested) foo_released_site) /\
  open_count (coordination_open "Foo")
    (test_coordination (final (main foo_untested) foo_released_site)) = 2 /\
  open_count (review_open "Foo")
    (test_review (final (main foo_untested) foo_released_site)) = 2.
Proof.
  split_and!;
    [ reflexivity | reflexivity | by vm_compute | by vm_compute
    | by rewrite outcome_main, final_main | by vm_compute | by vm_compute ].
Qed.

(** C1 (amended): a run of the untested flow on a production server ends,
    and where it creates the entry of the new version (no entry of the
    self-service policy name was in the list), the entries of other
    versions are superseded first.  In the test coordination list every
    entry of the final policy name that was unreleased and not obsolete is
    obsolete, and at most one such entry is left.  In the test review list
    no entry of the final policy name that was unreleased on the test
    server is left and at most one such entry is in the list; when there
    was none, the entries unreleased on the production server are
    skipped; and when at most one entry of the final policy name was
    unreleased before the run, at most one is after it. *)
Theorem untested_new_version_supersedes (i : inputs) (s : site) :
  truthy (final_policy_name i) = false ->
  contains "prd" (jss_url i) = true ->
  let fpn := untested_final_policy_name i in
  let sspn := self_service_policy_name_of fpn (version i) in
  let key := [("Self Service Content Name", (OpEq, sspn))] in
  let tst := [("Final Content Name", (OpEq, fpn));
              ("Release Completed TST", (OpEq, "No"))] in
  let prd := [("Final Content Name", (OpEq, fpn));
              ("Release Completed PRD", (OpEq, "No"))] in
  let s' := final (main i) s in
  outcome (main i) s = (Ok tt, s') /\
  (has_items key (test_coordination s) = false ->
   (forall j r, test_coordination s !! j = Some r ->
      coordination_open fpn r = true ->
      exists r', test_coordination s' !! j = Some r' /\
        r' !! "Status" = Some (PyStr "Obsolete")) /\
   open_count (coordination_open fpn) (test_coordination s') <= 1) /\
  (has_items key (test_review s) = false ->
   (forall j r, test_review s !! j = Some r -> matches tst r = true ->
      forall j', test_review s' !! j' <> Some r) /\
   open_count (matches tst) (test_review s') <= 1 /\
   (has_items tst (test_review s) = false ->
    forall j r, test_review s !! j = Some r -> matches prd r = true ->
      exists r', test_review s' !! j = Some r' /\
        r' !! "Release Completed PRD" = Some (PyStr "Skipped")) /\
   (open_count (review_open fpn) (test_review s) <= 1 ->
    open_count (review_open fpn) (test_review s') <= 1)).
Proof.
  intros Hf Hprd fpn sspn key tst prd s'.
  assert (s' = untested_site i s) as ->
    by (unfold s'; by rewrite final_main, Hf, Hprd).
  split; [by rewrite outcome_main, Hf, Hprd|].
  unfold untested_site. cbn [test_coordination test_review]. fold fpn sspn.
  split.
  - intros Hno.
    destruct (coordination_untested_supersedes fpn sspn
                (has_items (autostage_criteria fpn)
                   (content_untested i fpn (column_defaults s JamfContentList)
                      (content_list s)))
                (column_defaults s JamfTestCoordination)
                (test_coordination s) Hno) as [Hobs Hnew].
    split; [exact Hobs|]. by eapply open_count_le_1.
  - intros Hno.
    destruct (review_untested_supersedes i fpn sspn
                (column_defaults s JamfTestReview) (test_review s) Hno)
      as (nid & Hkey & Htst & Hskip & Hone).
    split_and!.
    + intros j r Hm Hr j' Hm'.
      assert (j' = nid) as -> by (by eapply Htst).
      apply Hkey in Hm'.
      assert (matches key r = true) as Hk
        by (apply matches_cons; split; [by apply satisfies_eq | done]).
      by rewrite (proj1 (has_items_false _ _) Hno j r Hm) in Hk.
    + by eapply open_count_le_1.
    + exact Hskip.
    + intros Hle. eapply open_count_le_1. by apply Hone.
Qed.

Lemma untested_new_version_supersedes_witness :
  open_count (coordination_open "Foo")
    (test_coordination (final (main foo_untested) foo_in_test_site)) <= 1 /\
  open_count (review_open "Foo")
    (test_review (final (main foo_untested) foo_in_test_site)) <= 1.
Proof.
  destruct (untested_new_version_supersedes foo_untested foo_in_test_site
              eq_refl eq_refl) as (_ & Htc & Htr).
  split.
  - apply Htc. reflexivity.
  - apply Htr; [reflexivity|]. vm_compute. lia.
Defined.

(** ** Scenarios *)

(** With every required variable present, the run is [main] on the values
    read, the category of the policy being the default one. *)
Example process_complete_environment :
  process env_untested = main foo_untested.
Proof. reflexivity. Qed.

Example test_report_url_foo :
  test_report_url "https://sp.example.com/sites/jamf" "Foo (Testing) v1.0" =
  "https://sp.example.com/sites/jamf/Lists/Jamf_Item_Test/DispForm.aspx?Title=Foo+%28Testing%29+v1.0".
Proof. reflexivity. Qed.

Example build_query_three :
  build_query [("Final Content Name", (OpEq, "Foo"));
               ("Release Completed", (OpEq, "No"));
               ("Status", (OpNeq, "Obsolete"))] =
  (["ID"; "Final Content Name"; "Release Completed"; "Status"],
   [WAnd; WCmp OpNeq "Status" "Obsolete";
    WAnd; WCmp OpEq "Release Completed" "No";
    WCmp OpEq "Final Content Name" "Foo"]).
Proof. reflexivity. Qed.

(** The first untested run of a product on empty lists creates the three
    entries. *)
Example untested_first_run :
  final (main foo_untested) empty_site =
  Site
    {[ 1%positive :=
         list_to_map [("Self Service Content", PyStr "Foo");
                      ("Untested Version", PyStr "1.0");
                      ("Category", PyStr "Apps");
                      ("Content Type", PyStr "Application")] ]}
    {[ 1%positive :=
         list_to_map [("Self Service Content Name", PyStr "Foo (Testing) v1.0");
                      ("Final Content Name", PyStr "Foo")] ]}
    {[ 1%positive :=
         list_to_map [("Self Service Content Name", PyStr "Foo (Testing) v1.0");
                      ("Final Content Name", PyStr "Foo");
                      ("Executable_Command", PyNone);
                      ("Process_Name", PyNone)] ]}
    (fun _ => ∅).
Proof. vm_compute. reflexivity. Qed.

(** An untested run of a new version makes the unreleased entry of the
    version in test obsolete and creates the entry of the new version. *)
Example untested_new_version :
  let tc := test_coordination (final (main foo_untested) foo_in_test_site) in
  (tc !! 1%positive) ≫= lookup "Self Service Content Name" =
    Some (PyStr "Foo (Testing) v0.9") /\
  (tc !! 1%positive) ≫= lookup "Status" = Some (PyStr "Obsolete") /\
  (tc !! 2%positive) ≫= lookup "Self Service Content Name" =
    Some (PyStr "Foo (Testing) v1.0") /\
  (tc !! 2%positive) ≫= lookup "Final Content Name" = Some (PyStr "Foo") /\
  size tc = 2.
Proof. by vm_compute. Qed.

(** The calls of the first untested run, of which a failing site answers
    only the first ones. *)
Example untested_first_run_calls :
  length (trace (main foo_untested) None empty_site) = 44 /\
  take 4 (trace (main foo_untested) None empty_site) =
    [OpSite "https://sp.example.com/sites/jamf"
       ("d" +:+ String (ascii_of_nat 92) "user") "pass";
     OpList JamfContentList;
     OpGetListItems JamfContentList ["ID"; "Self Service Content"]
       [WCmp OpEq "Self Service Content" "Foo"];
     OpList JamfContentList].
Proof. split; vm_compute; reflexivity. Qed.

(** * More on the methods *)

(** ** The calls of a method *)

Lemma exec_bind {A B : Type} (p : prog A) (f : A -> prog B) s :
  exec (bind p f) s =
    match exec p s with
    | (Ok a, s1, t1) => let '(r, s2, t2) := exec (f a) s1 in (r, s2, t1 ++ t2)
    | (Raised e, s1, t1) => (Raised e, s1, t1)
    end.
Proof. unfold exec. by rewrite run_bind. Qed.

Lemma exec_call o s : exec (call o) s = (Ok (perform o s).2, (perform o s).1, [o]).
Proof. unfold exec, call. simpl. by destruct (perform o s). Qed.

Lemma exec_call_ret o s :
  exec (call o ;; Ret tt) s = (Ok tt, (perform o s).1, [o]).
Proof. unfold exec, call. simpl. by destruct (perform o s). Qed.

Lemma exec_update_loop l k v (rows : list (positive * row)) s :
  (exec (for_each rows (fun r => call (OpUpdate l r.1 k v) ;; Ret tt)) s).2 =
    map (fun id => OpUpdate l id k v) rows.*1.
Proof.
  revert s. induction rows as [|r rows IH]; intros s; [done|].
  cbn [for_each]. rewrite exec_bind, exec_call_ret. cbn [perform fst snd].
  specialize (IH (set_items l (alter (insert k v) r.1 (get_items l s)) s)).
  destruct (exec (for_each rows _) _) as [[res s2] t2].
  cbn [snd] in *. rewrite fmap_cons. cbn [map app]. by rewrite IH.
Qed.

Lemma exec_delete_loop l (rows : list (positive * row)) acc s :
  (exec (delete_loop l acc rows) s).2 =
    map (fun n => OpDelete l (acc ++ take (S n) rows.*1)) (seq 0 (length rows)).
Proof.
  revert acc s. induction rows as [|r rows IH]; intros acc s; [done|].
  cbn [delete_loop]. rewrite exec_bind, exec_call. cbn [perform fst snd].
  specialize (IH (acc ++ [r.1])
                (set_items l (foldr delete (get_items l s) (acc ++ [r.1])) s)).
  destruct (exec (delete_loop l (acc ++ [r.1]) rows) _) as [[res s2] t2].
  cbn [snd] in *. rewrite IH. cbn [length seq map app]. f_equal.
  rewrite <- seq_shift, map_map. apply map_ext. intros n.
  rewrite fmap_cons. cbn [take]. by rewrite <- app_assoc.
Qed.

(** The identifiers of the rows of a query are those of the items that
    meet it, each once. *)
Lemma NoDup_omap_fst {A B : Type} (f : positive * A -> option (positive * B))
    (L : list (positive * A)) :
  (forall x y, f x = Some y -> y.1 = x.1) ->
  NoDup L.*1 -> NoDup (omap f L).*1.
Proof.
  intros Hf. induction L as [|x L IH]; [done|].
  rewrite fmap_cons. intros [Hx HL]%NoDup_cons. cbn [omap list_omap].
  destruct (f x) as [y|] eqn:Hy; [|by apply IH].
  rewrite fmap_cons. apply NoDup_cons. split; [|by apply IH].
  rewrite (Hf x y Hy). intros [z [Hz1 Hz2]]%list_elem_of_fmap.
  apply list_elem_of_omap in Hz2 as [w [Hw1 Hw2]].
  apply Hx. apply list_elem_of_fmap. exists w. split; [|done].
  rewrite Hz1. by apply Hf.
Qed.

Lemma NoDup_select fields w (m : items) : NoDup (select fields w m).*1.
Proof.
  unfold select. rewrite merge_sort_Permutation.
  apply NoDup_omap_fst; [|apply NoDup_fst_map_to_list].
  intros [j r] y Hy. simpl in Hy. destruct (eval_where w r) as [[|]|]; by simplify_eq.
Qed.

(** ** [check_list] *)

(** X1: [check_list] with non-empty criteria makes two calls, the list
    and the query, answers whether some item of the list meets every
    entry of the criteria, and leaves the site as it is whether its calls
    succeed or not. *)
Theorem check_list_reads (l : splist) (c : criteria) (s : site) :
  c <> [] ->
  exec (check_list l c) s =
    (Ok (has l c s), s,
     [OpList l; OpGetListItems l (build_query c).1 (build_query c).2]) /\
  (has l c s = true <->
   exists j r, get_items l s !! j = Some r /\
     forall kv, In kv c -> satisfies r kv = true) /\
  (forall budget, (run (check_list l c) budget s).1.2 = s).
Proof.
  intros Hc. split_and!.
  - unfold check_list. rewrite exec_bind, exec_call. cbn [perform fst snd].
    rewrite <- (select_nonempty l c s Hc).
    destruct (build_query c) as [fields query]. cbn [fst snd].
    by rewrite exec_bind, exec_call.
  - unfold has. rewrite has_items_true. unfold matches.
    by setoid_rewrite forallb_forall.
  - intros budget. unfold check_list, call.
    destruct (build_query c) as [fields query].
    by destruct budget as [[|[|n]]|].
Qed.

Lemma check_list_reads_witness :
  has JamfTestCoordination [("Final Content Name", (OpEq, "Foo"))]
    foo_released_site = true <->
  exists j r, get_items JamfTestCoordination foo_released_site !! j = Some r /\
    forall kv, In kv [("Final Content Name", (OpEq, "Foo"))] ->
      satisfies r kv = true.
Proof.
  refine (proj1 (proj2 (check_list_reads JamfTestCoordination
    [("Final Content Name", (OpEq, "Foo"))] foo_released_site _))).
  discriminate.
Defined.

(** ** [update_record] *)

(** X2: [update_record] with non-empty criteria writes the field on every
    item of the list that meets the criteria, leaves the other items of
    the list as they are, creates and removes none, and does not touch the
    other lists. *)
Theorem update_record_effect (l : splist) (k : string) (v : pyval)
    (c : criteria) (s : site) :
  c <> [] ->
  let s' := final (update_record l k v c) s in
  outcome (update_record l k v c) s = (Ok tt, s') /\
  (forall j, get_items l s' !! j =
     (fun r => if matches c r then <[k := v]> r else r) <$> get_items l s !! j) /\
  (forall l', l' <> l -> get_items l' s' = get_items l' s) /\
  column_defaults s' = column_defaults s.
Proof.
  intros Hc s'.
  assert (s' = upd l k v c s) as ->.
  { unfold s', final. change (exec (update_record l k v c) s).1
      with (outcome (update_record l k v c) s).
    by rewrite outcome_update_record. }
  split_and!.
  - by apply outcome_update_record.
  - intros j. unfold upd. by rewrite get_set_eq, lookup_upd_items.
  - intros l' Hl. unfold upd. by rewrite get_set_ne.
  - unfold upd. by rewrite defaults_set.
Qed.

Lemma update_record_effect_witness :
  let c := [("Final Content Name", (OpEq, "Foo"))] in
  let s' := final (update_record JamfTestCoordination "Status"
                     (PyStr "Obsolete") c) foo_released_site in
  outcome (update_record JamfTestCoordination "Status" (PyStr "Obsolete") c)
    foo_released_site = (Ok tt, s') /\
  (forall j, get_items JamfTestCoordination s' !! j =
     (fun r => if matches c r then <["Status" := PyStr "Obsolete"]> r else r)
       <$> get_items JamfTestCoordination foo_released_site !! j) /\
  (forall l', l' <> JamfTestCoordination ->
     get_items l' s' = get_items l' foo_released_site) /\
  column_defaults s' = column_defaults foo_released_site.
Proof.
  apply (update_record_effect JamfTestCoordination "Status" (PyStr "Obsolete")
           [("Final Content Name", (OpEq, "Foo"))] foo_released_site).
  discriminate.
Defined.

(** X3: the calls of [update_record] are the list, the query, and one
    update for each item that meets the criteria, none for the others;
    when no item meets them there is no update call. *)
Theorem update_record_calls (l : splist) (k : string) (v : pyval)
    (c : criteria) (s : site) :
  c <> [] ->
  exists ids,
    trace (update_record l k v c) None s =
      OpList l :: OpGetListItems l (build_query c).1 (build_query c).2 ::
      map (fun id => OpUpdate l id k v) ids /\
    NoDup ids /\
    (forall j, j ∈ ids <->
       exists r, get_items l s !! j = Some r /\ matches c r = true) /\
    (has l c s = false -> ids = []).
Proof.
  intros Hc.
  exists (select (build_query c).1 (build_query c).2 (get_items l s)).*1.
  split_and!.
  - unfold trace. change (run ?p None s) with (exec p s).
    unfold update_record. rewrite exec_bind, exec_call. cbn [perform fst snd].
    destruct (build_query c) as [fields query]. cbn [fst snd].
    rewrite exec_bind, exec_call. cbn [perform fst snd].
    pose proof (exec_update_loop l k v (select fields query (get_items l s)) s)
      as Hloop.
    destruct (exec (for_each _ _) s) as [[res s2] t2]. cbn [snd] in *.
    by rewrite Hloop.
  - apply NoDup_select.
  - intros j. by apply elem_of_select_ids.
  - intros Hno. rewrite <- (select_nonempty l c s Hc) in Hno.
    by destruct (select _ _ _).
Qed.

Lemma update_record_calls_witness :
  exists ids,
    trace (update_record JamfTestCoordination "Status" (PyStr "Obsolete")
             [("Final Content Name", (OpEq, "Foo"))]) None foo_released_site =
      OpList JamfTestCoordination ::
      OpGetListItems JamfTestCoordination
        (build_query [("Final Content Name", (OpEq, "Foo"))]).1
        (build_query [("Final Content Name", (OpEq, "Foo"))]).2 ::
      map (fun id => OpUpdate JamfTestCoordination id "Status" (PyStr "Obsolete"))
        ids /\
    NoDup ids /\
    (forall j, j ∈ ids <->
       exists r, get_items JamfTestCoordination foo_released_site !! j = Some r /\
         matches [("Final Content Name", (OpEq, "Foo"))] r = true) /\
    (has JamfTestCoordination [("Final Content Name", (OpEq, "Foo"))]
       foo_released_site = false -> ids = []).
Proof.
  apply (update_record_calls JamfTestCoordination "Status" (PyStr "Obsolete")
           [("Final Content Name", (OpEq, "Foo"))] foo_released_site).
  discriminate.
Defined.

(** ** [delete_record] *)

(** X4: [delete_record] with non-empty criteria removes from the list
    exactly the items that meet the criteria, leaves the other items and
    the other lists as they are, and a check with the same criteria finds
    nothing afterwards. *)
Theorem delete_record_effect (l : splist) (c : criteria) (s : site) :
  c <> [] ->
  let s' := final (delete_record l c) s in
  outcome (delete_record l c) s = (Ok tt, s') /\
  (forall j, get_items l s' !! j =
     match get_items l s !! j with
     | Some r => if matches c r then None else Some r
     | None => None
     end) /\
  (forall l', l' <> l -> get_items l' s' = get_items l' s) /\
  has l c s' = false.
Proof.
  intros Hc s'.
  assert (s' = del l c s) as ->.
  { unfold s', final. change (exec (delete_record l c) s).1
      with (outcome (delete_record l c) s).
    by rewrite outcome_delete_record. }
  split_and!.
  - by apply outcome_delete_record.
  - intros j. unfold del. by rewrite get_set_eq, lookup_del_items.
  - intros l' Hl. unfold del. by rewrite get_set_ne.
  - unfold has, del. rewrite get_set_eq. apply has_items_false_intro.
    intros j r Hm Hr. rewrite lookup_del_items in Hm.
    destruct (get_items l s !! j) as [r0|]; [|done].
    destruct (matches c r0) eqn:Hr0; [done|]. simplify_eq. congruence.
Qed.

Lemma delete_record_effect_witness :
  let c := [("Final Content Name", (OpEq, "Foo"));
            ("Release Completed TST", (OpEq, "No"))] in
  let s' := final (delete_record JamfTestReview c) foo_released_site in
  outcome (delete_record JamfTestReview c) foo_released_site = (Ok tt, s') /\
  (forall j, get_items JamfTestReview s' !! j =
     match get_items JamfTestReview foo_released_site !! j with
     | Some r => if matches c r then None else Some r
     | None => None
     end) /\
  (forall l', l' <> JamfTestReview ->
     get_items l' s' = get_items l' foo_released_site) /\
  has JamfTestReview c s' = false.
Proof.
  apply (delete_record_effect JamfTestReview
           [("Final Content Name", (OpEq, "Foo"));
            ("Release Completed TST", (OpEq, "No"))] foo_released_site).
  discriminate.
Defined.

(** X5: the calls of [delete_record] are the list, the query, and one
    delete call for each row found; the list of identifiers sent grows
    from call to call, so the call for the [n]-th row sends again the
    identifiers of the rows before it. *)
Theorem delete_record_calls (l : splist) (c : criteria) (s : site) :
  c <> [] ->
  exists ids,
    trace (delete_record l c) None s =
      OpList l :: OpGetListItems l (build_query c).1 (build_query c).2 ::
      map (fun n => OpDelete l (take (S n) ids)) (seq 0 (length ids)) /\
    NoDup ids /\
    (forall j, j ∈ ids <->
       exists r, get_items l s !! j = Some r /\ matches c r = true).
Proof.
  intros Hc.
  exists (select (build_query c).1 (build_query c).2 (get_items l s)).*1.
  split_and!.
  - unfold trace. change (run ?p None s) with (exec p s).
    unfold delete_record. rewrite exec_bind, exec_call. cbn [perform fst snd].
    destruct (build_query c) as [fields query]. cbn [fst snd].
    rewrite exec_bind, exec_call. cbn [perform fst snd].
    pose proof (exec_delete_loop l (select fields query (get_items l s)) [] s)
      as Hloop.
    destruct (exec (delete_loop _ _ _) s) as [[res s2] t2]. cbn [snd] in *.
    rewrite Hloop. by rewrite length_fmap.
  - apply NoDup_select.
  - intros j. by apply elem_of_select_ids.
Qed.

Lemma delete_record_calls_witness :
  exists ids,
    trace (delete_record JamfTestReview
             [("Final Content Name", (OpEq, "Foo"))]) None foo_released_site =
      OpList JamfTestReview ::
      OpGetListItems JamfTestReview
        (build_query [("Final Content Name", (OpEq, "Foo"))]).1
        (build_query [("Final Content Name", (OpEq, "Foo"))]).2 ::
      map (fun n => OpDelete JamfTestReview (take (S n) ids))
        (seq 0 (length ids)) /\
    NoDup ids /\
    (forall j, j ∈ ids <->
       exists r, get_items JamfTestReview foo_released_site !! j = Some r /\
         matches [("Final Content Name", (OpEq, "Foo"))] r = true).
Proof.
  apply (delete_record_calls JamfTestReview
           [("Final Content Name", (OpEq, "Foo"))] foo_released_site).
  discriminate.
Defined.

(** ** [add_record] *)

Lemma open_count_insert_new p (m : items) j r :
  m !! j = None -> p r = true ->
  open_count p (<[j := r]> m) = S (open_count p m).
Proof.
  intros Hm Hp. unfold open_count.
  rewrite map_filter_insert_True by done.
  apply map_size_insert_None. by rewrite map_lookup_filter, Hm.
Qed.

(** X6: [add_record] does not look for an existing item: it always
    creates one, so the number of items of the list whose column has the
    value grows by one, also when there was such an item; the items that
    were in the list and the other lists stay as they are. *)
Theorem add_record_always_creates (l : splist) (k v : string) (s : site) :
  let s' := final (add_record l k v) s in
  outcome (add_record l k v) s = (Ok tt, s') /\
  open_count (matches [(k, (OpEq, v))]) (get_items l s') =
    S (open_count (matches [(k, (OpEq, v))]) (get_items l s)) /\
  size (get_items l s') = S (size (get_items l s)) /\
  (forall j r, get_items l s !! j = Some r -> get_items l s' !! j = Some r) /\
  (forall l', l' <> l -> get_items l' s' = get_items l' s).
Proof.
  intros s'. assert (s' = add l k v s) as -> by done.
  split_and!.
  - done.
  - unfold add, add_items. rewrite get_set_eq.
    apply open_count_insert_new; [apply lookup_fresh|].
    rewrite matches_eq1. apply bool_decide_eq_true. by rewrite lookup_insert_eq.
  - unfold add, add_items. rewrite get_set_eq.
    apply map_size_insert_None, lookup_fresh.
  - intros j r Hm. unfold add. rewrite get_set_eq, lookup_add_items.
    rewrite decide_False; [done|]. intros ->. by rewrite lookup_fresh in Hm.
  - intros l' Hl. unfold add. by rewrite get_set_ne.
Qed.

(** ** The format of a query *)

Lemma rev_flat_map_where_pair rest :
  rev (flat_map where_pair rest) = flat_map and_tuple (rev rest).
Proof.
  induction rest as [|kv rest IH]; [done|].
  cbn [flat_map rev]. rewrite rev_app_distr, IH, flat_map_app. cbn [flat_map].
  by rewrite app_nil_r.
Qed.

(** X7: [build_query] returns the fields [ID] followed by the keys of
    the criteria in their order, and a ["Where"] list in prefix form: for
    criteria [c1, ..., cn] it is ["And", cn, "And", c(n-1), ..., "And", c2,
    c1], the tuples in reverse order with an ["And"] before each but the
    last; for a single entry it is the tuple alone and for no entry it is
    empty. *)
Theorem build_query_format (c : criteria) :
  (build_query c).1 = "ID" :: map fst c /\
  (build_query c).2 =
    match c with
    | [] => []
    | kv :: rest => flat_map and_tuple (rev rest) ++ [where_tuple kv]
    end.
Proof.
  split; [apply build_query_fields|].
  destruct c as [|[k [o v]] rest]; [done|].
  rewrite build_query_cons. cbn [snd]. by rewrite rev_flat_map_where_pair.
Qed.

(** ** The URL encoding *)

Lemma quote_plus_cons c s :
  quote_plus (String c s) = quote_byte c +:+ quote_plus s.
Proof. reflexivity. Qed.

Lemma list_ascii_of_string_append (a b : string) :
  list_ascii_of_string (a +:+ b) = list_ascii_of_string a ++ list_ascii_of_string b.
Proof. induction a as [|x a IH]; [done|]. rewrite append_cons. simpl. by rewrite IH. Qed.

Lemma quote_byte_url_bytes c :
  forallb url_byte (list_ascii_of_string (quote_byte c)) = true.
Proof. destruct c as [[] [] [] [] [] [] [] []]; reflexivity. Qed.

Lemma quote_plus_url_bytes (s : string) :
  forallb url_byte (list_ascii_of_string (quote_plus s)) = true.
Proof.
  induction s as [|c s IH]; [done|].
  rewrite quote_plus_cons, list_ascii_of_string_append, forallb_app.
  by rewrite quote_byte_url_bytes, IH.
Qed.

(** X8: the test report link is the site address, the path of the display
    form of the list [Jamf_Item_Test], and the query [Title=] followed by
    the encoded policy name, which consists only of letters, digits and
    the bytes [_.-~+%]: whatever the policy name, the query holds no
    space, [&], [=] or [#]. *)
Theorem test_report_url_query (sp_url policy_name : string) :
  exists q,
    test_report_url sp_url policy_name =
      sp_url +:+ "/Lists/Jamf_Item_Test/DispForm.aspx?Title=" +:+ q /\
    forallb url_byte (list_ascii_of_string q) = true.
Proof.
  exists (quote_plus policy_name). split; [reflexivity|].
  apply quote_plus_url_bytes.
Qed.

Lemma unquote_head_quote_byte c r :
  unquote_head (quote_byte c +:+ r) = Some (c, r).
Proof. destruct c as [[] [] [] [] [] [] [] []]; reflexivity. Qed.

Lemma quote_plus_inj (a b : string) : quote_plus a = quote_plus b -> a = b.
Proof.
  revert b. induction a as [|c a IH]; intros [|c' b] Heq; [done| | |].
  - apply (f_equal unquote_head) in Heq.
    rewrite quote_plus_cons, unquote_head_quote_byte in Heq. discriminate.
  - apply (f_equal unquote_head) in Heq.
    rewrite quote_plus_cons, unquote_head_quote_byte in Heq. discriminate.
  - apply (f_equal unquote_head) in Heq.
    rewrite !quote_plus_cons, !unquote_head_quote_byte in Heq.
    injection Heq as -> Heq. f_equal. by apply IH.
Qed.

Lemma append_inj_l (u x y : string) : u +:+ x = u +:+ y -> x = y.
Proof.
  induction u as [|c u IH]; [done|]. rewrite !append_cons. intros [= Heq]. auto.
Qed.

(** X9: the test report link loses nothing of the policy name: for one
    site address, two policy names with the same link are the same name. *)
Theorem test_report_url_inj (sp_url a b : string) :
  test_report_url sp_url a = test_report_url sp_url b -> a = b.
Proof.
  unfold test_report_url, urlencode. cbn [map String.concat fst snd].
  intros Heq. do 6 apply append_inj_l in Heq. by apply quote_plus_inj.
Qed.

Lemma test_report_url_inj_witness :
  "Foo (Testing) v1.0" = "Foo (Testing) v1.0".
Proof.
  apply (test_report_url_inj "https://sp.example.com/sites/jamf"). reflexivity.
Defined.

(** * More on [main] *)

(** ** The prod flow on the production server and elsewhere *)

Lemma final_prod i fpn s :
  final_policy_name i = Some fpn -> fpn <> "" ->
  final (main i) s = prod_site i fpn s.
Proof. intros Hf Hne. rewrite final_main, Hf. by rewrite truthy_Some. Qed.

Lemma matches_key k v (r : row) :
  r !! k = Some (PyStr v) -> matches [(k, (OpEq, v))] r = true.
Proof. intros Hr. rewrite matches_eq1. by apply bool_decide_eq_true. Qed.

(** X10: in the prod flow on a production server, when no entry of the
    content list for the final policy name has [Autostage] = [Yes], the
    test coordination entry of the self-service policy name ends with
    [Release Completed] = [Yes] and [Status] = [Done]. *)
Theorem prod_release_done (i : inputs) (fpn : string) (s : site) :
  final_policy_name i = Some fpn ->
  fpn <> "" ->
  contains "prd" (jss_url i) = true ->
  has JamfContentList (autostage_criteria fpn) s = false ->
  let sspn := self_service_policy_name_of fpn (version i) in
  let s' := final (main i) s in
  (exists j r, test_coordination s' !! j = Some r /\
     r !! "Self Service Content Name" = Some (PyStr sspn)) /\
  (forall j r, test_coordination s' !! j = Some r ->
     r !! "Self Service Content Name" = Some (PyStr sspn) ->
     r !! "Status" = Some (PyStr "Done") /\
     r !! "Release Completed" = Some (PyStr "Yes")).
Proof.
  intros Hf Hne Hprd Ha sspn s'. unfold s'. rewrite (final_prod i fpn) by done.
  unfold prod_site. cbn [test_coordination]. fold sspn.
  unfold coordination_prod. unfold has in Ha. cbn [get_items] in Ha.
  rewrite Hprd, Ha.
  set (c := [("Self Service Content Name", (OpEq, sspn))]).
  split.
  - apply has_items_eq1. fold c. rewrite !has_items_upd by keys.
    apply ensure_entry_has.
  - intros j r Hm Hr. apply matches_key in Hr. fold c in Hr.
    split; [sets Hm Hr|].
    apply upd_items_back in Hm as (r1 & Hm & Hk & Hc1).
    rewrite Hk by done. rewrite Hc1 in Hr by keys. sets Hm Hr.
Qed.

Lemma prod_release_done_witness :
  (exists j r,
     test_coordination (final (main foo_release_prd) foo_in_test_site) !! j
       = Some r /\
     r !! "Self Service Content Name" = Some (PyStr "Foo (Testing) v1.0")) /\
  (forall j r,
     test_coordination (final (main foo_release_prd) foo_in_test_site) !! j
       = Some r ->
     r !! "Self Service Content Name" = Some (PyStr "Foo (Testing) v1.0") ->
     r !! "Status" = Some (PyStr "Done") /\
     r !! "Release Completed" = Some (PyStr "Yes")).
Proof.
  apply (prod_release_done foo_release_prd "Foo" foo_in_test_site);
    [reflexivity | discriminate | reflexivity | by vm_compute].
Defined.

(** X11: in the prod flow on a server whose address contains [prd] and
    not [tst], every test review entry of the self-service policy name
    ends with [Release Completed PRD] = [Yes], and the columns [Release
    Completed TST] and [Ready for Production] of the entries that were in
    the list are as they were. *)
Theorem prod_release_prd_review (i : inputs) (fpn : string) (s : site) :
  final_policy_name i = Some fpn ->
  fpn <> "" ->
  contains "tst" (jss_url i) = false ->
  contains "prd" (jss_url i) = true ->
  let sspn := self_service_policy_name_of fpn (version i) in
  let s' := final (main i) s in
  (exists j r, test_review s' !! j = Some r /\
     r !! "Self Service Content Name" = Some (PyStr sspn)) /\
  (forall j r, test_review s' !! j = Some r ->
     r !! "Self Service Content Name" = Some (PyStr sspn) ->
     r !! "Release Completed PRD" = Some (PyStr "Yes")) /\
  (forall j r, test_review s !! j = Some r ->
     exists r', test_review s' !! j = Some r' /\
       r' !! "Release Completed TST" = r !! "Release Completed TST" /\
       r' !! "Ready for Production" = r !! "Ready for Production").
Proof.
  intros Hf Hne Htst Hprd sspn s'. unfold s'. rewrite (final_prod i fpn) by done.
  unfold prod_site. cbn [test_review]. fold sspn.
  unfold review_prod. rewrite Htst, Hprd.
  set (c := [("Self Service Content Name", (OpEq, sspn))]).
  split_and!.
  - apply has_items_eq1. fold c. rewrite !has_items_upd by keys.
    apply ensure_entry_has.
  - intros j r Hm Hr. apply matches_key in Hr. fold c in Hr. sets Hm Hr.
  - intros j r Hm.
    apply (ensure_entry_old fpn sspn (column_defaults s JamfTestReview)) in Hm.
    destruct (upd_items_forth "Release Completed PRD" (PyStr "Yes") c _ j r Hm)
      as (r1 & Hm1 & Hk1 & _).
    exists r1. by rewrite !Hk1.
Qed.

Lemma prod_release_prd_review_witness :
  (exists j r,
     test_review (final (main foo_release_prd) foo_in_test_site) !! j = Some r /\
     r !! "Self Service Content Name" = Some (PyStr "Foo (Testing) v1.0")) /\
  (forall j r,
     test_review (final (main foo_release_prd) foo_in_test_site) !! j = Some r ->
     r !! "Self Service Content Name" = Some (PyStr "Foo (Testing) v1.0") ->
     r !! "Release Completed PRD" = Some (PyStr "Yes")) /\
  (forall j r, test_review foo_in_test_site !! j = Some r ->
     exists r',
       test_review (final (main foo_release_prd) foo_in_test_site) !! j
         = Some r' /\
       r' !! "Release Completed TST" = r !! "Release Completed TST" /\
       r' !! "Ready for Production" = r !! "Ready for Production").
Proof.
  apply (prod_release_prd_review foo_release_prd "Foo" foo_in_test_site);
    [reflexivity | discriminate | reflexivity | reflexivity].
Defined.

(** X12: in the prod flow on a server whose address does not contain
    [prd], the content list is left as it is and so is every entry that
    was in the test coordination list: the run only makes sure that the
    entries of the self-service policy name exist. *)
Theorem prod_elsewhere_only_ensures (i : inputs) (fpn : string) (s : site) :
  final_policy_name i = Some fpn ->
  fpn <> "" ->
  contains "prd" (jss_url i) = false ->
  let sspn := self_service_policy_name_of fpn (version i) in
  let s' := final (main i) s in
  content_list s' = content_list s /\
  (forall j r, test_coordination s !! j = Some r ->
     test_coordination s' !! j = Some r) /\
  (has JamfTestCoordination [("Self Service Content Name", (OpEq, sspn))] s = true ->
   test_coordination s' = test_coordination s) /\
  (exists j r, test_coordination s' !! j = Some r /\
     r !! "Self Service Content Name" = Some (PyStr sspn)).
Proof.
  intros Hf Hne Hprd sspn s'. unfold s'. rewrite (final_prod i fpn) by done.
  unfold prod_site. cbn [test_coordination content_list]. fold sspn.
  unfold coordination_prod, content_prod. rewrite Hprd.
  split_and!.
  - done.
  - intros j r Hm. by apply ensure_entry_old.
  - unfold has, ensure_entry. cbn [get_items]. by intros ->.
  - apply has_items_eq1, ensure_entry_has.
Qed.

Lemma prod_elsewhere_only_ensures_witness :
  content_list (final (main foo_release_tst) foo_in_test_site) =
    content_list foo_in_test_site /\
  (forall j r, test_coordination foo_in_test_site !! j = Some r ->
     test_coordination (final (main foo_release_tst) foo_in_test_site) !! j
       = Some r) /\
  (has JamfTestCoordination
     [("Self Service Content Name", (OpEq, "Foo (Testing) v1.0"))]
     foo_in_test_site = true ->
   test_coordination (final (main foo_release_tst) foo_in_test_site) =
     test_coordination foo_in_test_site) /\
  (exists j r,
     test_coordination (final (main foo_release_tst) foo_in_test_site) !! j
       = Some r /\
     r !! "Self Service Content Name" = Some (PyStr "Foo (Testing) v1.0")).
Proof.
  apply (prod_elsewhere_only_ensures foo_release_tst "Foo" foo_in_test_site);
    [reflexivity | discriminate | reflexivity].
Defined.

(** ** One entry for each key *)

Lemma open_count_upd p k v c (m : items) :
  (forall r, p (<[k := v]> r) = p r) ->
  open_count p (upd_items k v c m) = open_count p m.
Proof.
  intros Hp. unfold open_count. rewrite <- !(size_dom (D := gset positive)).
  f_equal. apply set_eq. intros j. rewrite !elem_of_dom. unfold is_Some.
  setoid_rewrite map_lookup_filter_Some. cbn [snd]. split.
  - intros (r & (r0 & Hm & ->)%upd_items_lookup_Some & Hr).
    exists r0. split; [done|]. destruct (matches c r0); [by rewrite <- Hp | done].
  - intros (r0 & Hm & Hr).
    exists (if matches c r0 then <[k := v]> r0 else r0). split.
    + apply upd_items_lookup_Some. eauto.
    + destruct (matches c r0); [by rewrite Hp | done].
Qed.

Lemma open_count_upd_key k v c c' (m : items) :
  k ∉ c'.*1 ->
  open_count (matches c') (upd_items k v c m) = open_count (matches c') m.
Proof. intros Hk. apply open_count_upd. intros r. by apply matches_insert_ne. Qed.

Lemma open_count_zero c (m : items) :
  has_items c m = false -> open_count (matches c) m = 0.
Proof.
  intros Hno. unfold open_count. apply map_size_empty_iff, map_empty.
  intros j. apply map_lookup_filter_None. right. intros r Hm. cbn [snd].
  by rewrite (proj1 (has_items_false c m) Hno j r Hm).
Qed.

Lemma open_count_pos c (m : items) :
  has_items c m = true -> 1 <= open_count (matches c) m.
Proof.
  intros (j & r & Hm & Hr)%has_items_true. unfold open_count.
  enough (size (filter (fun ir : positive * row => matches c ir.2 = true) m) <> 0)
    by lia.
  apply (map_size_ne_0_lookup_2 _ j). exists r. by apply map_lookup_filter_Some.
Qed.

Lemma open_count_add k x d (m : items) :
  open_count (matches [(k, (OpEq, x))]) (add_items k x d m) =
  S (open_count (matches [(k, (OpEq, x))]) m).
Proof.
  unfold add_items. apply open_count_insert_new; [apply lookup_fresh|].
  apply matches_key. by rewrite lookup_insert_eq.
Qed.

(** The sections create an entry of the key exactly when there is none. *)
Lemma ensure_entry_count fpn sspn d (m : items) :
  let key := [("Self Service Content Name", (OpEq, sspn))] in
  open_count (matches key) (ensure_entry fpn sspn d m) =
  Nat.max 1 (open_count (matches key) m).
Proof.
  intros key. unfold ensure_entry. fold key.
  destruct (has_items key m) eqn:Hh.
  - apply open_count_pos in Hh. lia.
  - rewrite open_count_upd_key by keys. unfold key.
    rewrite open_count_add. fold key. by rewrite (open_count_zero key m).
Qed.

Lemma coordination_prod_count i fpn sspn a d (m : items) :
  let key := [("Self Service Content Name", (OpEq, sspn))] in
  open_count (matches key) (coordination_prod i fpn sspn a d m) =
  Nat.max 1 (open_count (matches key) m).
Proof.
  intros key. unfold coordination_prod. fold key.
  destruct (contains "prd" (jss_url i)); [destruct a|];
    rewrite ?open_count_upd_key by keys; apply ensure_entry_count.
Qed.

Lemma review_prod_count i fpn sspn d (m : items) :
  let key := [("Self Service Content Name", (OpEq, sspn))] in
  open_count (matches key) (review_prod i fpn sspn d m) =
  Nat.max 1 (open_count (matches key) m).
Proof.
  intros key. unfold review_prod. fold key.
  destruct (contains "tst" (jss_url i)); [|destruct (contains "prd" (jss_url i))];
    rewrite ?open_count_upd_key by keys; apply ensure_entry_count.
Qed.

Lemma coordination_untested_count fpn sspn a d (m : items) :
  let key := [("Self Service Content Name", (OpEq, sspn))] in
  open_count (matches key) (coordination_untested fpn sspn a d m) =
  Nat.max 1 (open_count (matches key) m).
Proof.
  intros key. unfold coordination_untested. fold key.
  rewrite (has_items_upd "Release Completed") by keys.
  destruct (has_items key m) eqn:Hh.
  - apply open_count_pos in Hh.
    destruct a.
    + rewrite !open_count_upd_key by keys. lia.
    + cbn [foldl check_criteria]. unfold needs_review.
      rewrite !open_count_upd_key by keys. lia.
  - rewrite <- (open_count_zero key m Hh).
    destruct a; rewrite ?(open_count_upd_key "Status" _ _ key) by keys;
      rewrite (open_count_upd_key "Final Content Name") by keys;
      unfold key; rewrite open_count_add; fold key;
      rewrite !open_count_upd_key by keys;
      rewrite (open_count_zero key m Hh); done.
Qed.

Lemma review_untested_count i fpn sspn d (m : items) :
  let key := [("Self Service Content Name", (OpEq, sspn))] in
  open_count (matches key) (review_untested i fpn sspn d m) =
  Nat.max 1 (open_count (matches key) m).
Proof.
  intros key. unfold review_untested. fold key.
  destruct (has_items key m) eqn:Hh.
  - apply open_count_pos in Hh. rewrite !open_count_upd_key by keys. lia.
  - rewrite (open_count_zero key m Hh).
    rewrite !open_count_upd_key by keys. unfold key. rewrite open_count_add.
    fold key. rewrite open_count_zero; [done|].
    set (c1 := [("Final Content Name", (OpEq, fpn));
                ("Release Completed TST", (OpEq, "No"))]).
    destruct (has_items c1 m).
    + by apply has_items_del_false.
    + by rewrite has_items_upd by keys.
Qed.

(** X13: a run that does any work keeps the self-service policy name a
    key of the test coordination list and of the test review list: it
    creates an entry of the name exactly when the list has none, so the
    number of entries of the name is one when it was zero and is
    otherwise as it was. *)
Theorem self_service_policy_name_stays_key (i : inputs) (s : site) :
  truthy (final_policy_name i) || contains "prd" (jss_url i) = true ->
  let sspn :=
    self_service_policy_name_of (effective_final_policy_name i) (version i) in
  let key := [("Self Service Content Name", (OpEq, sspn))] in
  let s' := final (main i) s in
  open_count (matches key) (test_coordination s') =
    Nat.max 1 (open_count (matches key) (test_coordination s)) /\
  open_count (matches key) (test_review s') =
    Nat.max 1 (open_count (matches key) (test_review s)).
Proof.
  intros Hwork sspn key s'. unfold s', key, sspn, effective_final_policy_name.
  rewrite final_main.
  destruct (truthy (final_policy_name i)); cbn [negb].
  - unfold prod_site. cbn [test_coordination test_review].
    split; [apply coordination_prod_count | apply review_prod_count].
  - simpl in Hwork. rewrite Hwork.
    unfold untested_site. cbn [test_coordination test_review].
    split; [apply coordination_untested_count | apply review_untested_count].
Qed.

Lemma self_service_policy_name_stays_key_witness :
  let key := [("Self Service Content Name", (OpEq, "Foo (Testing) v1.0"))] in
  open_count (matches key)
    (test_coordination (final (main foo_untested) foo_released_site)) =
    Nat.max 1 (open_count (matches key) (test_coordination foo_released_site)) /\
  open_count (matches key)
    (test_review (final (main foo_untested) foo_released_site)) =
    Nat.max 1 (open_count (matches key) (test_review foo_released_site)).
Proof.
  apply (self_service_policy_name_stays_key foo_untested foo_released_site).
  reflexivity.
Defined.

(** ** The content list *)

Lemma add_items_old k x d (m : items) j r :
  m !! j = Some r -> add_items k x d m !! j = Some r.
Proof.
  intros Hm. rewrite lookup_add_items, decide_False; [done|].
  intros ->. by rewrite lookup_fresh in Hm.
Qed.

(** X14: the untested flow on a production server leaves an entry of the
    final policy name in the content list, and every such entry has
    [Untested Version] = the version, [Category] = the package category
    and [Content Type] = [Application], whether the entry was there or
    not. *)
Theorem untested_content_entry (i : inputs) (s : site) :
  truthy (final_policy_name i) = false ->
  contains "prd" (jss_url i) = true ->
  let fpn := untested_final_policy_name i in
  let s' := final (main i) s in
  (exists j r, content_list s' !! j = Some r /\
     r !! "Self Service Content" = Some (PyStr fpn)) /\
  (forall j r, content_list s' !! j = Some r ->
     r !! "Self Service Content" = Some (PyStr fpn) ->
     r !! "Untested Version" = Some (PyStr (version i)) /\
     r !! "Category" = Some (PyStr (category i)) /\
     r !! "Content Type" = Some (PyStr "Application")).
Proof.
  intros Hf Hprd fpn s'. unfold s'. rewrite final_main, Hf, Hprd. cbn [negb].
  unfold untested_site. cbn [content_list]. fold fpn.
  split; [apply has_items_eq1, content_untested_has|].
  intros j r Hm Hr. apply matches_key in Hr. unfold content_untested in Hm.
  set (c := [("Self Service Content", (OpEq, fpn))]) in *.
  split_and!.
  - apply upd_items_back in Hm as (r1 & Hm & Hk & Hc1).
    rewrite Hk by done. rewrite Hc1 in Hr by keys.
    apply upd_items_back in Hm as (r2 & Hm & Hk2 & Hc2).
    rewrite Hk2 by done. rewrite Hc2 in Hr by keys.
    sets Hm Hr.
  - apply upd_items_back in Hm as (r1 & Hm & Hk & Hc1).
    rewrite Hk by done. rewrite Hc1 in Hr by keys.
    sets Hm Hr.
  - sets Hm Hr.
Qed.

Lemma untested_content_entry_witness :
  (exists j r,
     content_list (final (main foo_untested) foo_in_test_site) !! j = Some r /\
     r !! "Self Service Content" = Some (PyStr "Foo")) /\
  (forall j r,
     content_list (final (main foo_untested) foo_in_test_site) !! j = Some r ->
     r !! "Self Service Content" = Some (PyStr "Foo") ->
     r !! "Untested Version" = Some (PyStr "1.0") /\
     r !! "Category" = Some (PyStr "Apps") /\
     r !! "Content Type" = Some (PyStr "Application")).
Proof.
  apply (untested_content_entry foo_untested foo_in_test_site); reflexivity.
Defined.

Lemma content_untested_count i fpn d (m : items) :
  let key := [("Self Service Content", (OpEq, fpn))] in
  open_count (matches key) (content_untested i fpn d m) =
  Nat.max 1 (open_count (matches key) m).
Proof.
  intros key. unfold content_untested. fold key.
  rewrite !open_count_upd_key by keys.
  destruct (has_items key m) eqn:Hh; cbn [negb].
  - apply open_count_pos in Hh. lia.
  - unfold key. rewrite open_count_add. fold key.
    by rewrite (open_count_zero key m).
Qed.

Lemma content_prod_count i fpn sspn d (m : items) :
  contains "prd" (jss_url i) = true ->
  let key := [("Self Service Content", (OpEq, fpn))] in
  open_count (matches key) (content_prod i fpn sspn d m) =
  Nat.max 1 (open_count (matches key) m).
Proof.
  intros Hprd key. unfold content_prod. rewrite Hprd. fold key.
  rewrite !open_count_upd_key by keys.
  destruct (has_items key m) eqn:Hh; cbn [negb].
  - apply open_count_pos in Hh. lia.
  - unfold key. rewrite open_count_add. fold key.
    by rewrite (open_count_zero key m).
Qed.

(** X15: on a production server a run keeps the final policy name a key
    of the content list: it creates an entry of the name in the content
    list exactly when there is none; on another server no run changes the
    content list. *)
Theorem content_list_key (i : inputs) (s : site) :
  let key :=
    [("Self Service Content", (OpEq, effective_final_policy_name i))] in
  let s' := final (main i) s in
  (contains "prd" (jss_url i) = true ->
   open_count (matches key) (content_list s') =
     Nat.max 1 (open_count (matches key) (content_list s))) /\
  (contains "prd" (jss_url i) = false -> content_list s' = content_list s).
Proof.
  intros key s'. unfold s', key, effective_final_policy_name.
  rewrite final_main.
  destruct (truthy (final_policy_name i)); cbn [negb].
  - unfold prod_site. cbn [content_list]. split; intros Hprd.
    + by apply content_prod_count.
    + unfold content_prod. by rewrite Hprd.
  - split; intros Hprd; rewrite Hprd; [|done].
    unfold untested_site. cbn [content_list]. apply content_untested_count.
Qed.

Lemma content_list_key_witness :
  let key := [("Self Service Content", (OpEq, "Foo"))] in
  open_count (matches key)
    (content_list (final (main foo_release_prd) foo_in_test_site)) =
  Nat.max 1 (open_count (matches key) (content_list foo_in_test_site)).
Proof.
  apply (content_list_key foo_release_prd foo_in_test_site). reflexivity.
Defined.

(** X16: no run removes an entry of the content list, and of an entry
    that was in the list a run writes at most the columns [Untested
    Version], [Category], [Content Type], [Prod. Version] and [Test
    Report]: the key [Self Service Content], the [Autostage] flag and
    every other column are as they were. *)
Theorem content_entries_kept (i : inputs) (s : site) (j : positive) (r : row) :
  content_list s !! j = Some r ->
  exists r', content_list (final (main i) s) !! j = Some r' /\
    forall k, k <> "Untested Version" -> k <> "Category" ->
      k <> "Content Type" -> k <> "Prod. Version" -> k <> "Test Report" ->
      r' !! k = r !! k.
Proof.
  intros Hm. rewrite final_main.
  assert (forall k1 v1 k2 v2 k3 v3 c (m0 : items),
            m0 !! j = Some r ->
            exists r',
              upd_items k3 v3 c (upd_items k2 v2 c (upd_items k1 v1 c m0)) !! j
                = Some r' /\
              forall k, k <> k1 -> k <> k2 -> k <> k3 -> r' !! k = r !! k) as H3.
  { intros k1 v1 k2 v2 k3 v3 c m0 Hm0.
    destruct (upd_items_forth k1 v1 c m0 j r Hm0) as (r1 & H1 & Hk1 & _).
    destruct (upd_items_forth k2 v2 c _ j r1 H1) as (r2 & H2 & Hk2 & _).
    destruct (upd_items_forth k3 v3 c _ j r2 H2) as (r3 & H3 & Hk3 & _).
    exists r3. split; [done|]. intros k ? ? ?.
    rewrite Hk3, Hk2, Hk1 by done. done. }
  destruct (negb (truthy (final_policy_name i)));
    [destruct (contains "prd" (jss_url i)) eqn:Hprd|].
  - unfold untested_site, content_untested. cbn [content_list].
    edestruct H3 as (r' & Hr' & Hk); [|exists r'; split; [exact Hr'|]].
    + destruct (negb _); [by apply add_items_old | done].
    + intros k ? ? ? ? ?. by apply Hk.
  - by exists r.
  - unfold prod_site, content_prod. cbn [content_list].
    destruct (contains "prd" (jss_url i)); [|by exists r].
    edestruct H3 as (r' & Hr' & Hk); [|exists r'; split; [exact Hr'|]].
    + destruct (negb _); [by apply add_items_old | done].
    + intros k ? ? ? ? ?. by apply Hk.
Qed.

Lemma content_entries_kept_witness :
  exists r',
    content_list (final (main foo_release_prd) autostage_site) !! 1%positive
      = Some r' /\
    forall k, k <> "Untested Version" -> k <> "Category" ->
      k <> "Content Type" -> k <> "Prod. Version" -> k <> "Test Report" ->
      r' !! k =
      (list_to_map [("Self Service Content", PyStr "Foo");
                    ("Autostage", PyStr "Yes")] : row) !! k.
Proof.
  apply (content_entries_kept foo_release_prd autostage_site 1%positive).
  reflexivity.
Defined.

(** ** What a run deletes *)

Lemma quiet_check_list P l c : about_deletes P -> traces P (check_list l c).
Proof.
  intros HP. unfold check_list.
  apply traces_bind; [by apply traces_call, HP | intros _].
  destruct (build_query c) as [fields query].
  apply traces_bind; [by apply traces_call, HP | intros rows; apply traces_ret].
Qed.

Lemma quiet_update_record P l k v c :
  about_deletes P -> traces P (update_record l k v c).
Proof.
  intros HP. unfold update_record.
  apply traces_bind; [by apply traces_call, HP | intros _].
  destruct (build_query c) as [fields query].
  apply traces_bind; [by apply traces_call, HP | intros rows].
  apply traces_for_each. intros r.
  apply traces_bind; [by apply traces_call, HP | intros _; apply traces_ret].
Qed.

Lemma quiet_add_record P l k v : about_deletes P -> traces P (add_record l k v).
Proof.
  intros HP. unfold add_record.
  apply traces_bind; [by apply traces_call, HP | intros _].
  apply traces_bind; [by apply traces_call, HP | intros _; apply traces_ret].
Qed.

Lemma quiet_connect P url user password :
  about_deletes P -> traces P (connect_sharepoint url user password).
Proof.
  intros HP. unfold connect_sharepoint.
  apply traces_bind; [by apply traces_call, HP | intros _; apply traces_ret].
Qed.

Lemma quiet_delete_loop P l acc rows :
  (forall ids, P (OpDelete l ids)) -> traces P (delete_loop l acc rows).
Proof.
  intros Hd. revert acc. induction rows as [|r rows IH]; intros acc;
    [apply traces_ret|].
  cbn [delete_loop]. apply traces_bind; [by apply traces_call | by intros _].
Qed.

Lemma quiet_delete_record P l c :
  about_deletes P -> (forall ids, P (OpDelete l ids)) ->
  traces P (delete_record l c).
Proof.
  intros HP Hd. unfold delete_record.
  apply traces_bind; [by apply traces_call, HP | intros _].
  destruct (build_query c) as [fields query].
  apply traces_bind; [by apply traces_call, HP | intros rows].
  by apply quiet_delete_loop.
Qed.

Ltac quiet_step HP :=
  first
    [ apply traces_ret
    | apply quiet_connect; exact HP
    | apply quiet_check_list; exact HP
    | apply quiet_update_record; exact HP
    | apply quiet_add_record; exact HP
    | apply quiet_delete_record; [exact HP | by intros]
    | apply traces_bind; [|intros ?]
    | apply traces_for_each; intros ?
    | lazymatch goal with
      | |- traces _ (if ?b then _ else _) => destruct b
      end ].

Lemma about_deletes_review_only : about_deletes deletes_review_only.
Proof. by intros []. Qed.

Lemma about_deletes_no_delete : about_deletes no_delete.
Proof. by intros []. Qed.

Lemma untested_deletes_review_only i : traces deletes_review_only (untested i).
Proof.
  pose proof about_deletes_review_only as HP.
  unfold untested, untested_content_list, untested_test_coordination,
    untested_test_review, check_autostage.
  repeat quiet_step HP.
Qed.

Lemma prod_no_delete i fpn : traces no_delete (prod i fpn).
Proof.
  pose proof about_deletes_no_delete as HP.
  unfold prod, prod_test_coordination, prod_test_review, prod_content_list,
    check_autostage.
  repeat quiet_step HP.
Qed.

(** X17: whatever the site answers, a run sends delete calls to the test
    review list only, and the prod flow sends none: entries of the
    content list and of the test coordination list are never deleted. *)
Theorem deletes_only_superseded_reviews (i : inputs) budget (s : site) :
  Forall deletes_review_only (trace (main i) budget s) /\
  (truthy (final_policy_name i) = true ->
   Forall no_delete (trace (main i) budget s)).
Proof.
  unfold main. split.
  - destruct (negb (truthy (final_policy_name i)));
      [destruct (contains "prd" (jss_url i))|].
    + apply untested_deletes_review_only.
    + apply traces_ret.
    + eapply Forall_impl; [apply prod_no_delete|]. by intros [].
  - intros ->. cbn [negb]. apply prod_no_delete.
Qed.

Lemma deletes_only_superseded_reviews_witness :
  Forall deletes_review_only (trace (main foo_untested) None foo_in_test_site) /\
  Forall no_delete (trace (main foo_release_prd) None foo_in_test_site).
Proof.
  split.
  - apply (deletes_only_superseded_reviews foo_untested None foo_in_test_site).
  - apply (deletes_only_superseded_reviews foo_release_prd None foo_in_test_site).
    reflexivity.
Defined.

(** ** The untested flow on a version that has entries *)

Lemma autostage_flag_untested i fpn d (m : items) :
  has_items [("Self Service Content", (OpEq, fpn))] m = true ->
  has_items (autostage_criteria fpn) (content_untested i fpn d m) =
  has_items (autostage_criteria fpn) m.
Proof.
  intros Hh. unfold content_untested. rewrite Hh. cbn [negb].
  unfold autostage_criteria. by rewrite !has_items_upd by keys.
Qed.

Lemma has_autostage_has_content fpn (m : items) :
  has_items (autostage_criteria fpn) m = true ->
  has_items [("Self Service Content", (OpEq, fpn))] m = true.
Proof.
  intros (j & r & Hm & (H1 & _)%matches_cons)%has_items_true.
  apply has_items_true. exists j, r. split; [done|].
  apply matches_cons. by split.
Qed.

Lemma needs_review_miss sspn (m : items) check j r :
  m !! j = Some r -> r !! "Status" <> Some (PyStr check) ->
  needs_review sspn m check !! j = Some r.
Proof.
  intros Hm Hst. unfold needs_review. apply upd_items_skip; [done|].
  apply not_true_is_false.
  by intros (_ & (_ & (H3%satisfies_eq & _)%matches_cons)%matches_cons)%matches_cons.
Qed.

Lemma needs_review_hit sspn (m : items) check j r :
  m !! j = Some r ->
  r !! "Self Service Content Name" = Some (PyStr sspn) ->
  r !! "Release Completed" = Some (PyStr "No") ->
  r !! "Status" = Some (PyStr check) ->
  needs_review sspn m check !! j = Some (<["Status" := PyStr "Needs review"]> r).
Proof.
  intros Hm H1 H2 H3. unfold needs_review. rewrite lookup_upd_items, Hm.
  cbn [fmap option_fmap option_map].
  replace (matches _ r) with true; [done|]. symmetry.
  repeat (apply matches_cons; split; [by apply satisfies_eq|]). done.
Qed.

Lemma needs_review_fold_hit sspn (m : items) check j r :
  In check check_criteria ->
  m !! j = Some r ->
  r !! "Self Service Content Name" = Some (PyStr sspn) ->
  r !! "Release Completed" = Some (PyStr "No") ->
  r !! "Status" = Some (PyStr check) ->
  foldl (needs_review sspn) m check_criteria !! j =
    Some (<["Status" := PyStr "Needs review"]> r).
Proof.
  intros Hin Hm H1 H2 H3. cbn [foldl check_criteria].
  assert (forall m' c, m' !! j = Some (<["Status" := PyStr "Needs review"]> r) ->
            c <> "Needs review" ->
            needs_review sspn m' c !! j =
              Some (<["Status" := PyStr "Needs review"]> r)) as Hafter.
  { intros m' c Hm' Hc. apply needs_review_miss; [done|].
    rewrite lookup_insert_eq. congruence. }
  simpl in Hin. destruct Hin as [<-|[<-|[<-|[<-|[]]]]].
  - do 3 (apply Hafter; [|done]). by apply needs_review_hit.
  - do 2 (apply Hafter; [|done]). apply needs_review_hit; try done.
    apply needs_review_miss; [done | by rewrite H3].
  - apply Hafter; [|done]. apply needs_review_hit; try done.
    do 2 (apply needs_review_miss; [|by rewrite H3]). done.
  - apply needs_review_hit; try done.
    do 3 (apply needs_review_miss; [|by rewrite H3]). done.
Qed.

(** X18: the untested flow run on a version whose test coordination
    entry exists, for a product that is in the content list and is not
    marked for autostaging: an entry of the self-service policy name in a
    state [In progress], [Done], [Deferred] or [Waiting for other test
    manager], released or not, ends unreleased and in the state [Needs
    review]; its other columns are as they were. *)
Theorem untested_existing_version_needs_review
    (i : inputs) (s : site) (j : positive) (r : row) (check : string) :
  truthy (final_policy_name i) = false ->
  contains "prd" (jss_url i) = true ->
  let fpn := untested_final_policy_name i in
  let sspn := self_service_policy_name_of fpn (version i) in
  has JamfContentList [("Self Service Content", (OpEq, fpn))] s = true ->
  has JamfContentList (autostage_criteria fpn) s = false ->
  test_coordination s !! j = Some r ->
  r !! "Self Service Content Name" = Some (PyStr sspn) ->
  In check check_criteria ->
  r !! "Status" = Some (PyStr check) ->
  (r !! "Release Completed" = Some (PyStr "Yes") \/
   r !! "Release Completed" = Some (PyStr "No")) ->
  exists r', test_coordination (final (main i) s) !! j = Some r' /\
    r' !! "Release Completed" = Some (PyStr "No") /\
    r' !! "Status" = Some (PyStr "Needs review") /\
    forall k, k <> "Release Completed" -> k <> "Status" -> r' !! k = r !! k.
Proof.
  intros Hf Hprd fpn sspn Hcl Hauto Hm Hs Hin Hst Hrc.
  rewrite final_main, Hf, Hprd. cbn [negb].
  unfold untested_site. cbn [test_coordination]. fold fpn sspn.
  unfold has in Hcl, Hauto. cbn [get_items] in Hcl, Hauto.
  rewrite autostage_flag_untested, Hauto by done.
  unfold coordination_untested.
  set (crel := [("Self Service Content Name", (OpEq, sspn));
                ("Release Completed", (OpEq, "Yes"))]).
  set (key := [("Self Service Content Name", (OpEq, sspn))]).
  set (m0 := upd_items "Release Completed" (PyStr "No") crel (test_coordination s)).
  assert (exists r0, m0 !! j = Some r0 /\
            r0 !! "Release Completed" = Some (PyStr "No") /\
            forall k, k <> "Release Completed" -> r0 !! k = r !! k)
    as (r0 & Hm0 & Hrc0 & Hk0).
  { unfold m0. rewrite lookup_upd_items, Hm. cbn [fmap option_fmap option_map].
    eexists. split; [done|]. destruct (matches crel r) eqn:Hrel.
    - split; [by rewrite lookup_insert_eq|].
      intros k Hk. by rewrite lookup_insert_ne.
    - split; [|done]. destruct Hrc as [Hy|]; [|done].
      apply not_true_iff_false in Hrel. destruct Hrel.
      repeat (apply matches_cons; split; [by apply satisfies_eq|]). done. }
  assert (has_items key m0 = true) as ->.
  { apply has_items_true. exists j, r0. split; [done|].
    apply matches_key. by rewrite Hk0. }
  exists (<["Status" := PyStr "Needs review"]> r0). split_and!.
  - apply (needs_review_fold_hit sspn m0 check); try done; by rewrite Hk0.
  - by rewrite lookup_insert_ne.
  - by rewrite lookup_insert_eq.
  - intros k Hk1 Hk2. rewrite lookup_insert_ne by done. by apply Hk0.
Qed.

Lemma untested_existing_version_needs_review_witness :
  exists r',
    test_coordination (final (main foo_untested) foo_released_site) !! 1%positive
      = Some r' /\
    r' !! "Release Completed" = Some (PyStr "No") /\
    r' !! "Status" = Some (PyStr "Needs review") /\
    forall k, k <> "Release Completed" -> k <> "Status" ->
      r' !! k =
      (list_to_map [("Self Service Content Name", PyStr "Foo (Testing) v1.0");
                    ("Final Content Name", PyStr "Foo");
                    ("Release Completed", PyStr "Yes");
                    ("Status", PyStr "Done")] : row) !! k.
Proof.
  apply (untested_existing_version_needs_review foo_untested foo_released_site
           1%positive _ "Done");
    [ reflexivity | reflexivity | by vm_compute | by vm_compute | reflexivity
    | reflexivity | simpl; tauto | reflexivity | left; reflexivity ].
Defined.

(** X19: the untested flow run on a version whose test review entry
    exists resets it in place: every entry of the self-service policy name
    ends with the three flags at [No] and with the executable command and
    the process name of the run, no entry is created or deleted, and the
    entries of other names are as they were. *)
Theorem untested_existing_review_reset (i : inputs) (s : site) :
  truthy (final_policy_name i) = false ->
  contains "prd" (jss_url i) = true ->
  let fpn := untested_final_policy_name i in
  let sspn := self_service_policy_name_of fpn (version i) in
  let s' := final (main i) s in
  has JamfTestReview [("Self Service Content Name", (OpEq, sspn))] s = true ->
  dom (test_review s') = dom (test_review s) /\
  (forall j r, test_review s' !! j = Some r ->
     r !! "Self Service Content Name" = Some (PyStr sspn) ->
     r !! "Release Completed TST" = Some (PyStr "No") /\
     r !! "Release Completed PRD" = Some (PyStr "No") /\
     r !! "Ready for Production" = Some (PyStr "No") /\
     r !! "Executable_Command" = Some (of_opt (executable_command i)) /\
     r !! "Process_Name" = Some (of_opt (process_name i))) /\
  (forall j r, test_review s !! j = Some r ->
     r !! "Self Service Content Name" <> Some (PyStr sspn) ->
     test_review s' !! j = Some r).
Proof.
  intros Hf Hprd fpn sspn s' Hh. unfold s'.
  rewrite final_main, Hf, Hprd. cbn [negb].
  unfold untested_site. cbn [test_review]. fold fpn sspn.
  unfold has in Hh. cbn [get_items] in Hh.
  unfold review_untested. rewrite Hh.
  set (c := [("Self Service Content Name", (OpEq, sspn))]).
  split_and!.
  - by rewrite !dom_upd_items.
  - intros j r Hm Hr. apply matches_key in Hr. fold c in Hr.
    split_and!.
    + do 4 (apply upd_items_back in Hm as (? & Hm & Hk & Hc1);
            rewrite Hk by done; rewrite Hc1 in Hr by keys; clear Hk Hc1).
      sets Hm Hr.
    + do 3 (apply upd_items_back in Hm as (? & Hm & Hk & Hc1);
            rewrite Hk by done; rewrite Hc1 in Hr by keys; clear Hk Hc1).
      sets Hm Hr.
    + do 2 (apply upd_items_back in Hm as (? & Hm & Hk & Hc1);
            rewrite Hk by done; rewrite Hc1 in Hr by keys; clear Hk Hc1).
      sets Hm Hr.
    + do 1 (apply upd_items_back in Hm as (? & Hm & Hk & Hc1);
            rewrite Hk by done; rewrite Hc1 in Hr by keys; clear Hk Hc1).
      sets Hm Hr.
    + sets Hm Hr.
  - intros j r Hm Hr.
    assert (matches c r = false) as Hc.
    { apply not_true_is_false. by intros (H1%satisfies_eq & _)%matches_cons. }
    by do 5 (apply upd_items_skip; [|done]).
Qed.

Lemma untested_existing_review_reset_witness :
  dom (test_review (final (main foo_untested) foo_released_site)) =
    dom (test_review foo_released_site) /\
  (forall j r,
     test_review (final (main foo_untested) foo_released_site) !! j = Some r ->
     r !! "Self Service Content Name" = Some (PyStr "Foo (Testing) v1.0") ->
     r !! "Release Completed TST" = Some (PyStr "No") /\
     r !! "Release Completed PRD" = Some (PyStr "No") /\
     r !! "Ready for Production" = Some (PyStr "No") /\
     r !! "Executable_Command" = Some PyNone /\
     r !! "Process_Name" = Some PyNone) /\
  (forall j r, test_review foo_released_site !! j = Some r ->
     r !! "Self Service Content Name" <> Some (PyStr "Foo (Testing) v1.0") ->
     test_review (final (main foo_untested) foo_released_site) !! j = Some r).
Proof.
  apply (untested_existing_review_reset foo_untested foo_released_site);
    [reflexivity | reflexivity | by vm_compute].
Defined.

(** X20: the untested flow on a production server, for a product whose
    content list entry is marked for autostaging: every test coordination
    entry of the self-service policy name, found or created, ends in the
    state [Autostage]. *)
Theorem untested_autostage (i : inputs) (s : site) :
  truthy (final_policy_name i) = false ->
  contains "prd" (jss_url i) = true ->
  let fpn := untested_final_policy_name i in
  let sspn := self_service_policy_name_of fpn (version i) in
  let s' := final (main i) s in
  has JamfContentList (autostage_criteria fpn) s = true ->
  (exists j r, test_coordination s' !! j = Some r /\
     r !! "Self Service Content Name" = Some (PyStr sspn)) /\
  (forall j r, test_coordination s' !! j = Some r ->
     r !! "Self Service Content Name" = Some (PyStr sspn) ->
     r !! "Status" = Some (PyStr "Autostage")).
Proof.
  intros Hf Hprd fpn sspn s' Ha. unfold s'.
  rewrite final_main, Hf, Hprd. cbn [negb].
  unfold untested_site. cbn [test_coordination]. fold fpn sspn.
  unfold has in Ha. cbn [get_items] in Ha.
  rewrite autostage_flag_untested, Ha by (by apply has_autostage_has_content).
  split; [apply has_items_eq1, coordination_untested_has|].
  intros j r Hm Hr. unfold coordination_untested in Hm.
  set (key := [("Self Service Content Name", (OpEq, sspn))]) in *.
  assert (matches key r = true) as Hk by (by apply matches_key).
  destruct (has_items key _).
  - apply upd_items_lookup_Some in Hm as (r0 & _ & ->).
    set (cna := [("Self Service Content Name", (OpEq, sspn));
                 ("Status", (OpNeq, "Autostage"))]) in *.
    destruct (matches cna r0) eqn:Hr0; [by rewrite lookup_insert_eq|].
    destruct (decide (r0 !! "Status" = Some (PyStr "Autostage"))) as [|Hn];
      [done|].
    apply not_true_iff_false in Hr0. destruct Hr0.
    apply matches_cons; split; [by apply satisfies_eq|].
    apply matches_cons; split; [by apply satisfies_neq | done].
  - sets Hm Hk.
Qed.

Lemma untested_autostage_witness :
  (exists j r,
     test_coordination (final (main foo_untested) autostage_site) !! j = Some r /\
     r !! "Self Service Content Name" = Some (PyStr "Foo (Testing) v1.0")) /\
  (forall j r,
     test_coordination (final (main foo_untested) autostage_site) !! j = Some r ->
     r !! "Self Service Content Name" = Some (PyStr "Foo (Testing) v1.0") ->
     r !! "Status" = Some (PyStr "Autostage")).
Proof.
  apply (untested_autostage foo_untested autostage_site);
    [reflexivity | reflexivity | by vm_compute].
Defined.

(** ** The connection and the back reference *)

(** X21: a run that does any work connects first, with the user name
    prefixed by [d] and a backslash; when the connection fails the run
    ends with the error, no list is read or written and the site is as it
    was. *)
Theorem connection_comes_first (i : inputs) (s : site) :
  truthy (final_policy_name i) || contains "prd" (jss_url i) = true ->
  (exists calls,
     trace (main i) None s =
       OpSite (sp_url i) ("d" +:+ String (ascii_of_nat 92) (sp_user i)) (sp_pass i)
       :: calls) /\
  run (main i) (Some 0) s = (Raised RemoteOperationError, s, []).
Proof.
  intros Hwork. unfold trace, main.
  destruct (truthy (final_policy_name i)); cbn [negb].
  - unfold prod, connect_sharepoint, call. cbn [bind run fmap option_fmap option_map perform].
    destruct (run _ None s) as [[res s2] tr]. eauto.
  - simpl in Hwork. rewrite Hwork.
    unfold untested, connect_sharepoint, call.
    cbn [bind run fmap option_fmap option_map perform].
    destruct (run _ None s) as [[res s2] tr]. eauto.
Qed.

Lemma connection_comes_first_witness :
  (exists calls,
     trace (main foo_untested) None empty_site =
       OpSite (sp_url foo_untested)
         ("d" +:+ String (ascii_of_nat 92) (sp_user foo_untested))
         (sp_pass foo_untested)
       :: calls) /\
  run (main foo_untested) (Some 0) empty_site =
    (Raised RemoteOperationError, empty_site, []).
Proof. apply (connection_comes_first foo_untested empty_site). reflexivity. Defined.

Lemma ensure_entry_reference fpn sspn d (m : items) j r :
  let key := [("Self Service Content Name", (OpEq, sspn))] in
  has_items key m = false ->
  ensure_entry fpn sspn d m !! j = Some r ->
  matches key r = true ->
  r !! "Final Content Name" = Some (PyStr fpn).
Proof.
  intros key Hno Hm Hr. unfold ensure_entry in Hm. fold key in Hm.
  rewrite Hno in Hm. sets Hm Hr.
Qed.

(** X22: when a run creates the test coordination entry or the test
    review entry of the self-service policy name (the list had none), the
    entries of that name have the final policy name as [Final Content
    Name] at the end of the run, in the untested flow and in the prod
    flow. *)
Theorem created_entries_reference_content (i : inputs) (s : site) :
  truthy (final_policy_name i) || contains "prd" (jss_url i) = true ->
  let fpn := effective_final_policy_name i in
  let sspn := self_service_policy_name_of fpn (version i) in
  let key := [("Self Service Content Name", (OpEq, sspn))] in
  let s' := final (main i) s in
  (has_items key (test_coordination s) = false ->
   forall j r, test_coordination s' !! j = Some r ->
     r !! "Self Service Content Name" = Some (PyStr sspn) ->
     r !! "Final Content Name" = Some (PyStr fpn)) /\
  (has_items key (test_review s) = false ->
   forall j r, test_review s' !! j = Some r ->
     r !! "Self Service Content Name" = Some (PyStr sspn) ->
     r !! "Final Content Name" = Some (PyStr fpn)).
Proof.
  intros Hwork fpn sspn key s'.
  unfold s', key, sspn, fpn, effective_final_policy_name. rewrite final_main.
  destruct (truthy (final_policy_name i)); cbn [negb].
  - set (f := default "" (final_policy_name i)).
    set (x := self_service_policy_name_of f (version i)).
    set (k := [("Self Service Content Name", (OpEq, x))]).
    unfold prod_site. cbn [test_coordination test_review]. fold x. split.
    + intros Hno j r Hm Hr. apply matches_key in Hr. fold k in Hr.
      unfold coordination_prod in Hm. fold k in Hm.
      destruct (contains "prd" (jss_url i)).
      * destruct (has_items (autostage_criteria f) (content_list s));
          do 2 (apply upd_items_back in Hm as (? & Hm & Hk & Hc1);
                rewrite Hk by done; rewrite Hc1 in Hr by keys; clear Hk Hc1);
          by eapply ensure_entry_reference.
      * by eapply ensure_entry_reference.
    + intros Hno j r Hm Hr. apply matches_key in Hr. fold k in Hr.
      unfold review_prod in Hm. fold k in Hm.
      destruct (contains "tst" (jss_url i));
        [|destruct (contains "prd" (jss_url i))].
      * do 2 (apply upd_items_back in Hm as (? & Hm & Hk & Hc1);
              rewrite Hk by done; rewrite Hc1 in Hr by keys; clear Hk Hc1).
        by eapply ensure_entry_reference.
      * apply upd_items_back in Hm as (? & Hm & Hk & Hc1).
        rewrite Hk by done. rewrite Hc1 in Hr by keys.
        by eapply ensure_entry_reference.
      * by eapply ensure_entry_reference.
  - simpl in Hwork. rewrite Hwork.
    set (f := untested_final_policy_name i).
    set (x := self_service_policy_name_of f (version i)).
    set (k := [("Self Service Content Name", (OpEq, x))]).
    unfold untested_site. cbn [test_coordination test_review]. fold f x. split.
    + intros Hno j r Hm Hr. apply matches_key in Hr. fold k in Hr.
      unfold coordination_untested in Hm. fold k in Hm.
      rewrite (has_items_upd "Release Completed") in Hm by keys.
      rewrite Hno in Hm.
      destruct (has_items (autostage_criteria f) _).
      * apply upd_items_back in Hm as (? & Hm & Hk & Hc1).
        rewrite Hk by done. rewrite Hc1 in Hr by keys. sets Hm Hr.
      * sets Hm Hr.
    + intros Hno j r Hm Hr. apply matches_key in Hr. fold k in Hr.
      unfold review_untested in Hm. fold k in Hm. rewrite Hno in Hm.
      do 2 (apply upd_items_back in Hm as (? & Hm & Hk & Hc1);
            rewrite Hk by done; rewrite Hc1 in Hr by keys; clear Hk Hc1).
      sets Hm Hr.
Qed.

Lemma created_entries_reference_content_witness :
  let key := [("Self Service Content Name", (OpEq, "Foo (Testing) v1.0"))] in
  (has_items key (test_coordination foo_in_test_site) = false ->
   forall j r,
     test_coordination (final (main foo_release_prd) foo_in_test_site) !! j
       = Some r ->
     r !! "Self Service Content Name" = Some (PyStr "Foo (Testing) v1.0") ->
     r !! "Final Content Name" = Some (PyStr "Foo")) /\
  (has_items key (test_review foo_in_test_site) = false ->
   forall j r,
     test_review (final (main foo_release_prd) foo_in_test_site) !! j = Some r ->
     r !! "Self Service Content Name" = Some (PyStr "Foo (Testing) v1.0") ->
     r !! "Final Content Name" = Some (PyStr "Foo")).
Proof.
  apply (created_entries_reference_content foo_release_prd foo_in_test_site).
  reflexivity.
Defined.
